(** * A feed-forward neural network: shallow embedding of package [nn]

    The Go package keeps its matrices behind pointers ([*mat.Dense]) and its
    layers in a slice, and several functions overwrite slice elements in
    place.  The embedding therefore threads an explicit [world] (matrix heap,
    layer arrays, random source, files, standard output) through a small
    state-and-panic monad.

    Conventions.
    - [float64] is idealised as the real numbers [R]: rounding, overflow,
      infinities and NaN are outside the model.
    - Go's [int] is [Z] (no wrap-around: the sizes involved are slice
      lengths).
    - [gonum/mat], [archive/zip], [encoding/json], [math/rand] and [os] are
      external libraries; each primitive used is embedded by its documented
      contract, panics included. *)

From Stdlib Require Import String Ascii Decimal DecimalString DecimalPos DecimalZ.
From Stdlib Require Import Reals Lra Lia ZArith Bool Arith List.
Import ListNotations.

Local Open Scope Z_scope.

(* ================================================================= *)
(** ** Panics and the state monad *)

(** What a goroutine can panic with in this package. *)
Inductive panic : Type :=
| errInvalidDataSize     (* the package's own error value *)
| IndexOutOfRange        (* runtime error: index out of range *)
| NilDereference         (* nil pointer / nil interface method call *)
| IntegerDivideByZero    (* runtime error: integer divide by zero *)
| MakeSliceLen           (* makeslice: len out of range *)
| ErrShape               (* mat: dimension mismatch *)
| ErrZeroLength          (* mat: zero length in matrix dimension *)
| ErrNegativeDimension   (* mat: negative dimension *)
| ErrRowAccess           (* mat: row index out of range *)
| ErrColAccess           (* mat: column index out of range *)
| UnmarshalNonEmpty      (* mat: unmarshal into a non-empty matrix *)
| InterfaceConversion.   (* failed type assertion *)

Inductive result (A : Type) : Type :=
| Ok (a : A)
| Panic (e : panic).
Arguments Ok {A} a.
Arguments Panic {A} e.

(** A dense matrix value: dimensions and row-major entries. *)
Record Dense : Type := mkDense { rows : nat; cols : nat; data : list R }.

(** A [mat.Matrix] interface value: nil, a [*mat.Dense], or the
    [mat.Transpose] view that [T()] wraps around one. *)
Inductive Matrix : Type :=
| MNil
| MDense (p : nat)
| MTranspose (p : nat).

(** layer is a layer of the network *)
Record layer : Type := mkLayer { weights : Matrix; biases : Matrix }.

(** A [[]layer] slice header: nil, or the address of its backing array
    (the package never reslices, so a slice spans its whole array). *)
Inductive slice : Type :=
| NilSlice
| SliceOf (a : nat).

(** NetworkOptions is for exporting network information to JSON.  The Go
    fields [I], [O] and [H] are [optI], [optO] and [optH] here ([I] and [O]
    are taken by [True] and [nat]). *)
Record NetworkOptions : Type := mkOptions {
  optI : Z; optO : Z; optH : list Z; Learn : R;
  WPaths : list string; BPaths : list string
}.

(** The bytes of an archive entry, represented by what the two decoders make
    of them: [encoding/json] and gonum's binary matrix codec are taken to be
    lossless on the values they encode. *)
Inductive payload : Type :=
| Json (opts : NetworkOptions)   (* text json.Unmarshal decodes to opts *)
| Blob (d : Dense)               (* a mat.Dense in gonum's binary format *)
| Junk.                          (* anything else *)

Definition archive : Type := list (string * payload).

Inductive file : Type :=
| ZipFile (entries : archive)
| Partial                        (* created, archive not yet closed *)
| Unwritable.                    (* a path os.Create cannot create *)

(** What [Train] prints (elapsed times are not modelled). *)
Inductive event : Type :=
| BeganTraining (epochs : Z)
| CompletedEpoch (epoch epochs : Z) (avgCost : R)
| Trained (epochs : Z).

Record world : Type := mkWorld {
  denses : list Dense;           (* the *mat.Dense objects; address = index *)
  arrays : list (list layer);    (* backing arrays of []layer slices *)
  rand_source : nat -> R;        (* the draws rand.Float64 will return *)
  files : list (string * file);  (* the file system *)
  stdout : list event
}.

Definition M (A : Type) : Type := world -> result A * world.

Definition ret {A} (a : A) : M A := fun w => (Ok a, w).

Definition bind {A B} (c : M A) (k : A -> M B) : M B :=
  fun w => match c w with
           | (Ok a, w') => k a w'
           | (Panic e, w') => (Panic e, w')
           end.

Definition throw {A} (e : panic) : M A := fun w => (Panic e, w).

Declare Scope go_scope.
Delimit Scope go_scope with go.
Notation "x <- c1 ;; c2" := (bind c1 (fun x => c2))
  (at level 61, c1 at next level, right associativity) : go_scope.
Notation "' pat <- c1 ;; c2" := (bind c1 (fun x => match x with pat => c2 end))
  (at level 61, pat pattern, c1 at next level, right associativity) : go_scope.
Notation "c1 ;;; c2" := (bind c1 (fun _ => c2))
  (at level 61, right associativity) : go_scope.
Local Open Scope go_scope.

(** [for idx := start; ...; idx++] run [count] times, threading [s]. *)
Fixpoint for_up {St} (count : nat) (idx : Z) (body : Z -> St -> M St) (s : St) : M St :=
  match count with
  | O => ret s
  | S count' => s' <- body idx s ;; for_up count' (idx + 1) body s'
  end.

(** [for idx := k-1; idx >= 0; idx--], threading [s]. *)
Fixpoint for_down {St} (k : nat) (body : Z -> St -> M St) (s : St) : M St :=
  match k with
  | O => ret s
  | S k' => s' <- body (Z.of_nat k') s ;; for_down k' body s'
  end.

(* ================================================================= *)
(** ** Slices of values *)

Definition len {A} (l : list A) : Z := Z.of_nat (length l).

(** [l[k]] *)
Definition index {A} (l : list A) (k : Z) : M A :=
  if (k <? 0) || (len l <=? k) then throw IndexOutOfRange
  else match nth_error l (Z.to_nat k) with
       | Some a => ret a
       | None => throw IndexOutOfRange
       end.

Fixpoint update {A} (l : list A) (k : nat) (a : A) : list A :=
  match l, k with
  | [], _ => []
  | _ :: l', O => a :: l'
  | x :: l', S k' => x :: update l' k' a
  end.

(** [l[k] = a] on a local slice *)
Definition set_index {A} (l : list A) (k : Z) (a : A) : M (list A) :=
  if (k <? 0) || (len l <=? k) then throw IndexOutOfRange
  else ret (update l (Z.to_nat k) a).

(** [make([]T, n)] with zero value [z] *)
Definition make {A} (z : A) (n : Z) : M (list A) :=
  if n <? 0 then throw MakeSliceLen else ret (repeat z (Z.to_nat n)).

(* ================================================================= *)
(** ** Matrix values (the arithmetic gonum performs) *)

Definition at_ (m : Dense) (r c : nat) : R := nth (r * cols m + c) (data m) 0%R.

Definition tabulate (r c : nat) (f : nat -> nat -> R) : Dense :=
  mkDense r c (map (fun k => f (k / c)%nat (k mod c)%nat) (seq 0 (r * c))).

Fixpoint sum_upto (n : nat) (f : nat -> R) : R :=
  match n with
  | O => 0%R
  | S n' => (sum_upto n' f + f n')%R
  end.

Definition zeros (r c : nat) : Dense := mkDense r c (repeat 0%R (r * c)).
Definition transpose (a : Dense) : Dense :=
  tabulate (cols a) (rows a) (fun r c => at_ a c r).
Definition matmul (a b : Dense) : Dense :=
  tabulate (rows a) (cols b)
    (fun r c => sum_upto (cols a) (fun k => at_ a r k * at_ b k c)%R).
Definition hadamard (a b : Dense) : Dense :=
  tabulate (rows a) (cols a) (fun r c => at_ a r c * at_ b r c)%R.
Definition apply (fn : Z -> Z -> R -> R) (a : Dense) : Dense :=
  tabulate (rows a) (cols a) (fun r c => fn (Z.of_nat r) (Z.of_nat c) (at_ a r c)).
Definition scale (f : R) (a : Dense) : Dense :=
  tabulate (rows a) (cols a) (fun r c => f * at_ a r c)%R.
Definition madd (a b : Dense) : Dense :=
  tabulate (rows a) (cols a) (fun r c => at_ a r c + at_ b r c)%R.
Definition msub (a b : Dense) : Dense :=
  tabulate (rows a) (cols a) (fun r c => at_ a r c - at_ b r c)%R.

Definition IsEmpty (d : Dense) : bool := (rows d =? 0)%nat || (cols d =? 0)%nat.

(* ================================================================= *)
(** ** The heap of [*mat.Dense] objects and the [mat] primitives *)

Definition alloc_dense (d : Dense) : M nat :=
  fun w => (Ok (length (denses w)),
            mkWorld (denses w ++ [d]) (arrays w) (rand_source w) (files w) (stdout w)).

Definition load_dense (p : nat) : M Dense :=
  fun w => match nth_error (denses w) p with
           | Some d => (Ok d, w)
           | None => (Panic NilDereference, w)
           end.

Definition store_dense (p : nat) (d : Dense) : M unit :=
  fun w => (Ok tt,
            mkWorld (update (denses w) p d) (arrays w) (rand_source w) (files w) (stdout w)).

(** The value a matrix interface denotes. *)
Definition value (m : Matrix) : M Dense :=
  match m with
  | MNil => throw NilDereference
  | MDense p => load_dense p
  | MTranspose p => d <- load_dense p ;; ret (transpose d)
  end.

(** [mat.NewDense(r, c, data)]; [None] is a nil data slice. *)
Definition NewDense (r c : Z) (content : option (list R)) : M nat :=
  if (r <=? 0) || (c <=? 0) then
    if (r =? 0) || (c =? 0) then throw ErrZeroLength else throw ErrNegativeDimension
  else match content with
       | None => alloc_dense (zeros (Z.to_nat r) (Z.to_nat c))
       | Some l =>
           if r * c =? len l then alloc_dense (mkDense (Z.to_nat r) (Z.to_nat c) l)
           else throw ErrShape
       end.

(** [m.Dims()] *)
Definition Dims (m : Matrix) : M (Z * Z) :=
  d <- value m ;; ret (Z.of_nat (rows d), Z.of_nat (cols d)).

(** [m.T()] *)
Definition T (m : Matrix) : M Matrix :=
  match m with
  | MNil => throw NilDereference
  | MDense p => ret (MTranspose p)
  | MTranspose p => ret (MDense p)
  end.

(** [m.At(r, c)] *)
Definition At (m : Matrix) (r c : Z) : M R :=
  d <- value m ;;
  if (r <? 0) || (Z.of_nat (rows d) <=? r) then throw ErrRowAccess
  else if (c <? 0) || (Z.of_nat (cols d) <=? c) then throw ErrColAccess
  else ret (at_ d (Z.to_nat r) (Z.to_nat c)).

(** A receiver taking a result of shape [r]x[c]: an empty receiver is
    resized, any other must already have that shape. *)
Definition reuseAs (res : nat) (r c : nat) : M unit :=
  d <- load_dense res ;;
  if IsEmpty d then ret tt
  else if (rows d =? r)%nat && (cols d =? c)%nat then ret tt
  else throw ErrShape.

(** [res.Product(a, b)] with two factors, that is [res.Mul(a, b)] *)
Definition Product (res : nat) (a b : Matrix) : M unit :=
  x <- value a ;; y <- value b ;;
  if negb (cols x =? rows y)%nat then throw ErrShape
  else reuseAs res (rows x) (cols y) ;;; store_dense res (matmul x y).

Definition elementwise (op : Dense -> Dense -> Dense) (res : nat) (a b : Matrix) : M unit :=
  x <- value a ;; y <- value b ;;
  if negb ((rows x =? rows y)%nat && (cols x =? cols y)%nat) then throw ErrShape
  else reuseAs res (rows x) (cols x) ;;; store_dense res (op x y).

(** [res.MulElem(a, b)], [res.Add(a, b)], [res.Sub(a, b)] *)
Definition MulElem : nat -> Matrix -> Matrix -> M unit := elementwise hadamard.
Definition Add : nat -> Matrix -> Matrix -> M unit := elementwise madd.
Definition Sub : nat -> Matrix -> Matrix -> M unit := elementwise msub.

(** [res.Apply(fn, a)] *)
Definition Apply (res : nat) (fn : Z -> Z -> R -> R) (a : Matrix) : M unit :=
  x <- value a ;;
  reuseAs res (rows x) (cols x) ;;; store_dense res (apply fn x).

(** [res.Scale(f, a)] *)
Definition Scale (res : nat) (f : R) (a : Matrix) : M unit :=
  x <- value a ;;
  reuseAs res (rows x) (cols x) ;;; store_dense res (scale f x).

(** [m.Reset()] *)
Definition Reset (p : nat) : M unit :=
  _ <- load_dense p ;; store_dense p (mkDense 0 0 []).

(** [m.MarshalBinary()] on the matrix behind a [*mat.Dense] *)
Definition MarshalBinary (p : nat) : M payload :=
  d <- load_dense p ;; ret (Blob d).

(** Go [error] values returned (not panicked) by the persistence code. *)
Inductive error : Type :=
| ErrCreate          (* os.Create failed *)
| ErrOpenArchive     (* zip.OpenReader: no such file, or not a zip archive *)
| ErrNotExist        (* zip: no entry of that name *)
| ErrSyntax          (* json.Unmarshal: not a JSON document *)
| ErrBadBlob         (* mat: not a binary matrix *)
| ErrZeroSize.       (* mat: zero length in matrix dimension, on decoding *)

(** [m.UnmarshalBinaryFrom(r)]: the receiver must be empty. *)
Definition UnmarshalBinaryFrom (p : nat) (bytes : payload) : M (option error) :=
  d <- load_dense p ;;
  if negb (IsEmpty d) then throw UnmarshalNonEmpty
  else match bytes with
       | Blob d' =>
           if IsEmpty d' then ret (Some ErrZeroSize)
           else store_dense p d' ;;; ret None
       | _ => ret (Some ErrBadBlob)
       end.

(** The type assertion of [m] to [*mat.Dense] *)
Definition as_Dense (m : Matrix) : M nat :=
  match m with
  | MDense p => ret p
  | _ => throw InterfaceConversion
  end.

(** [rand.Float64()]: the next draw of the source. *)
Definition rand_Float64 : M R :=
  fun w => (Ok (rand_source w O),
            mkWorld (denses w) (arrays w) (fun k => rand_source w (S k)) (files w) (stdout w)).

(** [fmt.Printf] of one of the three progress lines. *)
Definition Printf (e : event) : M unit :=
  fun w => (Ok tt, mkWorld (denses w) (arrays w) (rand_source w) (files w) (stdout w ++ [e])).

(* ================================================================= *)
(** ** The package's helpers *)

(** lerp is used to map random numbers across a range *)
Definition lerp (x li ui lo uo : R) : R := (((x - li) / (ui - li)) * (uo - lo) + lo)%R.

(** sigmoid is the network's activation function *)
Definition sigmoid (_ _ : Z) (v : R) : R := (1 / (1 + exp (- v)))%R.

(** dSigmoid is the derivative of the network's activation function *)
Definition dSigmoid (_ _ : Z) (v : R) : R := (sigmoid 0 0 v * (1 - sigmoid 0 0 v))%R.

(** Produces a random array for initialising the weights and biases.
    [rand.Seed] only changes which draws follow, and the source is an
    arbitrary stream already, so reseeding is not represented. *)
Definition randomArray (size : Z) (u l : R) : M (list R) :=
  res <- make 0%R size ;;
  for_up (Z.to_nat size) 0
    (fun idx res => x <- rand_Float64 ;; set_index res idx (lerp x 0 1 u l)) res.

(** dot is a wrapper for Matrix.Dot() *)
Definition dot (m n : Matrix) : M Matrix :=
  '(r, _) <- Dims m ;; '(_, c) <- Dims n ;;
  res <- NewDense r c None ;;
  Product res m n ;;; ret (MDense res).

(** mul is a wrapper for Matrix.MulElem() *)
Definition mul (m n : Matrix) : M Matrix :=
  '(r, _) <- Dims m ;; '(_, c) <- Dims n ;;
  res <- NewDense r c None ;;
  MulElem res m n ;;; ret (MDense res).

(** fun is a wrapper for Matrix.Apply() *)
Definition fun_ (fn : Z -> Z -> R -> R) (m : Matrix) : M Matrix :=
  '(r, c) <- Dims m ;;
  res <- NewDense r c None ;;
  Apply res fn m ;;; ret (MDense res).

(** scl is a wrapper for Matrix.Scale() *)
Definition scl (f : R) (m : Matrix) : M Matrix :=
  '(r, c) <- Dims m ;;
  res <- NewDense r c None ;;
  Scale res f m ;;; ret (MDense res).

(** add is a wrapper for Matrix.add() *)
Definition add (m n : Matrix) : M Matrix :=
  '(r, c) <- Dims m ;;
  res <- NewDense r c None ;;
  Add res m n ;;; ret (MDense res).

(** sub is a wrapper for Matrix.sub() *)
Definition sub (m n : Matrix) : M Matrix :=
  '(r, c) <- Dims m ;;
  res <- NewDense r c None ;;
  Sub res m n ;;; ret (MDense res).

(** totalCost calculates the sum of all the costs *)
Definition totalCost (got expected : list R) : M R :=
  if negb (len got =? len expected) then throw errInvalidDataSize
  else for_up (length got) 0
         (fun idx total =>
            g <- index got idx ;; e <- index expected idx ;;
            ret (total + (g - e) ^ 2)%R) 0%R.

(* ================================================================= *)
(** ** Layers and networks *)

(** newLayer Creates a new layer *)
Definition newLayer (layerSize inputSize : Z) (random : bool) : M layer :=
  if random then
    wd <- randomArray (layerSize * inputSize) (-1) 1 ;;
    w <- NewDense layerSize inputSize (Some wd) ;;
    bd <- randomArray layerSize (-1) 1 ;;
    b <- NewDense layerSize 1 (Some bd) ;;
    ret (mkLayer (MDense w) (MDense b))
  else
    w <- NewDense layerSize inputSize None ;;
    b <- NewDense layerSize 1 None ;;
    ret (mkLayer (MDense w) (MDense b)).

(** Network contains the whole neural network *)
Record Network : Type := mkNetwork {
  i : Z; o : Z; h : Z;
  hidden : list Z;
  layers : slice;
  learnRate : R
}.

(** [make([]layer, n)]: a fresh backing array of zero layers. *)
Definition make_layers (n : Z) : M slice :=
  ls <- make (mkLayer MNil MNil) n ;;
  fun w => (Ok (SliceOf (length (arrays w))),
            mkWorld (denses w) (arrays w ++ [ls]) (rand_source w) (files w) (stdout w)).

Definition backing (s : slice) : M (list layer) :=
  fun w => match s with
           | NilSlice => (Ok [], w)
           | SliceOf a => match nth_error (arrays w) a with
                          | Some ls => (Ok ls, w)
                          | None => (Panic NilDereference, w)
                          end
           end.

(** [s[k]] *)
Definition layers_at (s : slice) (k : Z) : M layer :=
  ls <- backing s ;; index ls k.

(** [s[k] = l], [s[k].weights = m], [s[k].biases = m]: the element of the
    backing array is overwritten in place. *)
Definition set_layer (s : slice) (k : Z) (f : layer -> layer) : M unit :=
  ls <- backing s ;;
  l <- index ls k ;;
  match s with
  | NilSlice => throw IndexOutOfRange
  | SliceOf a =>
      fun w => (Ok tt,
                mkWorld (denses w) (update (arrays w) a (update ls (Z.to_nat k) (f l)))
                        (rand_source w) (files w) (stdout w))
  end.

Definition set_weights (s : slice) (k : Z) (m : Matrix) : M unit :=
  set_layer s k (fun l => mkLayer m (biases l)).
Definition set_biases (s : slice) (k : Z) (m : Matrix) : M unit :=
  set_layer s k (fun l => mkLayer (weights l) m).

(** NewNetwork Creates a new Network *)
Definition NewNetwork (inputs outputs : Z) (hidden : list Z) (learn : R) (random : bool)
  : M Network :=
  layers <- make_layers (len hidden + 1) ;;
  for_up (Z.to_nat (len hidden + 1)) 0
    (fun idx (_ : unit) =>
       if idx =? 0 then
         sz <- index hidden idx ;;
         l <- newLayer sz inputs random ;;
         set_layer layers idx (fun _ => l)
       else if idx =? len hidden then
         sz <- index hidden (idx - 1) ;;
         l <- newLayer outputs sz random ;;
         set_layer layers idx (fun _ => l)
       else
         sz <- index hidden idx ;;
         sz' <- index hidden (idx - 1) ;;
         l <- newLayer sz sz' random ;;
         set_layer layers idx (fun _ => l)) tt ;;;
  ls <- backing layers ;;
  ret (mkNetwork inputs outputs (len ls) hidden layers learn).

(** Calc evaluates a given input into the network *)
Definition Calc (n : Network) (data : list R) : M (list R) :=
  if negb (len data =? i n) then throw errInvalidDataSize
  else
    inputs <- NewDense (i n) 1 (Some data) ;;
    activation <- for_up (Z.to_nat (h n)) 0
      (fun idx activation =>
         if idx =? 0 then
           l <- layers_at (layers n) idx ;;
           d <- dot (weights l) (MDense inputs) ;;
           l' <- layers_at (layers n) idx ;;
           z <- add d (biases l') ;;
           fun_ sigmoid z
         else
           l <- layers_at (layers n) idx ;;
           d <- dot (weights l) activation ;;
           l' <- layers_at (layers n) idx ;;
           z <- add d (biases l') ;;
           fun_ sigmoid z) MNil ;;
    '(r, _) <- Dims activation ;;
    res <- make 0%R r ;;
    for_up (Z.to_nat r) 0
      (fun idx res => v <- At activation idx 0 ;; set_index res idx v) res.

(** backpropagate performs a small change on the network based on given data *)
Definition backpropagate (n : Network) (inputData expectedData : list R) : M unit :=
  if negb (len inputData =? i n) || negb (len expectedData =? o n)
  then throw errInvalidDataSize
  else
    input <- NewDense (i n) 1 (Some inputData) ;;
    expected <- NewDense (o n) 1 (Some expectedData) ;;
    activations <- make MNil (h n) ;;
    zs <- make MNil (h n) ;;
    '(zs, activations) <- for_up (Z.to_nat (h n)) 0
      (fun idx '(zs, activations) =>
         if idx =? 0 then
           l <- layers_at (layers n) idx ;;
           d <- dot (weights l) (MDense input) ;;
           l' <- layers_at (layers n) idx ;;
           z <- add d (biases l') ;;
           zs <- set_index zs idx z ;;
           z <- index zs idx ;;
           a <- fun_ sigmoid z ;;
           activations <- set_index activations idx a ;;
           ret (zs, activations)
         else
           l <- layers_at (layers n) idx ;;
           prev <- index activations (idx - 1) ;;
           d <- dot (weights l) prev ;;
           l' <- layers_at (layers n) idx ;;
           z <- add d (biases l') ;;
           zs <- set_index zs idx z ;;
           z <- index zs idx ;;
           a <- fun_ sigmoid z ;;
           activations <- set_index activations idx a ;;
           ret (zs, activations)) (zs, activations) ;;
    last <- index activations (h n - 1) ;;
    layerErrors <- sub (MDense expected) last ;;
    for_down (Z.to_nat (h n))
      (fun idx layerErrors =>
         layerErrors <-
           (if negb (idx =? h n - 1) then
              l <- layers_at (layers n) (idx + 1) ;;
              wT <- T (weights l) ;;
              dot wT layerErrors
            else ret layerErrors) ;;
         l <- layers_at (layers n) idx ;;
         z <- index zs idx ;;
         ds <- fun_ dSigmoid z ;;
         g <- mul layerErrors ds ;;
         sg <- scl (2 * learnRate n) g ;;
         b <- add (biases l) sg ;;
         set_biases (layers n) idx b ;;;
         if idx =? 0 then
           l <- layers_at (layers n) idx ;;
           z <- index zs idx ;;
           ds <- fun_ dSigmoid z ;;
           g <- mul layerErrors ds ;;
           inT <- T (MDense input) ;;
           gw <- dot g inT ;;
           sg <- scl (learnRate n) gw ;;
           wt <- add (weights l) sg ;;
           set_weights (layers n) idx wt ;;;
           ret layerErrors
         else
           l <- layers_at (layers n) idx ;;
           z <- index zs idx ;;
           ds <- fun_ dSigmoid z ;;
           g <- mul layerErrors ds ;;
           prev <- index activations (idx - 1) ;;
           aT <- T prev ;;
           gw <- dot g aT ;;
           sg <- scl (learnRate n) gw ;;
           wt <- add (weights l) sg ;;
           set_weights (layers n) idx wt ;;;
           ret layerErrors) layerErrors ;;;
    ret tt.

(** Train repeatedly performs backpropagation. Will print information on the
    performance of the network *)
Definition Train (n : Network) (inputs expected : list (list R)) (epochs : Z) : M unit :=
  if negb (len inputs =? len expected) then throw errInvalidDataSize
  else
    Printf (BeganTraining epochs) ;;;
    for_up (Z.to_nat epochs) 0
      (fun epoch (_ : unit) =>
         avgCost <- for_up (length inputs) 0
           (fun idx avgCost =>
              x <- index inputs idx ;;
              e <- index expected idx ;;
              backpropagate n x e ;;;
              e <- index expected idx ;;
              x <- index inputs idx ;;
              got <- Calc n x ;;
              c <- totalCost e got ;;
              ret (avgCost + c)%R) 0%R ;;
         Printf (CompletedEpoch (epoch + 1) epochs (avgCost / IZR (len inputs)))) tt ;;;
    if epochs =? 0 then throw IntegerDivideByZero
    else Printf (Trained epochs).

(** [Perturb] adds a random array to every matrix of the network. *)
Definition Perturb (n : Network) (strength : R) : M unit :=
  for_up (Z.to_nat (h n)) 0
    (fun idx (_ : unit) =>
       l <- layers_at (layers n) idx ;;
       '(wr, wc) <- Dims (weights l) ;;
       l <- layers_at (layers n) idx ;;
       '(br, bc) <- Dims (biases l) ;;
       l <- layers_at (layers n) idx ;;
       noise <- randomArray (wr * wc) (-1 * strength) (1 * strength) ;;
       nw <- NewDense wr wc (Some noise) ;;
       wt <- add (weights l) (MDense nw) ;;
       set_weights (layers n) idx wt ;;;
       l <- layers_at (layers n) idx ;;
       noise <- randomArray (br * bc) (-1 * strength) (1 * strength) ;;
       nb <- NewDense br bc (Some noise) ;;
       bs <- add (biases l) (MDense nb) ;;
       set_biases (layers n) idx bs) tt.

(** The built-in [copy(dst, src)] on slice values. *)
Definition copy_slice {A} (dst src : list A) : list A :=
  firstn (length dst) src ++ skipn (length src) dst.

(** [copy(dst, src)] on [[]layer] slices: the elements (two interface
    values each) are copied into the backing array of [dst]. *)
Definition copy_layers (dst src : slice) : M unit :=
  d <- backing dst ;;
  s <- backing src ;;
  match dst with
  | NilSlice => ret tt
  | SliceOf a =>
      fun w => (Ok tt,
                mkWorld (denses w) (update (arrays w) a (copy_slice d s))
                        (rand_source w) (files w) (stdout w))
  end.

(** [Copy] *)
Definition Copy (n : Network) : M Network :=
  hid <- make 0 (len (hidden n)) ;;
  src <- backing (layers n) ;;
  lys <- make_layers (len src) ;;
  copy_layers lys (layers n) ;;;
  ret (mkNetwork (i n) (o n) (h n) (copy_slice hid (hidden n)) lys (learnRate n)).

(* ================================================================= *)
(** ** Persistence *)

(** [fmt.Sprintf("%d", k)] *)
Definition itoa (k : Z) : string := NilZero.string_of_int (Z.to_int k).

Definition wname (k : Z) : string := (itoa k ++ "w.bin")%string.
Definition bname (k : Z) : string := (itoa k ++ "b.bin")%string.

Fixpoint lookup {A} (name : string) (l : list (string * A)) : option A :=
  match l with
  | [] => None
  | (k, v) :: l' => if String.eqb k name then Some v else lookup name l'
  end.

Fixpoint assign {A} (name : string) (v : A) (l : list (string * A)) : list (string * A) :=
  match l with
  | [] => [(name, v)]
  | (k, x) :: l' => if String.eqb k name then (k, v) :: l' else (k, x) :: assign name v l'
  end.

Definition write_file (name : string) (f : file) : M unit :=
  fun w => (Ok tt, mkWorld (denses w) (arrays w) (rand_source w)
                           (assign name f (files w)) (stdout w)).

(** [os.Create]: an existing file is truncated, so until the archive is
    closed the path holds no readable archive. *)
Definition os_Create (filename : string) : M (option error) :=
  fun w => match lookup filename (files w) with
           | Some Unwritable => (Ok (Some ErrCreate), w)
           | _ => (write_file filename Partial ;;; ret None) w
           end.

(** [zip.OpenReader] *)
Definition zip_OpenReader (filename : string) : M (archive + error) :=
  fun w => match lookup filename (files w) with
           | Some (ZipFile entries) => (Ok (inl entries), w)
           | _ => (Ok (inr ErrOpenArchive), w)
           end.

(** [zipFile.Open(name)] followed by reading the entry *)
Definition zip_Open (z : archive) (name : string) : payload + error :=
  match lookup name z with
  | Some bytes => inl bytes
  | None => inr ErrNotExist
  end.

(** [json.Unmarshal(meta, &opts)] *)
Definition json_Unmarshal (bytes : payload) : NetworkOptions + error :=
  match bytes with
  | Json opts => inl opts
  | _ => inr ErrSyntax
  end.

(** The second loop of [Save]: the two blobs of every layer are appended to
    the archive being written. *)
Definition Save_layers (n : Network) (zipper : archive) : M archive :=
  for_up (Z.to_nat (h n)) 0
    (fun idx zipper =>
       l <- layers_at (layers n) idx ;;
       p <- as_Dense (weights l) ;;
       wb <- MarshalBinary p ;;
       l <- layers_at (layers n) idx ;;
       q <- as_Dense (biases l) ;;
       bb <- MarshalBinary q ;;
       ret (zipper ++ [(wname idx, wb)] ++ [(bname idx, bb)])) zipper.

(** Save will compress the network and then save it as a file to be used
    later. *)
Definition Save (n : Network) (filename : string) : M (option error) :=
  err <- os_Create filename ;;
  match err with
  | Some e => ret (Some e)
  | None =>
      wpaths <- make EmptyString (h n) ;;
      bpaths <- make EmptyString (h n) ;;
      '(wpaths, bpaths) <- for_up (Z.to_nat (h n)) 0
        (fun idx '(wpaths, bpaths) =>
           wpaths <- set_index wpaths idx (wname idx) ;;
           bpaths <- set_index bpaths idx (bname idx) ;;
           ret (wpaths, bpaths)) (wpaths, bpaths) ;;
      let opts := mkOptions (i n) (o n) (hidden n) (learnRate n) wpaths bpaths in
      zipper <- Save_layers n [("meta.json"%string, Json opts)] ;;
      write_file filename (ZipFile zipper) ;;;
      ret None
  end.

(** The loop of [Load]; it leaves early with the first error. *)
Fixpoint Load_layers (count : nat) (idx : Z) (n : Network) (opts : NetworkOptions)
  (zipFile : archive) : M (option error) :=
  match count with
  | O => ret None
  | S count' =>
      wpath <- index (WPaths opts) idx ;;
      match zip_Open zipFile wpath with
      | inr wErr => ret (Some wErr)
      | inl w =>
          l <- layers_at (layers n) idx ;;
          p <- as_Dense (weights l) ;;
          Reset p ;;;
          l <- layers_at (layers n) idx ;;
          p <- as_Dense (weights l) ;;
          wErr <- UnmarshalBinaryFrom p w ;;
          match wErr with
          | Some e => ret (Some e)
          | None =>
              bpath <- index (BPaths opts) idx ;;
              match zip_Open zipFile bpath with
              | inr bErr => ret (Some bErr)
              | inl b =>
                  l <- layers_at (layers n) idx ;;
                  q <- as_Dense (biases l) ;;
                  Reset q ;;;
                  l <- layers_at (layers n) idx ;;
                  q <- as_Dense (biases l) ;;
                  bErr <- UnmarshalBinaryFrom q b ;;
                  match bErr with
                  | Some e => ret (Some e)
                  | None => Load_layers count' (idx + 1) n opts zipFile
                  end
              end
          end
      end
  end.

(** The zero [Network{}] *)
Definition zero_Network : Network := mkNetwork 0 0 0 [] NilSlice 0%R.

(** Load will open a saved network *)
Definition Load (filename : string) : M (Network * option error) :=
  opened <- zip_OpenReader filename ;;
  match opened with
  | inr err => ret (zero_Network, Some err)
  | inl zipFile =>
      match zip_Open zipFile "meta.json"%string with
      | inr err => ret (zero_Network, Some err)
      | inl meta =>
          match json_Unmarshal meta with
          | inr err => ret (zero_Network, Some err)
          | inl opts =>
              n <- NewNetwork (optI opts) (optO opts) (optH opts) (Learn opts) false ;;
              err <- Load_layers (Z.to_nat (h n)) 0 n opts zipFile ;;
              match err with
              | Some e => ret (zero_Network, Some e)
              | None => ret (n, None)
              end
          end
      end
  end.

(* ================================================================= *)
(** ** Reading a network out of the world *)

Definition push (w : world) (d : Dense) : world :=
  mkWorld (denses w ++ [d]) (arrays w) (rand_source w) (files w) (stdout w).

(** [w] with the layer array at [a] replaced. *)
Definition with_array (w : world) (a : nat) (ls : list layer) : world :=
  mkWorld (denses w) (update (arrays w) a ls) (rand_source w) (files w) (stdout w).

(** The matrix an interface value stands for in [w], if any. *)
Definition denote (w : world) (m : Matrix) : option Dense :=
  match m with
  | MNil => None
  | MDense p => nth_error (denses w) p
  | MTranspose p => option_map transpose (nth_error (denses w) p)
  end.

(** The (weights, biases) pair of a layer whose two fields are
    [*mat.Dense] pointers. *)
Definition layer_value (w : world) (l : layer) : option (Dense * Dense) :=
  match weights l, biases l with
  | MDense p, MDense q =>
      match nth_error (denses w) p, nth_error (denses w) q with
      | Some W, Some B => Some (W, B)
      | _, _ => None
      end
  | _, _ => None
  end.

Fixpoint layer_values (w : world) (ls : list layer) : option (list (Dense * Dense)) :=
  match ls with
  | [] => Some []
  | l :: ls' =>
      match layer_value w l, layer_values w ls' with
      | Some v, Some vs => Some (v :: vs)
      | _, _ => None
      end
  end.

Definition network_layers (w : world) (n : Network) : option (list layer) :=
  match layers n with
  | NilSlice => None
  | SliceOf a => nth_error (arrays w) a
  end.

(** All weight and bias matrices of [n], layer by layer. *)
Definition network_values (w : world) (n : Network) : option (list (Dense * Dense)) :=
  match network_layers w n with
  | Some ls => layer_values w ls
  | None => None
  end.

(** The topology invariant: layer [k] has [sizes[k]] rows, as many columns
    as the layer before it has rows (the input size for layer 0), and a
    one-column bias of the same height. *)
Fixpoint shaped (n_in : Z) (sizes : list Z) (L : list (Dense * Dense)) : Prop :=
  match sizes, L with
  | [], [] => True
  | s :: sizes', (W, B) :: L' =>
      0 < s /\ Z.of_nat (rows W) = s /\ Z.of_nat (cols W) = n_in /\
      Z.of_nat (rows B) = s /\ cols B = 1%nat /\ shaped s sizes' L'
  | _, _ => False
  end.

Definition topology (n : Network) (L : list (Dense * Dense)) : Prop :=
  0 < i n /\ h n = len L /\ shaped (i n) (hidden n ++ [o n]) L.

(** [n] is a network of [w] with matrices [L] satisfying the invariant. *)
Definition network_in (w : world) (n : Network) (L : list (Dense * Dense)) : Prop :=
  network_values w n = Some L /\ topology n L.

(* ================================================================= *)
(** ** The computation in the words of the specification *)

(** A vector as a one-column matrix, and back. *)
Definition column (v : list R) : Dense := mkDense (length v) 1 v.
Definition entries (a : Dense) : list R := map (fun r => at_ a r 0) (seq 0 (rows a)).

(** activation_i = sigmoid(weights_i . activation_(i-1) + biases_i) *)
Definition pre_activation (W B a : Dense) : Dense := madd (matmul W a) B.
Definition activation (W B a : Dense) : Dense := apply sigmoid (pre_activation W B a).

Fixpoint forward (L : list (Dense * Dense)) (a : Dense) : Dense :=
  match L with
  | [] => a
  | (W, B) :: L' => forward L' (activation W B a)
  end.

(** The pre-activation [z_k] and the activation [a_k] of layer [k], with
    [a_(-1)] the input. *)
Fixpoint activation_before (L : list (Dense * Dense)) (input : Dense) (k : nat)
  {struct k} : Dense :=
  match k, L with
  | S k', (W, B) :: L' => activation_before L' (activation W B input) k'
  | _, _ => input
  end.

Definition z_at (L : list (Dense * Dense)) (input : Dense) (k : nat) : Dense :=
  match nth_error L k with
  | Some (W, B) => pre_activation W B (activation_before L input k)
  | None => input
  end.

(** The error term [layerErrors] holds while layer [k] is updated, and the
    layers as updated from [k] on: going down the list is the forward pass,
    coming back up is the backward pass, which reads the weights of layer
    [k+1] after their update. *)
Fixpoint backward (lr : R) (expected a_prev : Dense) (L : list (Dense * Dense))
  : list Dense * list (Dense * Dense) :=
  match L with
  | [] => ([], [])
  | (W, B) :: rest =>
      let z := pre_activation W B a_prev in
      let a := apply sigmoid z in
      let '(deltas, rest') := backward lr expected a rest in
      let delta := match deltas, rest' with
                   | d :: _, (W', _) :: _ => matmul (transpose W') d
                   | _, _ => msub expected a
                   end in
      let g := hadamard delta (apply dSigmoid z) in
      (delta :: deltas,
       (madd W (scale lr (matmul g (transpose a_prev))),
        madd B (scale (2 * lr) g)) :: rest')
  end.

Definition layer_errors (lr : R) (L : list (Dense * Dense)) (input expected : list R)
  : list Dense := fst (backward lr (column expected) (column input) L).

Definition updated (lr : R) (L : list (Dense * Dense)) (input expected : list R)
  : list (Dense * Dense) := snd (backward lr (column expected) (column input) L).

(** Total squared error of an output against the expected one. *)
Definition squared_error (expected got : list R) : R :=
  fold_left (fun acc c => (acc + c)%R)
            (map (fun p => ((fst p - snd p) ^ 2)%R) (combine expected got)) 0%R.

Definition zero_matrix : Dense := mkDense 0 0 [].
Definition all_zero (d : Dense) : Prop := Forall (fun x => x = 0%R) (data d).

(** A network whose weights and biases are all zero. *)
Definition zero_layers (L : list (Dense * Dense)) : Prop :=
  Forall (fun WB => all_zero (fst WB) /\ all_zero (snd WB)) L.

(* ================================================================= *)
(** ** Frames *)

(** [w'] has every matrix object of [w], unchanged, and possibly more. *)
Definition dense_kept (w w' : world) : Prop :=
  exists more, denses w' = denses w ++ more.

(** Only matrix objects were allocated between [w] and [w']. *)
Definition allocated (w w' : world) : Prop :=
  dense_kept w w' /\ arrays w' = arrays w /\ rand_source w' = rand_source w /\
  files w' = files w /\ stdout w' = stdout w.

(** Between [w] and [w'] no existing matrix object was written, and no layer
    array other than the one at [a] was. *)
Definition only_array (a : nat) (w w' : world) : Prop :=
  dense_kept w w' /\
  (length (arrays w) <= length (arrays w'))%nat /\
  forall a', a' <> a -> (a' < length (arrays w))%nat ->
             nth_error (arrays w') a' = nth_error (arrays w) a'.

(** As [only_array], and the random source, the files and the standard
    output are as they were. *)
Definition wrote_only (a : nat) (w w' : world) : Prop :=
  only_array a w w' /\ rand_source w' = rand_source w /\
  files w' = files w /\ stdout w' = stdout w.

(** [r] is a matrix object of [w'] holding [v], and [w'] only has matrix
    objects more than [w]. *)
Definition fresh_matrix (w : world) (v : Dense) (r : Matrix) (w' : world) : Prop :=
  allocated w w' /\ exists p, r = MDense p /\ nth_error (denses w') p = Some v.

(** What the first loop of [backpropagate] has stored for the layers below
    [k]: [zs[j]] holds [z_j] and [activations[j]] points to [a_j]. *)
Definition cached (w : world) (L : list (Dense * Dense)) (x : Dense)
  (zs acts : list Matrix) (k : nat) : Prop :=
  forall j, (j < k)%nat ->
    exists zp ap,
      nth_error zs j = Some zp /\ denote w zp = Some (z_at L x j) /\
      nth_error acts j = Some (MDense ap) /\
      nth_error (denses w) ap = Some (activation_before L x (S j)).

(** [c] succeeds from [w], with a result and final world satisfying [Q]. *)
Definition returns {A} (c : M A) (w : world) (Q : A -> world -> Prop) : Prop :=
  exists a w', c w = (Ok a, w') /\ Q a w'.

(** Whatever [c] does, panic included, its final world is [R]-related to
    its initial one. *)
Definition keeps {A} (R : world -> world -> Prop) (c : M A) : Prop :=
  forall w, R w (snd (c w)).

(** The property as the claim words it, with the bounds as a parameter:
    every entry of a layer [newLayer] builds from draws in [0, 1) satisfies
    [bound]. *)
Definition random_layer_entries (bound : R -> Prop) : Prop :=
  forall (layerSize inputSize : Z) (w : world),
    0 < layerSize -> 0 < inputSize ->
    (forall k, (0 <= rand_source w k < 1)%R) ->
    returns (newLayer layerSize inputSize true) w (fun l w' =>
      exists W B, layer_value w' l = Some (W, B) /\
                  Forall bound (data W) /\ Forall bound (data B)).


(** The matrices of the zero network of a topology. *)
Fixpoint zero_values (n_in : Z) (sizes : list Z) : list (Dense * Dense) :=
  match sizes with
  | [] => []
  | s :: rest =>
      (zeros (Z.to_nat s) (Z.to_nat n_in), zeros (Z.to_nat s) 1) :: zero_values s rest
  end.

(** The layer [NewNetwork] stores at index [j]: two consecutive matrix
    objects allocated from address [base] on. *)
Definition built_layer (base j : nat) : layer :=
  mkLayer (MDense (base + 2 * j)) (MDense (base + 2 * j + 1)).

(** The world [wk] after [k] rounds of the loop of [NewNetwork] started in
    [w]. *)
Definition under_construction (w : world) (inputs outputs : Z) (hid : list Z)
  (k : nat) (wk : world) : Prop :=
  let base := length (denses w) in
  dense_kept w wk /\ length (denses wk) = (base + 2 * k)%nat /\
  (forall j, (j < k)%nat ->
     nth_error (denses wk) (base + 2 * j)
     = Some (zeros (Z.to_nat (nth j (hid ++ [outputs]) 0))
                   (Z.to_nat (nth j (inputs :: hid) 0))) /\
     nth_error (denses wk) (base + 2 * j + 1)
     = Some (zeros (Z.to_nat (nth j (hid ++ [outputs]) 0)) 1)) /\
  (exists ls, arrays wk = arrays w ++ [ls] /\ length ls = S (length hid) /\
              forall j, (j < k)%nat -> nth_error ls j = Some (built_layer base j)) /\
  rand_source wk = rand_source w /\ files wk = files w /\ stdout wk = stdout w.


(** [w] with the matrix object at [p] overwritten. *)
Definition set_cell (w : world) (p : nat) (d : Dense) : world :=
  mkWorld (update (denses w) p d) (arrays w) (rand_source w) (files w) (stdout w).

(** What [Load] gets for the entry [name] of an archive: the matrix it
    decodes to, or the error of [zipFile.Open] or [UnmarshalBinaryFrom]. *)
Definition decode (z : archive) (name : string) : Dense + error :=
  match lookup name z with
  | None => inr ErrNotExist
  | Some (Blob d) => if IsEmpty d then inr ErrZeroSize else inl d
  | Some _ => inr ErrBadBlob
  end.

(** Metadata [NewNetwork] accepts, naming a blob for every layer. *)
Definition usable_options (opts : NetworkOptions) : Prop :=
  optH opts <> [] /\ 0 < optI opts /\ 0 < optO opts /\
  Forall (fun s => 0 < s) (optH opts) /\
  (length (optH opts) < length (WPaths opts))%nat /\
  (length (optH opts) < length (BPaths opts))%nat.

(** [Save] to [filename] then [Load] from it gives back the network: both
    calls succeed, and the loaded network has the fields and the matrices of
    [n], hence its outputs. *)
Definition round_trips (w : world) (n : Network) (L : list (Dense * Dense))
  (filename : string) : Prop :=
  returns (Save n filename) w (fun err w1 =>
    err = None /\
    returns (Load filename) w1 (fun r w2 =>
      snd r = None /\
      i (fst r) = i n /\ o (fst r) = o n /\ hidden (fst r) = hidden n /\
      learnRate (fst r) = learnRate n /\
      network_values w2 (fst r) = Some L /\ network_values w2 n = Some L /\
      forall data, len data = i n ->
        exists out, fst (Calc (fst r) data w2) = Ok out /\
                    fst (Calc n data w2) = Ok out)).


(* ================================================================= *)
(** ** Worked examples *)

Definition empty_world : world := mkWorld [] [] (fun _ => 0%R) [] [].

(** The world after [NewNetwork(2, 1, []int{2}, 0.1, false)] from scratch,
    and the network it returns. *)
Definition xor_world : world :=
  mkWorld [zeros 2 2; zeros 2 1; zeros 1 2; zeros 1 1]
          [[mkLayer (MDense 0) (MDense 1); mkLayer (MDense 2) (MDense 3)]]
          (fun _ => 0%R) [] [].

Definition xor_net : Network := mkNetwork 2 1 2 [2] (SliceOf 0) (1 / 10)%R.

Definition xor_values : list (Dense * Dense) :=
  [(zeros 2 2, zeros 2 1); (zeros 1 2, zeros 1 1)].

(** The matrices of that network after one [backpropagate] on the example
    input [1, 0] with expected output [1]. *)
Definition xor_trained : list (Dense * Dense) :=
  [(mkDense 2 2 [1 / 12800; 0; 1 / 12800; 0]%R, mkDense 2 1 [1 / 6400; 1 / 6400]%R);
   (mkDense 1 2 [1 / 160; 1 / 160]%R, mkDense 1 1 [1 / 40]%R)].

(** A network of one layer, with no hidden layer, as the invariant allows. *)
Definition single_world : world :=
  mkWorld [zeros 1 2; zeros 1 1] [[mkLayer (MDense 0) (MDense 1)]] (fun _ => 0%R) [] [].

Definition single_net : Network := mkNetwork 2 1 1 [] (SliceOf 0) (1 / 10)%R.

Definition single_values : list (Dense * Dense) := [(zeros 1 2, zeros 1 1)].

(** An archive for the topology 2-2-1 whose first weight blob is a 1x1
    matrix, and a world holding it. *)
Definition odd_archive : archive :=
  [("meta.json"%string,
    Json (mkOptions 2 1 [2] (1 / 10)%R
            ["0w.bin"; "1w.bin"]%string ["0b.bin"; "1b.bin"]%string));
   ("0w.bin"%string, Blob (mkDense 1 1 [7%R]));
   ("0b.bin"%string, Blob (mkDense 2 1 [0%R; 0%R]));
   ("1w.bin"%string, Blob (mkDense 1 2 [0%R; 0%R]));
   ("1b.bin"%string, Blob (mkDense 1 1 [0%R]))].



(* ================================================================= *)
(** ** Construction with either setting of the random flag *)








(* ================================================================= *)
(** ** Training as a function of the matrices *)

(** One epoch over [samples] (pairs of an input and its expected output):
    each sample updates the matrices, and the squared error of the updated
    network on that sample is added to [acc]. *)
Fixpoint epoch_run (lr : R) (L : list (Dense * Dense)) (samples : list (list R * list R))
  (acc : R) : list (Dense * Dense) * R :=
  match samples with
  | [] => (L, acc)
  | (x, e) :: rest =>
      let L' := updated lr L x e in
      epoch_run lr L' rest (acc + squared_error e (entries (forward L' (column x))))%R
  end.

(** The matrices after [k] epochs. *)
Fixpoint train_state (lr : R) (L : list (Dense * Dense)) (samples : list (list R * list R))
  (k : nat) : list (Dense * Dense) :=
  match k with
  | O => L
  | S k' => fst (epoch_run lr (train_state lr L samples k') samples 0%R)
  end.

(** The line printed at the end of epoch [k] (counted from 0). *)
Definition epoch_line (lr : R) (L : list (Dense * Dense)) (samples : list (list R * list R))
  (epochs : Z) (k : nat) : event :=
  CompletedEpoch (Z.of_nat k + 1) epochs
    (snd (epoch_run lr (train_state lr L samples k) samples 0%R) / IZR (len samples))%R.

(** Everything [Train] prints in a run of [epochs] epochs. *)
Definition training_log (lr : R) (L : list (Dense * Dense))
  (samples : list (list R * list R)) (epochs : Z) : list event :=
  BeganTraining epochs
  :: map (epoch_line lr L samples epochs) (seq 0 (Z.to_nat epochs)) ++ [Trained epochs].

(* ================================================================= *)
(** ** Perturbation *)

(** [A'] has the shape of [A] and no entry further than [s] from it. *)
Definition within (s : R) (A A' : Dense) : Prop :=
  rows A' = rows A /\ cols A' = cols A /\
  forall r c, (r < rows A)%nat -> (c < cols A)%nat ->
              (- s <= at_ A' r c - at_ A r c <= s)%R.


(* ================================================================= *)
(** * Properties *)

(** ** The monad *)

Lemma bind_Ok {A B} (c : M A) (k : A -> M B) w a w' :
  c w = (Ok a, w') -> bind c k w = k a w'.
Proof. unfold bind; intros ->; reflexivity. Qed.

Lemma bind_Panic {A B} (c : M A) (k : A -> M B) w e w' :
  c w = (Panic e, w') -> bind c k w = (Panic e, w').
Proof. unfold bind; intros ->; reflexivity. Qed.

Lemma returns_ret {A} (a : A) w (Q : A -> world -> Prop) :
  Q a w -> returns (ret a) w Q.
Proof. intros HQ; exists a, w; split; [reflexivity | exact HQ]. Qed.

Lemma returns_bind {A B} (c : M A) (k : A -> M B) w (Q : B -> world -> Prop) :
  returns c w (fun a w1 => returns (k a) w1 Q) -> returns (bind c k) w Q.
Proof.
  intros (a & w1 & Hc & b & w2 & Hk & HQ).
  exists b, w2; split; [| exact HQ].
  rewrite (bind_Ok _ _ _ _ _ Hc); exact Hk.
Qed.

Lemma returns_mono {A} (c : M A) w (P Q : A -> world -> Prop) :
  returns c w P -> (forall a w', P a w' -> Q a w') -> returns c w Q.
Proof. intros (a & w' & Hc & HP) HPQ; exists a, w'; auto. Qed.

Lemma returns_eq {A} (c : M A) w a w' (Q : A -> world -> Prop) :
  c w = (Ok a, w') -> Q a w' -> returns c w Q.
Proof. intros Hc HQ; exists a, w'; auto. Qed.

(** A counted loop establishes what every round preserves. *)
Lemma for_up_returns {St} (Inv : nat -> St -> world -> Prop) body :
  forall count start s w,
    Inv O s w ->
    (forall k s w, (k < count)%nat -> Inv k s w ->
                   returns (body (start + Z.of_nat k) s) w (Inv (S k))) ->
    returns (for_up count start body s) w (Inv count).
Proof.
  intros count; revert Inv.
  induction count as [| count IH]; intros Inv start s w H0 Hstep; simpl.
  - apply returns_ret; exact H0.
  - apply returns_bind.
    pose proof (Hstep O s w ltac:(lia) H0) as Hfirst.
    rewrite Z.add_0_r in Hfirst.
    eapply returns_mono; [exact Hfirst |].
    intros s1 w1 H1.
    apply (IH (fun k => Inv (S k))); [exact H1 |].
    intros k s2 w2 Hk H2.
    replace (start + 1 + Z.of_nat k) with (start + Z.of_nat (S k)) by lia.
    apply Hstep; [lia | exact H2].
Qed.

Lemma for_down_returns {St} (Inv : nat -> St -> world -> Prop) body :
  forall k s w,
    Inv k s w ->
    (forall j s w, (j < k)%nat -> Inv (S j) s w ->
                   returns (body (Z.of_nat j) s) w (Inv j)) ->
    returns (for_down k body s) w (Inv O).
Proof.
  induction k as [| k IH]; intros s w H0 Hstep; simpl.
  - apply returns_ret; exact H0.
  - apply returns_bind.
    eapply returns_mono; [apply Hstep; [lia | exact H0] |].
    intros s1 w1 H1; apply IH; [exact H1 |].
    intros j s2 w2 Hj H2; apply Hstep; [lia | exact H2].
Qed.

(** ** Lists and slices *)

Lemma length_update {A} (l : list A) k a : length (update l k a) = length l.
Proof.
  revert k; induction l as [| x l IH]; intros [| k]; simpl; auto.
Qed.

Lemma nth_error_update_same {A} (l : list A) k a :
  (k < length l)%nat -> nth_error (update l k a) k = Some a.
Proof.
  revert k; induction l as [| x l IH]; intros [| k] Hk; simpl in *; try lia; auto.
  apply IH; lia.
Qed.

Lemma nth_error_update_other {A} (l : list A) k j a :
  j <> k -> nth_error (update l k a) j = nth_error l j.
Proof.
  revert k j; induction l as [| x l IH]; intros [| k] [| j] Hjk; simpl; auto;
    try congruence.
Qed.

Lemma update_outside {A} (l : list A) k a :
  (length l <= k)%nat -> update l k a = l.
Proof.
  revert k; induction l as [| x l IH]; intros [| k] Hk; simpl in *; auto; try lia.
  f_equal; apply IH; lia.
Qed.

Lemma update_app_l {A} (l more : list A) k a :
  (k < length l)%nat -> update (l ++ more) k a = update l k a ++ more.
Proof.
  revert k; induction l as [| x l IH]; intros [| k] Hk; simpl in *; try lia; auto.
  f_equal; apply IH; lia.
Qed.

Lemma update_last {A} (l : list A) x a :
  update (l ++ [x]) (length l) a = l ++ [a].
Proof. induction l as [| y l IH]; simpl; congruence. Qed.

Lemma index_Ok {A} (l : list A) k a w :
  nth_error l k = Some a -> index l (Z.of_nat k) w = (Ok a, w).
Proof.
  intros Hk. unfold index, len.
  assert (k < length l)%nat by (apply nth_error_Some; congruence).
  replace (Z.of_nat k <? 0) with false by (symmetry; apply Z.ltb_ge; lia).
  replace (Z.of_nat (length l) <=? Z.of_nat k) with false
    by (symmetry; apply Z.leb_gt; lia).
  simpl. rewrite Nat2Z.id, Hk. reflexivity.
Qed.

Lemma index_out {A} (l : list A) k w :
  k < 0 \/ len l <= k -> index l k w = (Panic IndexOutOfRange, w).
Proof.
  intros Hk. unfold index.
  destruct (k <? 0) eqn:E1; [reflexivity |].
  destruct (len l <=? k) eqn:E2; [reflexivity |].
  apply Z.ltb_ge in E1. apply Z.leb_gt in E2. lia.
Qed.

Lemma set_index_Ok {A} (l : list A) k a w :
  (k < length l)%nat -> set_index l (Z.of_nat k) a w = (Ok (update l k a), w).
Proof.
  intros Hk. unfold set_index, len.
  replace (Z.of_nat k <? 0) with false by (symmetry; apply Z.ltb_ge; lia).
  replace (Z.of_nat (length l) <=? Z.of_nat k) with false
    by (symmetry; apply Z.leb_gt; lia).
  simpl. rewrite Nat2Z.id. reflexivity.
Qed.

Lemma make_Ok {A} (z : A) n w :
  0 <= n -> make z n w = (Ok (repeat z (Z.to_nat n)), w).
Proof.
  intros Hn. unfold make.
  replace (n <? 0) with false by (symmetry; apply Z.ltb_ge; lia).
  reflexivity.
Qed.

(** ** Matrix values *)

Lemma at_tabulate r c f j k :
  (j < r)%nat -> (k < c)%nat -> at_ (tabulate r c f) j k = f j k.
Proof.
  intros Hj Hk. unfold at_, tabulate; simpl.
  assert (Hlt : (j * c + k < r * c)%nat) by nia.
  rewrite (nth_indep _ 0%R (f (0 / c)%nat (0 mod c)%nat))
    by (rewrite length_map, length_seq; exact Hlt).
  rewrite (map_nth (fun x => f (x / c)%nat (x mod c)%nat)).
  rewrite seq_nth by exact Hlt. simpl.
  assert (Hdiv : ((j * c + k) / c = j)%nat).
  { rewrite Nat.div_add_l by lia. rewrite Nat.div_small by lia. lia. }
  assert (Hmod : ((j * c + k) mod c = k)%nat).
  { rewrite (Nat.add_comm (j * c) k), Nat.Div0.mod_add. apply Nat.mod_small; lia. }
  rewrite Hdiv, Hmod. reflexivity.
Qed.

Lemma rows_tabulate r c f : rows (tabulate r c f) = r.
Proof. reflexivity. Qed.

Lemma cols_tabulate r c f : cols (tabulate r c f) = c.
Proof. reflexivity. Qed.

(** ** Allocation *)

Lemma NewDense_zero r c w :
  0 < r -> 0 < c ->
  NewDense r c None w = (Ok (length (denses w)), push w (zeros (Z.to_nat r) (Z.to_nat c))).
Proof.
  intros Hr Hc. unfold NewDense.
  replace (r <=? 0) with false by (symmetry; apply Z.leb_gt; lia).
  replace (c <=? 0) with false by (symmetry; apply Z.leb_gt; lia).
  reflexivity.
Qed.

Lemma NewDense_data r c l w :
  0 < r -> 0 < c -> r * c = len l ->
  NewDense r c (Some l) w
  = (Ok (length (denses w)), push w (mkDense (Z.to_nat r) (Z.to_nat c) l)).
Proof.
  intros Hr Hc Hl. unfold NewDense.
  replace (r <=? 0) with false by (symmetry; apply Z.leb_gt; lia).
  replace (c <=? 0) with false by (symmetry; apply Z.leb_gt; lia).
  simpl. rewrite (proj2 (Z.eqb_eq _ _) Hl). reflexivity.
Qed.

Lemma denote_push w d m x : denote w m = Some x -> denote (push w d) m = Some x.
Proof.
  destruct m as [| p | p]; simpl; [discriminate | |].
  - intros Hp. rewrite nth_error_app1; [exact Hp |].
    apply nth_error_Some; congruence.
  - destruct (nth_error (denses w) p) eqn:Hp; [| discriminate].
    intros Hx. rewrite nth_error_app1, Hp; [exact Hx |].
    apply nth_error_Some; congruence.
Qed.

Lemma denote_new w d : denote (push w d) (MDense (length (denses w))) = Some d.
Proof.
  simpl. rewrite nth_error_app2 by lia. rewrite Nat.sub_diag. reflexivity.
Qed.

(** ** C9: size checks come first *)

(** C9. [Calc] on an input whose length is not the input size, and [Train]
    on example lists of different lengths, panic with [errInvalidDataSize]
    in the very world they were called in: nothing was written. *)
Theorem invalid_sizes_are_rejected_first
  (n : Network) (w : world) (data : list R) (inputs expected : list (list R))
  (epochs : Z) :
  len data <> i n ->
  len inputs <> len expected ->
  Calc n data w = (Panic errInvalidDataSize, w) /\
  Train n inputs expected epochs w = (Panic errInvalidDataSize, w).
Proof.
  intros Hdata Hlists. split.
  - unfold Calc. rewrite (proj2 (Z.eqb_neq _ _) Hdata). reflexivity.
  - unfold Train. rewrite (proj2 (Z.eqb_neq _ _) Hlists). reflexivity.
Qed.

Lemma invalid_sizes_are_rejected_first_witness :
  Calc xor_net [1%R] xor_world = (Panic errInvalidDataSize, xor_world) /\
  Train xor_net [[1%R; 0%R]] [] 1 xor_world = (Panic errInvalidDataSize, xor_world).
Proof.
  apply (invalid_sizes_are_rejected_first xor_net xor_world [1%R] [[1%R; 0%R]] [] 1).
  - unfold len; simpl; lia.
  - unfold len; simpl; lia.
Defined.

(** ** C8: a network without hidden layers *)

(** C8. With an empty hidden-size list the first round of the constructor
    loop reads [hidden[0]]: [NewNetwork] panics with an index out of range
    whatever the sizes, and returns no network. *)
Theorem NewNetwork_without_hidden_layers_panics
  (inputs outputs : Z) (learn : R) (random : bool) (w : world) :
  fst (NewNetwork inputs outputs [] learn random w) = Panic IndexOutOfRange.
Proof. reflexivity. Qed.

(** ** C10: the range of random layers *)

Lemma lerp_unit_range x : (0 <= x < 1)%R -> (-1 <= lerp x 0 1 (-1) 1 < 1)%R.
Proof. unfold lerp; intros Hx; lra. Qed.

Lemma lerp_zero : lerp 0 0 1 (-1) 1 = (-1)%R.
Proof. unfold lerp; lra. Qed.

(** [randomArray] fills its result from the next [size] draws and touches
    nothing but the random source. *)
Lemma randomArray_returns size u l w :
  0 <= size ->
  returns (randomArray size u l) w (fun res w' =>
    length res = Z.to_nat size /\
    (forall k, (k < Z.to_nat size)%nat ->
               nth_error res k = Some (lerp (rand_source w k) 0 1 u l)) /\
    denses w' = denses w /\ arrays w' = arrays w /\
    files w' = files w /\ stdout w' = stdout w /\
    forall k, rand_source w' k = rand_source w (Z.to_nat size + k)%nat).
Proof.
  intros Hsize. unfold randomArray.
  apply returns_bind. eapply returns_eq; [apply make_Ok; exact Hsize |].
  set (n := Z.to_nat size).
  eapply returns_mono.
  - apply (for_up_returns (fun j res w' =>
      length res = n /\
      (forall k, (k < j)%nat -> nth_error res k = Some (lerp (rand_source w k) 0 1 u l)) /\
      denses w' = denses w /\ arrays w' = arrays w /\
      files w' = files w /\ stdout w' = stdout w /\
      forall k, rand_source w' k = rand_source w (j + k)%nat)).
    + rewrite repeat_length. repeat split; auto. intros k Hk; lia.
    + intros j res w1 Hj (Hlen & Hfilled & Hd & Ha & Hf & Hs & Hr).
      apply returns_bind. eapply returns_eq; [reflexivity |].
      simpl. eapply returns_eq.
      * apply set_index_Ok. lia.
      * rewrite length_update. simpl. repeat split; auto.
        -- intros k Hk. destruct (Nat.eq_dec k j) as [-> | Hne].
           ++ rewrite nth_error_update_same by lia.
              rewrite Hr, Nat.add_0_r. reflexivity.
           ++ rewrite nth_error_update_other by exact Hne. apply Hfilled; lia.
        -- intros k. rewrite Hr. f_equal; lia.
  - intros res w' H; exact H.
Qed.

Lemma Forall_nth_error_all {A} (P : A -> Prop) (l : list A) :
  (forall k x, nth_error l k = Some x -> P x) -> Forall P l.
Proof.
  intros Hall. apply Forall_forall. intros x Hin.
  destruct (In_nth_error _ _ Hin) as [k Hk]. exact (Hall k x Hk).
Qed.

(** C10 (as amended). Built from draws in [0, 1), every weight and bias
    entry of a random layer lies in the half-open interval [-1, 1): the
    draw 0 is mapped to -1 itself. *)
Theorem newLayer_random_entries_in_range (layerSize inputSize : Z) (w : world) :
  0 < layerSize -> 0 < inputSize ->
  (forall k, (0 <= rand_source w k < 1)%R) ->
  returns (newLayer layerSize inputSize true) w (fun l w' =>
    exists W B, layer_value w' l = Some (W, B) /\
                Forall (fun x => (-1 <= x < 1)%R) (data W) /\
                Forall (fun x => (-1 <= x < 1)%R) (data B)).
Proof.
  intros Hl Hi Hdraws. unfold newLayer.
  apply returns_bind.
  eapply returns_mono; [apply randomArray_returns; nia |].
  intros wd w1 (Hlen1 & Hfill1 & Hd1 & _ & _ & _ & Hr1).
  apply returns_bind. eapply returns_eq.
  { apply NewDense_data; try assumption. unfold len. rewrite Hlen1. nia. }
  apply returns_bind.
  eapply returns_mono; [apply randomArray_returns; lia |].
  intros bd w3 (Hlen2 & Hfill2 & Hd3 & _ & _ & _ & _).
  apply returns_bind. eapply returns_eq.
  { apply NewDense_data; try lia. unfold len. rewrite Hlen2. lia. }
  apply returns_ret.
  exists (mkDense (Z.to_nat layerSize) (Z.to_nat inputSize) wd),
         (mkDense (Z.to_nat layerSize) (Z.to_nat 1) bd).
  split; [| split].
  - unfold layer_value; simpl. rewrite Hd3; simpl. rewrite Hd1.
    rewrite <- app_assoc. rewrite nth_error_app2 by lia.
    rewrite Nat.sub_diag; simpl.
    rewrite length_app; simpl.
    rewrite nth_error_app2 by lia.
    replace (length (denses w) + 1 - length (denses w))%nat with 1%nat by lia.
    reflexivity.
  - simpl. apply Forall_nth_error_all. intros k x Hk.
    assert (Hin : (k < Z.to_nat (layerSize * inputSize))%nat).
    { rewrite <- Hlen1. apply nth_error_Some. congruence. }
    rewrite (Hfill1 k Hin) in Hk. injection Hk as <-.
    apply lerp_unit_range, Hdraws.
  - simpl. apply Forall_nth_error_all. intros k x Hk.
    assert (Hin : (k < Z.to_nat layerSize)%nat).
    { rewrite <- Hlen2. apply nth_error_Some. congruence. }
    rewrite (Hfill2 k Hin) in Hk. injection Hk as <-.
    apply lerp_unit_range. simpl. rewrite Hr1. apply Hdraws.
Qed.

Lemma newLayer_random_entries_in_range_witness :
  returns (newLayer 1 1 true) empty_world (fun l w' =>
    exists W B, layer_value w' l = Some (W, B) /\
                Forall (fun x => (-1 <= x < 1)%R) (data W) /\
                Forall (fun x => (-1 <= x < 1)%R) (data B)).
Proof.
  apply (newLayer_random_entries_in_range 1 1 empty_world).
  - lia.
  - lia.
  - intros k; simpl; lra.
Defined.

(** C10 (as stated) fails: a source whose draws are all 0, which lie in
    [0, 1), yields a layer whose entries are -1, outside the open
    interval. *)
Lemma newLayer_random_entries_not_open :
  ~ random_layer_entries (fun x => (-1 < x < 1)%R).
Proof.
  intros Hclaim.
  destruct (Hclaim 1 1 empty_world ltac:(lia) ltac:(lia)) as (l & w' & Hrun & W & B & Hval & HW & _).
  { intros k; simpl; lra. }
  cbv [newLayer randomArray make for_up bind ret rand_Float64 set_index NewDense
       alloc_dense empty_world] in Hrun.
  simpl in Hrun. injection Hrun as <- <-.
  unfold layer_value in Hval; simpl in Hval. injection Hval as <- <-.
  simpl in HW. inversion HW as [| x rest Hx _]; subst.
  rewrite lerp_zero in Hx. lra.
Qed.

(** ** The wrappers around [mat]: each allocates exactly one matrix *)

Lemma value_denote w m x : denote w m = Some x -> value m w = (Ok x, w).
Proof.
  destruct m as [| p | p]; simpl; [discriminate | |].
  - unfold load_dense. intros ->. reflexivity.
  - unfold bind, load_dense.
    destruct (nth_error (denses w) p); [| discriminate].
    simpl. intros [= <-]. reflexivity.
Qed.

Lemma Dims_denote w m x :
  denote w m = Some x -> Dims m w = (Ok (Z.of_nat (rows x), Z.of_nat (cols x)), w).
Proof.
  intros Hm. unfold Dims. rewrite (bind_Ok _ _ _ _ _ (value_denote _ _ _ Hm)).
  reflexivity.
Qed.

Lemma reuseAs_fresh w r c :
  (0 < r)%nat -> (0 < c)%nat ->
  reuseAs (length (denses w)) r c (push w (zeros r c)) = (Ok tt, push w (zeros r c)).
Proof.
  intros Hr Hc. unfold reuseAs.
  rewrite (bind_Ok _ _ _ (zeros r c) (push w (zeros r c))).
  - unfold IsEmpty; simpl.
    destruct r; [lia |]. destruct c; [lia |]. simpl.
    rewrite !Nat.eqb_refl. reflexivity.
  - unfold load_dense. change (denses (push w (zeros r c))) with (denses w ++ [zeros r c]).
    rewrite nth_error_app2 by lia. rewrite Nat.sub_diag. reflexivity.
Qed.

Lemma store_fresh w z v :
  store_dense (length (denses w)) v (push w z) = (Ok tt, push w v).
Proof.
  unfold store_dense, push; simpl. rewrite update_last. reflexivity.
Qed.

(** The common tail of the six wrappers: a fresh zero matrix of the shape of
    the result receives the result. *)
Lemma receive_fresh w r c v :
  (0 < r)%nat -> (0 < c)%nat ->
  (reuseAs (length (denses w)) r c ;;; store_dense (length (denses w)) v)
    (push w (zeros r c)) = (Ok tt, push w v).
Proof.
  intros Hr Hc.
  rewrite (bind_Ok _ _ _ _ _ (reuseAs_fresh w r c Hr Hc)).
  apply store_fresh.
Qed.

Ltac step_with E := rewrite (bind_Ok _ _ _ _ _ E).

Lemma elementwise_fresh op w m n x y :
  denote w m = Some x -> denote w n = Some y ->
  rows x = rows y -> cols x = cols y -> (0 < rows x)%nat -> (0 < cols x)%nat ->
  elementwise op (length (denses w)) m n (push w (zeros (rows x) (cols x)))
  = (Ok tt, push w (op x y)).
Proof.
  intros Hm Hn Hr Hc Hr0 Hc0. unfold elementwise.
  step_with (value_denote _ _ _ (denote_push _ (zeros (rows x) (cols x)) _ _ Hm)).
  step_with (value_denote _ _ _ (denote_push _ (zeros (rows x) (cols x)) _ _ Hn)).
  rewrite <- Hr, <- Hc, !Nat.eqb_refl. simpl.
  apply receive_fresh; assumption.
Qed.

Lemma add_fresh w m n x y :
  denote w m = Some x -> denote w n = Some y ->
  rows x = rows y -> cols x = cols y -> (0 < rows x)%nat -> (0 < cols x)%nat ->
  add m n w = (Ok (MDense (length (denses w))), push w (madd x y)).
Proof.
  intros Hm Hn Hr Hc Hr0 Hc0. unfold add.
  step_with (Dims_denote _ _ _ Hm).
  step_with (NewDense_zero (Z.of_nat (rows x)) (Z.of_nat (cols x)) w ltac:(lia) ltac:(lia)).
  rewrite !Nat2Z.id.
  step_with (elementwise_fresh madd w m n x y Hm Hn Hr Hc Hr0 Hc0).
  reflexivity.
Qed.

Lemma sub_fresh w m n x y :
  denote w m = Some x -> denote w n = Some y ->
  rows x = rows y -> cols x = cols y -> (0 < rows x)%nat -> (0 < cols x)%nat ->
  sub m n w = (Ok (MDense (length (denses w))), push w (msub x y)).
Proof.
  intros Hm Hn Hr Hc Hr0 Hc0. unfold sub.
  step_with (Dims_denote _ _ _ Hm).
  step_with (NewDense_zero (Z.of_nat (rows x)) (Z.of_nat (cols x)) w ltac:(lia) ltac:(lia)).
  rewrite !Nat2Z.id.
  step_with (elementwise_fresh msub w m n x y Hm Hn Hr Hc Hr0 Hc0).
  reflexivity.
Qed.

Lemma mul_fresh w m n x y :
  denote w m = Some x -> denote w n = Some y ->
  rows x = rows y -> cols x = cols y -> (0 < rows x)%nat -> (0 < cols x)%nat ->
  mul m n w = (Ok (MDense (length (denses w))), push w (hadamard x y)).
Proof.
  intros Hm Hn Hr Hc Hr0 Hc0. unfold mul.
  step_with (Dims_denote _ _ _ Hm).
  step_with (Dims_denote _ _ _ Hn).
  step_with (NewDense_zero (Z.of_nat (rows x)) (Z.of_nat (cols y)) w ltac:(lia) ltac:(lia)).
  rewrite !Nat2Z.id, <- Hc.
  step_with (elementwise_fresh hadamard w m n x y Hm Hn Hr Hc Hr0 Hc0).
  reflexivity.
Qed.

Lemma Product_fresh w m n x y :
  denote w m = Some x -> denote w n = Some y ->
  cols x = rows y -> (0 < rows x)%nat -> (0 < cols y)%nat ->
  Product (length (denses w)) m n (push w (zeros (rows x) (cols y)))
  = (Ok tt, push w (matmul x y)).
Proof.
  intros Hm Hn Hxy Hr0 Hc0. unfold Product.
  step_with (value_denote _ _ _ (denote_push _ (zeros (rows x) (cols y)) _ _ Hm)).
  step_with (value_denote _ _ _ (denote_push _ (zeros (rows x) (cols y)) _ _ Hn)).
  rewrite Hxy, Nat.eqb_refl. simpl.
  apply receive_fresh; assumption.
Qed.

Lemma Apply_fresh w fn m x :
  denote w m = Some x -> (0 < rows x)%nat -> (0 < cols x)%nat ->
  Apply (length (denses w)) fn m (push w (zeros (rows x) (cols x)))
  = (Ok tt, push w (apply fn x)).
Proof.
  intros Hm Hr0 Hc0. unfold Apply.
  step_with (value_denote _ _ _ (denote_push _ (zeros (rows x) (cols x)) _ _ Hm)).
  apply receive_fresh; assumption.
Qed.

Lemma Scale_fresh w f m x :
  denote w m = Some x -> (0 < rows x)%nat -> (0 < cols x)%nat ->
  Scale (length (denses w)) f m (push w (zeros (rows x) (cols x)))
  = (Ok tt, push w (scale f x)).
Proof.
  intros Hm Hr0 Hc0. unfold Scale.
  step_with (value_denote _ _ _ (denote_push _ (zeros (rows x) (cols x)) _ _ Hm)).
  apply receive_fresh; assumption.
Qed.

Lemma dot_fresh w m n x y :
  denote w m = Some x -> denote w n = Some y ->
  cols x = rows y -> (0 < rows x)%nat -> (0 < cols y)%nat ->
  dot m n w = (Ok (MDense (length (denses w))), push w (matmul x y)).
Proof.
  intros Hm Hn Hxy Hr0 Hc0. unfold dot.
  step_with (Dims_denote _ _ _ Hm).
  step_with (Dims_denote _ _ _ Hn).
  step_with (NewDense_zero (Z.of_nat (rows x)) (Z.of_nat (cols y)) w ltac:(lia) ltac:(lia)).
  rewrite !Nat2Z.id.
  step_with (Product_fresh w m n x y Hm Hn Hxy Hr0 Hc0).
  reflexivity.
Qed.

Lemma fun_fresh w fn m x :
  denote w m = Some x -> (0 < rows x)%nat -> (0 < cols x)%nat ->
  fun_ fn m w = (Ok (MDense (length (denses w))), push w (apply fn x)).
Proof.
  intros Hm Hr0 Hc0. unfold fun_.
  step_with (Dims_denote _ _ _ Hm).
  step_with (NewDense_zero (Z.of_nat (rows x)) (Z.of_nat (cols x)) w ltac:(lia) ltac:(lia)).
  rewrite !Nat2Z.id.
  step_with (Apply_fresh w fn m x Hm Hr0 Hc0).
  reflexivity.
Qed.

Lemma scl_fresh w f m x :
  denote w m = Some x -> (0 < rows x)%nat -> (0 < cols x)%nat ->
  scl f m w = (Ok (MDense (length (denses w))), push w (scale f x)).
Proof.
  intros Hm Hr0 Hc0. unfold scl.
  step_with (Dims_denote _ _ _ Hm).
  step_with (NewDense_zero (Z.of_nat (rows x)) (Z.of_nat (cols x)) w ltac:(lia) ltac:(lia)).
  rewrite !Nat2Z.id.
  step_with (Scale_fresh w f m x Hm Hr0 Hc0).
  reflexivity.
Qed.

(** ** Frames *)

Lemma dense_kept_refl w : dense_kept w w.
Proof. exists []. symmetry; apply app_nil_r. Qed.

Lemma dense_kept_trans w1 w2 w3 :
  dense_kept w1 w2 -> dense_kept w2 w3 -> dense_kept w1 w3.
Proof.
  intros [m1 H1] [m2 H2]. exists (m1 ++ m2). rewrite H2, H1. symmetry; apply app_assoc.
Qed.

Lemma dense_kept_nth w w' p d :
  dense_kept w w' -> nth_error (denses w) p = Some d -> nth_error (denses w') p = Some d.
Proof.
  intros [more Hw] Hp. rewrite Hw, nth_error_app1; [exact Hp |].
  apply nth_error_Some; congruence.
Qed.

Lemma dense_kept_length w w' :
  dense_kept w w' -> (length (denses w) <= length (denses w'))%nat.
Proof. intros [more ->]. rewrite length_app. lia. Qed.

Lemma allocated_refl w : allocated w w.
Proof. repeat split; auto using dense_kept_refl. Qed.

Lemma allocated_trans w1 w2 w3 : allocated w1 w2 -> allocated w2 w3 -> allocated w1 w3.
Proof.
  intros (Hd1 & Ha1 & Hr1 & Hf1 & Hs1) (Hd2 & Ha2 & Hr2 & Hf2 & Hs2).
  repeat split; try congruence. eapply dense_kept_trans; eassumption.
Qed.

Lemma allocated_push w d : allocated w (push w d).
Proof. repeat split; auto. exists [d]; reflexivity. Qed.

Lemma allocated_push_r w w' d : allocated w w' -> allocated w (push w' d).
Proof. intros H; eapply allocated_trans; [exact H | apply allocated_push]. Qed.

Lemma denote_kept w w' m x :
  dense_kept w w' -> denote w m = Some x -> denote w' m = Some x.
Proof.
  intros Hk. destruct m as [| p | p]; simpl; [discriminate | |].
  - apply dense_kept_nth; exact Hk.
  - destruct (nth_error (denses w) p) eqn:Hp; [| discriminate].
    rewrite (dense_kept_nth _ _ _ _ Hk Hp). auto.
Qed.

Lemma layer_value_kept w w' l v :
  dense_kept w w' -> layer_value w l = Some v -> layer_value w' l = Some v.
Proof.
  intros Hk. unfold layer_value.
  destruct (weights l) as [| p | p]; try discriminate.
  destruct (biases l) as [| q | q]; try discriminate.
  destruct (nth_error (denses w) p) eqn:Hp; [| discriminate].
  destruct (nth_error (denses w) q) eqn:Hq; [| discriminate].
  rewrite (dense_kept_nth _ _ _ _ Hk Hp), (dense_kept_nth _ _ _ _ Hk Hq). auto.
Qed.

Lemma layer_values_kept w w' ls vs :
  dense_kept w w' -> layer_values w ls = Some vs -> layer_values w' ls = Some vs.
Proof.
  intros Hk. revert vs. induction ls as [| l ls IH]; intros vs; simpl; [auto |].
  destruct (layer_value w l) eqn:Hl; [| discriminate].
  destruct (layer_values w ls) eqn:Hls; [| discriminate].
  rewrite (layer_value_kept _ _ _ _ Hk Hl), (IH _ eq_refl). auto.
Qed.

Lemma network_values_allocated w w' n L :
  allocated w w' -> network_values w n = Some L -> network_values w' n = Some L.
Proof.
  intros (Hd & Ha & _) . unfold network_values, network_layers. rewrite Ha.
  destruct (layers n); [discriminate |].
  destruct (nth_error (arrays w) a); [| discriminate].
  apply layer_values_kept; exact Hd.
Qed.

(** ** Reading layers *)

Lemma layer_values_nth w ls vs k v :
  layer_values w ls = Some vs -> nth_error vs k = Some v ->
  exists l, nth_error ls k = Some l /\ layer_value w l = Some v.
Proof.
  revert vs k. induction ls as [| l ls IH]; intros vs k; simpl.
  - intros [= <-]. destruct k; discriminate.
  - destruct (layer_value w l) eqn:Hl; [| discriminate].
    destruct (layer_values w ls) eqn:Hls; [| discriminate].
    intros [= <-]. destruct k as [| k]; simpl.
    + intros [= <-]. exists l; auto.
    + intros Hk. exact (IH _ _ eq_refl Hk).
Qed.

Lemma layer_values_length w ls vs :
  layer_values w ls = Some vs -> length vs = length ls.
Proof.
  revert vs. induction ls as [| l ls IH]; intros vs; simpl.
  - intros [= <-]; reflexivity.
  - destruct (layer_value w l); [| discriminate].
    destruct (layer_values w ls); [| discriminate].
    intros [= <-]. simpl. f_equal. apply IH; reflexivity.
Qed.

Lemma layer_value_pointers w l W B :
  layer_value w l = Some (W, B) ->
  denote w (weights l) = Some W /\ denote w (biases l) = Some B /\
  exists p q, l = mkLayer (MDense p) (MDense q).
Proof.
  unfold layer_value. destruct l as [[| p | p] [| q | q]]; simpl; try discriminate.
  destruct (nth_error (denses w) p); [| discriminate].
  destruct (nth_error (denses w) q); [| discriminate].
  intros [= <- <-]. repeat split; eauto.
Qed.

Lemma layers_at_Ok w s ls k l :
  backing s w = (Ok ls, w) -> nth_error ls k = Some l ->
  layers_at s (Z.of_nat k) w = (Ok l, w).
Proof.
  intros Hb Hk. unfold layers_at. step_with Hb. apply index_Ok; exact Hk.
Qed.

Lemma backing_network w n ls :
  network_layers w n = Some ls -> backing (layers n) w = (Ok ls, w).
Proof.
  unfold network_layers, backing. destruct (layers n); [discriminate |].
  intros ->. reflexivity.
Qed.

(** Layer [k] of a network in the world: its two pointers and what they
    hold. *)
Lemma network_layer_at w n L k W B :
  network_values w n = Some L -> nth_error L k = Some (W, B) ->
  exists l, layers_at (layers n) (Z.of_nat k) w = (Ok l, w) /\
            denote w (weights l) = Some W /\ denote w (biases l) = Some B.
Proof.
  unfold network_values. destruct (network_layers w n) as [ls |] eqn:Hls; [| discriminate].
  intros HL Hk.
  destruct (layer_values_nth _ _ _ _ _ HL Hk) as (l & Hl & Hv).
  destruct (layer_value_pointers _ _ _ _ Hv) as (HW & HB & _).
  exists l. split; [| auto].
  eapply layers_at_Ok; [apply backing_network; exact Hls | exact Hl].
Qed.

(** ** Shapes along the forward pass *)

Lemma activation_before_step L x k W B :
  nth_error L k = Some (W, B) ->
  activation_before L x (S k) = activation W B (activation_before L x k).
Proof.
  revert L x. induction k as [| k IH]; intros [| [W0 B0] L] x; simpl; try discriminate.
  - intros [= <- <-]. destruct L as [| [? ?] ?]; reflexivity.
  - intros Hk. exact (IH L _ Hk).
Qed.

Lemma forward_activation_before L x : forward L x = activation_before L x (length L).
Proof.
  revert x. induction L as [| [W B] L IH]; intros x; simpl; [reflexivity | apply IH].
Qed.

Lemma shaped_length n_in sizes L : shaped n_in sizes L -> length L = length sizes.
Proof.
  revert n_in L. induction sizes as [| s sizes IH]; intros n_in [| [W B] L]; simpl;
    try tauto.
  intros (_ & _ & _ & _ & _ & Hrest). f_equal. exact (IH _ _ Hrest).
Qed.

Lemma shaped_layer n_in sizes L x k W B :
  shaped n_in sizes L -> Z.of_nat (rows x) = n_in -> cols x = 1%nat ->
  nth_error L k = Some (W, B) ->
  rows (activation_before L x k) = cols W /\ cols (activation_before L x k) = 1%nat /\
  (0 < rows W)%nat /\ rows B = rows W /\ cols B = 1%nat /\
  nth_error sizes k = Some (Z.of_nat (rows W)).
Proof.
  revert n_in L x k. induction sizes as [| s sizes IH]; intros n_in [| [W0 B0] L] x k;
    simpl; try tauto.
  - intros _ _ _ Hk. destruct k; discriminate.
  - intros (Hs & HrW & HcW & HrB & HcB & Hrest) Hx Hc Hk.
    destruct k as [| k]; simpl in *.
    + injection Hk as <- <-. repeat split; try lia. congruence.
    + apply (IH s L (activation W0 B0 x) k Hrest); auto.
Qed.

Lemma shaped_output n_in sizes L x :
  shaped n_in sizes L -> L <> [] ->
  Z.of_nat (rows (forward L x)) = last sizes 0.
Proof.
  revert n_in L x. induction sizes as [| s sizes IH]; intros n_in [| [W B] L] x;
    simpl; try tauto.
  intros (Hs & HrW & HcW & HrB & HcB & Hrest) _.
  destruct L as [| [W1 B1] L].
  - destruct sizes; [| simpl in Hrest; tauto]. simpl. exact HrW.
  - destruct sizes as [| s1 sizes]; [simpl in Hrest; tauto |].
    apply (IH s _ _ Hrest). discriminate.
Qed.

(** ** The sigmoid *)

Lemma sigmoid_range a b v : (0 < sigmoid a b v < 1)%R.
Proof.
  unfold sigmoid. pose proof (exp_pos (- v)) as He.
  split.
  - apply Rdiv_lt_0_compat; lra.
  - apply (Rmult_lt_reg_r (1 + exp (- v))); [lra |].
    unfold Rdiv. rewrite Rmult_assoc, Rinv_l by lra. lra.
Qed.

(** ** One layer of the forward pass *)

(** The pre-activation of layer [k], as both [Calc] and [backpropagate]
    compute it from the activation [prev] before it, once the layer has been
    read. *)
Lemma forward_round w n L k W B l prev a :
  network_values w n = Some L -> nth_error L k = Some (W, B) ->
  denote w (weights l) = Some W ->
  denote w prev = Some a ->
  rows a = cols W -> cols a = 1%nat ->
  (0 < rows W)%nat -> rows B = rows W -> cols B = 1%nat ->
  forall A (rest : Matrix -> M A) (Q : A -> world -> Prop),
    (forall z w',
        allocated w w' ->
        denote w' z = Some (pre_activation W B a) ->
        returns (rest z) w' Q) ->
    returns (d <- dot (weights l) prev ;;
             l' <- layers_at (layers n) (Z.of_nat k) ;;
             z <- add d (biases l') ;;
             rest z) w Q.
Proof.
  intros HL Hk HlW Hprev Hra Hca HrW HrB HcB A rest Q Hrest.
  apply returns_bind. eapply returns_eq.
  { apply (dot_fresh w _ _ W a HlW Hprev); [congruence | exact HrW | lia]. }
  set (w1 := push w (matmul W a)).
  assert (HL1 : network_values w1 n = Some L)
    by (eapply network_values_allocated; [apply allocated_push | exact HL]).
  destruct (network_layer_at _ _ _ _ _ _ HL1 Hk) as (l' & Hat' & _ & HlB').
  apply returns_bind. eapply returns_eq; [exact Hat' |].
  apply returns_bind. eapply returns_eq.
  { apply (add_fresh w1 _ _ (matmul W a) B (denote_new w _) HlB'); simpl; lia. }
  apply Hrest.
  - apply allocated_push_r, allocated_push.
  - apply denote_new.
Qed.

Lemma activation_shape W B a :
  rows (activation W B a) = rows W /\ cols (activation W B a) = cols a.
Proof. split; reflexivity. Qed.

Lemma length_entries a : length (entries a) = rows a.
Proof. unfold entries. rewrite length_map, length_seq. reflexivity. Qed.

Lemma nth_error_entries a k :
  (k < rows a)%nat -> nth_error (entries a) k = Some (at_ a k 0).
Proof.
  intros Hk. unfold entries.
  rewrite nth_error_map, nth_error_seq.
  destruct (Nat.ltb_spec k (rows a)); [reflexivity | lia].
Qed.

(** Reading the single column of [act] into a slice. *)
Lemma read_column w act a :
  denote w act = Some a -> cols a = 1%nat ->
  returns ('(r, _) <- Dims act ;;
           res <- make 0%R r ;;
           for_up (Z.to_nat r) 0
             (fun idx res => v <- At act idx 0 ;; set_index res idx v) res) w
          (fun out w' => out = entries a /\ w' = w).
Proof.
  intros Hact Hcols.
  apply returns_bind. eapply returns_eq; [apply (Dims_denote _ _ _ Hact) |].
  apply returns_bind. eapply returns_eq; [apply make_Ok; lia |].
  rewrite Nat2Z.id.
  eapply returns_mono.
  - apply (for_up_returns (fun j res w' =>
      w' = w /\ length res = rows a /\
      forall k, (k < j)%nat -> nth_error res k = Some (at_ a k 0))).
    + rewrite repeat_length. repeat split; auto. intros k Hk; lia.
    + intros j res w1 Hj (-> & Hlen & Hfilled).
      apply returns_bind. eapply returns_eq.
      { unfold At. step_with (value_denote _ _ _ Hact).
        replace (0 + Z.of_nat j <? 0) with false by (symmetry; apply Z.ltb_ge; lia).
        replace (Z.of_nat (rows a) <=? 0 + Z.of_nat j) with false
          by (symmetry; apply Z.leb_gt; lia).
        rewrite Hcols. simpl. reflexivity. }
      simpl. eapply returns_eq; [apply set_index_Ok; lia |].
      rewrite length_update. repeat split; auto.
      intros k Hk. destruct (Nat.eq_dec k j) as [-> | Hne].
      * rewrite nth_error_update_same by lia. rewrite Nat2Z.id. reflexivity.
      * rewrite nth_error_update_other by exact Hne. apply Hfilled; lia.
  - intros out w' (-> & Hlen & Hfilled). split; [| reflexivity].
    apply nth_error_ext. intros k.
    destruct (Nat.lt_ge_cases k (rows a)) as [Hk | Hk].
    + rewrite (Hfilled k Hk), nth_error_entries by exact Hk. reflexivity.
    + rewrite (proj2 (nth_error_None out k)) by lia.
      rewrite (proj2 (nth_error_None (entries a) k)); [reflexivity |].
      rewrite length_entries; exact Hk.
Qed.

Lemma column_of_data (size : Z) (data : list R) :
  len data = size -> mkDense (Z.to_nat size) (Z.to_nat 1) data = column data.
Proof.
  unfold len, column. intros <-. rewrite Nat2Z.id. reflexivity.
Qed.

(** [Calc] on a well-formed network returns the entries of the forward
    pass and only allocates. *)
Lemma Calc_returns w n L data :
  network_in w n L -> len data = i n ->
  returns (Calc n data) w (fun out w' =>
    out = entries (forward L (column data)) /\ allocated w w').
Proof.
  intros (HL & Hi & Hh & Hshape) Hdata.
  unfold Calc. rewrite (proj2 (Z.eqb_eq _ _) Hdata). simpl.
  apply returns_bind. eapply returns_eq.
  { apply NewDense_data; [exact Hi | lia |]. rewrite Hdata. lia. }
  rewrite (column_of_data _ _ Hdata).
  set (x := column data). set (w1 := push w x).
  set (inputs := length (denses w)).
  assert (Hx : denote w1 (MDense inputs) = Some x) by apply denote_new.
  assert (Hrx : Z.of_nat (rows x) = i n) by (unfold x; simpl; exact Hdata).
  assert (Hlen : Z.to_nat (h n) = length L) by (rewrite Hh; unfold len; apply Nat2Z.id).
  assert (HL0 : (0 < length L)%nat).
  { rewrite (shaped_length _ _ _ Hshape), length_app. simpl. lia. }
  apply returns_bind. rewrite Hlen.
  eapply returns_mono.
  - apply (for_up_returns (fun k act w' =>
      allocated w1 w' /\
      denote w' (match k with O => MDense inputs | S _ => act end)
        = Some (activation_before L x k) /\
      cols (activation_before L x k) = 1%nat)).
    + split; [apply allocated_refl | split; [exact Hx | reflexivity]].
    + intros k act wk Hk (Halloc & Hact & _).
      destruct (nth_error L k) as [[W B] |] eqn:HLk;
        [| apply nth_error_None in HLk; lia].
      destruct (shaped_layer _ _ _ x _ _ _ Hshape Hrx eq_refl HLk)
        as (Hra & Hca & HrW & HrB & HcB & _).
      assert (HLk' : network_values wk n = Some L).
      { eapply network_values_allocated; [| exact HL].
        eapply allocated_trans; [apply allocated_push | exact Halloc]. }
      rewrite Z.add_0_l.
      assert (Hround : forall prev, denote wk prev = Some (activation_before L x k) ->
        returns (l <- layers_at (layers n) (Z.of_nat k) ;;
                 d <- dot (weights l) prev ;;
                 l' <- layers_at (layers n) (Z.of_nat k) ;;
                 z <- add d (biases l') ;;
                 fun_ sigmoid z) wk
          (fun act' w' => allocated w1 w' /\
             denote w' act' = Some (activation_before L x (S k)) /\
             cols (activation_before L x (S k)) = 1%nat)).
      { intros prev Hprev.
        destruct (network_layer_at _ _ _ _ _ _ HLk' HLk) as (l & Hat & HlW & _).
        apply returns_bind. eapply returns_eq; [exact Hat |].
        apply (forward_round wk n L k W B l prev _ HLk' HLk HlW Hprev Hra Hca HrW HrB HcB).
        intros z w' Hw' Hz.
        eapply returns_eq.
        - apply (fun_fresh w' sigmoid z _ Hz); simpl; lia.
        - rewrite (activation_before_step _ _ _ _ _ HLk).
          split; [| split].
          + eapply allocated_trans; [exact Halloc |].
            apply allocated_push_r; exact Hw'.
          + apply denote_new.
          + simpl. exact Hca. }
      destruct k as [| k].
      * simpl (Z.of_nat 0 =? 0). cbv iota. apply Hround. exact Hact.
      * replace (Z.of_nat (S k) =? 0) with false by (symmetry; apply Z.eqb_neq; lia).
        apply Hround. exact Hact.
  - intros act w' (Halloc & Hact & Hcols).
    destruct (length L) as [| k] eqn:HlenL; [lia |].
    rewrite <- HlenL, <- forward_activation_before in Hact, Hcols.
    eapply returns_mono; [apply (read_column w' act _ Hact Hcols) |].
    intros out w'' (-> & ->). split; [reflexivity |].
    eapply allocated_trans; [apply allocated_push | exact Halloc].
Qed.

Lemma at_apply fn z r c :
  (r < rows z)%nat -> (c < cols z)%nat ->
  at_ (apply fn z) r c = fn (Z.of_nat r) (Z.of_nat c) (at_ z r c).
Proof. intros Hr Hc. unfold apply. apply at_tabulate; assumption. Qed.


Lemma xor_network_in : network_in xor_world xor_net xor_values.
Proof.
  split; [reflexivity |].
  unfold topology; simpl. repeat split; reflexivity || lia.
Qed.



(** ** Overwriting a field of a layer *)

Lemma set_layer_Ok w a ls k l f :
  nth_error (arrays w) a = Some ls -> nth_error ls k = Some l ->
  set_layer (SliceOf a) (Z.of_nat k) f w = (Ok tt, with_array w a (update ls k (f l))).
Proof.
  intros Ha Hk. unfold set_layer.
  assert (Hb : backing (SliceOf a) w = (Ok ls, w)) by (simpl; rewrite Ha; reflexivity).
  step_with Hb. step_with (index_Ok ls k l w Hk).
  rewrite Nat2Z.id. reflexivity.
Qed.

Lemma layer_values_update w ls V k l v :
  layer_values w ls = Some V -> layer_value w l = Some v ->
  layer_values w (update ls k l) = Some (update V k v).
Proof.
  revert V k. induction ls as [| l0 ls IH]; intros V k; simpl.
  - intros [= <-] _. reflexivity.
  - destruct (layer_value w l0) eqn:Hl0; [| discriminate].
    destruct (layer_values w ls) eqn:Hls; [| discriminate].
    intros [= <-] Hl. destruct k as [| k]; simpl.
    + rewrite Hl, Hls. reflexivity.
    + rewrite Hl0, (IH _ k eq_refl Hl). reflexivity.
Qed.

Lemma layer_values_same_denses w w' ls :
  denses w' = denses w -> layer_values w' ls = layer_values w ls.
Proof.
  intros Hd. induction ls as [| l ls IH]; simpl; [reflexivity |].
  rewrite IH. unfold layer_value. rewrite Hd. reflexivity.
Qed.

Lemma network_layers_with_array w n a ls :
  layers n = SliceOf a -> (a < length (arrays w))%nat ->
  network_layers (with_array w a ls) n = Some ls.
Proof.
  intros Hn Ha. unfold network_layers. rewrite Hn. simpl.
  apply nth_error_update_same; exact Ha.
Qed.

Lemma allocated_with_array w a ls : dense_kept w (with_array w a ls).
Proof. exists []. simpl. symmetry; apply app_nil_r. Qed.

Lemma only_array_refl a w : only_array a w w.
Proof. split; [apply dense_kept_refl | split; [lia | auto]]. Qed.

Lemma only_array_trans a w1 w2 w3 :
  only_array a w1 w2 -> only_array a w2 w3 -> only_array a w1 w3.
Proof.
  intros (Hd1 & Hl1 & Ho1) (Hd2 & Hl2 & Ho2).
  split; [eapply dense_kept_trans; eassumption | split; [lia |]].
  intros a' Hne Ha'. rewrite Ho2 by (auto; lia). apply Ho1; assumption.
Qed.

Lemma only_array_allocated a w w' : allocated w w' -> only_array a w w'.
Proof.
  intros (Hd & Ha & _). split; [exact Hd | split; rewrite Ha; auto].
Qed.

Lemma only_array_with_array a w ls : only_array a w (with_array w a ls).
Proof.
  split; [apply allocated_with_array | split; simpl].
  - rewrite length_update. lia.
  - intros a' Hne _. apply nth_error_update_other; exact Hne.
Qed.

(** Overwriting the biases (the weights) of layer [k] by a matrix object
    changes that one matrix of the network and nothing else. *)
Lemma set_biases_Ok w n a V k W B p B' :
  layers n = SliceOf a -> network_values w n = Some V ->
  nth_error V k = Some (W, B) -> nth_error (denses w) p = Some B' ->
  exists w', set_biases (layers n) (Z.of_nat k) (MDense p) w = (Ok tt, w') /\
             network_values w' n = Some (update V k (W, B')) /\
             denses w' = denses w /\ only_array a w w' /\
             rand_source w' = rand_source w /\ files w' = files w /\
             stdout w' = stdout w.
Proof.
  intros Hn HV Hk Hp. unfold network_values, network_layers in HV. rewrite Hn in HV.
  destruct (nth_error (arrays w) a) as [ls |] eqn:Ha; [| discriminate].
  destruct (layer_values_nth _ _ _ _ _ HV Hk) as (l & Hl & Hv).
  exists (with_array w a (update ls k (mkLayer (weights l) (MDense p)))).
  split; [| split; [| split; [| split]]].
  - unfold set_biases. rewrite Hn.
    apply (set_layer_Ok w a ls k l (fun l => mkLayer (weights l) (MDense p)) Ha Hl).
  - unfold network_values.
    rewrite network_layers_with_array
      by (auto; apply nth_error_Some; congruence).
    rewrite (layer_values_same_denses w) by reflexivity.
    apply layer_values_update; [exact HV |].
    destruct (layer_value_pointers _ _ _ _ Hv) as (HW & _ & pw & qb & ->).
    simpl in *. unfold layer_value; simpl. rewrite HW, Hp. reflexivity.
  - reflexivity.
  - apply only_array_with_array.
  - auto.
Qed.

Lemma set_weights_Ok w n a V k W B p W' :
  layers n = SliceOf a -> network_values w n = Some V ->
  nth_error V k = Some (W, B) -> nth_error (denses w) p = Some W' ->
  exists w', set_weights (layers n) (Z.of_nat k) (MDense p) w = (Ok tt, w') /\
             network_values w' n = Some (update V k (W', B)) /\
             denses w' = denses w /\ only_array a w w' /\
             rand_source w' = rand_source w /\ files w' = files w /\
             stdout w' = stdout w.
Proof.
  intros Hn HV Hk Hp. unfold network_values, network_layers in HV. rewrite Hn in HV.
  destruct (nth_error (arrays w) a) as [ls |] eqn:Ha; [| discriminate].
  destruct (layer_values_nth _ _ _ _ _ HV Hk) as (l & Hl & Hv).
  exists (with_array w a (update ls k (mkLayer (MDense p) (biases l)))).
  split; [| split; [| split; [| split]]].
  - unfold set_weights. rewrite Hn.
    apply (set_layer_Ok w a ls k l (fun l => mkLayer (MDense p) (biases l)) Ha Hl).
  - unfold network_values.
    rewrite network_layers_with_array
      by (auto; apply nth_error_Some; congruence).
    rewrite (layer_values_same_denses w) by reflexivity.
    apply layer_values_update; [exact HV |].
    destruct (layer_value_pointers _ _ _ _ Hv) as (_ & HB & pw & qb & ->).
    simpl in *. unfold layer_value; simpl. rewrite Hp, HB. reflexivity.
  - reflexivity.
  - apply only_array_with_array.
  - auto.
Qed.

(** ** The backward pass, layer by layer *)

Lemma skipn_nth_error {A} (l : list A) k x :
  nth_error l k = Some x -> skipn k l = x :: skipn (S k) l.
Proof.
  revert l. induction k as [| k IH]; intros [| y l]; simpl; try discriminate.
  - intros [= ->]. reflexivity.
  - intros Hk. exact (IH l Hk).
Qed.

Lemma update_firstn_skipn {A} (l rest : list A) k v :
  (k < length l)%nat ->
  update (firstn (S k) l ++ rest) k v = firstn k l ++ v :: rest.
Proof.
  revert l. induction k as [| k IH]; intros [| y l] Hk; simpl in *; try lia.
  - reflexivity.
  - f_equal. apply IH. lia.
Qed.

Lemma nth_error_firstn_app {A} (l rest : list A) k j :
  (j < k)%nat -> (k <= length l)%nat ->
  nth_error (firstn k l ++ rest) j = nth_error l j.
Proof.
  intros Hj Hk. rewrite nth_error_app1 by (rewrite length_firstn; lia).
  apply nth_error_firstn_lt || (rewrite nth_error_firstn; destruct (Nat.ltb_spec j k); [reflexivity | lia]).
Qed.

Lemma nth_error_firstn_rest {A} (l rest : list A) k :
  (k <= length l)%nat -> nth_error (firstn k l ++ rest) k = nth_error rest 0.
Proof.
  intros Hk. rewrite nth_error_app2 by (rewrite length_firstn; lia).
  rewrite length_firstn. replace (k - Nat.min k (length l))%nat with O by lia.
  reflexivity.
Qed.

(** The shape of what the backward pass yields for a non-empty suffix. *)
Lemma backward_head lr e a W B rest :
  exists d ds W' B' rest',
    backward lr e a ((W, B) :: rest) = (d :: ds, (W', B') :: rest') /\
    rows W' = rows W /\ cols W' = cols W /\ rows B' = rows B /\ cols B' = cols B /\
    rows d = match rest with [] => rows e | (W1, _) :: _ => cols W1 end /\
    cols d = cols e.
Proof.
  revert a W B. induction rest as [| [W1 B1] rest IH]; intros a W B.
  - simpl. do 5 eexists. split; [reflexivity |]. repeat split; reflexivity.
  - destruct (IH (apply sigmoid (pre_activation W B a)) W1 B1)
      as (d1 & ds1 & W1' & B1' & rest1' & Hb & _ & HcW1 & _ & _ & _ & Hcd1).
    change (backward lr e a ((W, B) :: (W1, B1) :: rest))
      with (let z := pre_activation W B a in
            let a0 := apply sigmoid z in
            let '(deltas, rest') := backward lr e a0 ((W1, B1) :: rest) in
            let delta := match deltas, rest' with
                         | d :: _, (W', _) :: _ => matmul (transpose W') d
                         | _, _ => msub e a0
                         end in
            let g := hadamard delta (apply dSigmoid z) in
            (delta :: deltas,
             (madd W (scale lr (matmul g (transpose a))),
              madd B (scale (2 * lr) g)) :: rest')).
    cbv zeta. rewrite Hb.
    do 5 eexists. split; [reflexivity |].
    repeat split; simpl; auto.
Qed.

Lemma fresh_matrix_push w v : fresh_matrix w v (MDense (length (denses w))) (push w v).
Proof.
  split; [apply allocated_push |].
  eexists; split; [reflexivity | apply (denote_new w v)].
Qed.

Lemma add_returns w m n x y :
  denote w m = Some x -> denote w n = Some y ->
  rows x = rows y -> cols x = cols y -> (0 < rows x)%nat -> (0 < cols x)%nat ->
  returns (add m n) w (fresh_matrix w (madd x y)).
Proof.
  intros. eapply returns_eq; [apply add_fresh; eassumption | apply fresh_matrix_push].
Qed.

Lemma sub_returns w m n x y :
  denote w m = Some x -> denote w n = Some y ->
  rows x = rows y -> cols x = cols y -> (0 < rows x)%nat -> (0 < cols x)%nat ->
  returns (sub m n) w (fresh_matrix w (msub x y)).
Proof.
  intros. eapply returns_eq; [apply sub_fresh; eassumption | apply fresh_matrix_push].
Qed.

Lemma mul_returns w m n x y :
  denote w m = Some x -> denote w n = Some y ->
  rows x = rows y -> cols x = cols y -> (0 < rows x)%nat -> (0 < cols x)%nat ->
  returns (mul m n) w (fresh_matrix w (hadamard x y)).
Proof.
  intros. eapply returns_eq; [apply mul_fresh; eassumption | apply fresh_matrix_push].
Qed.

Lemma dot_returns w m n x y :
  denote w m = Some x -> denote w n = Some y ->
  cols x = rows y -> (0 < rows x)%nat -> (0 < cols y)%nat ->
  returns (dot m n) w (fresh_matrix w (matmul x y)).
Proof.
  intros. eapply returns_eq; [apply dot_fresh; eassumption | apply fresh_matrix_push].
Qed.

Lemma fun_returns w fn m x :
  denote w m = Some x -> (0 < rows x)%nat -> (0 < cols x)%nat ->
  returns (fun_ fn m) w (fresh_matrix w (apply fn x)).
Proof.
  intros. eapply returns_eq; [apply fun_fresh; eassumption | apply fresh_matrix_push].
Qed.

Lemma scl_returns w f m x :
  denote w m = Some x -> (0 < rows x)%nat -> (0 < cols x)%nat ->
  returns (scl f m) w (fresh_matrix w (scale f x)).
Proof.
  intros. eapply returns_eq; [apply scl_fresh; eassumption | apply fresh_matrix_push].
Qed.

Lemma shaped_cols_pos n_in sizes L k W B :
  shaped n_in sizes L -> 0 < n_in -> nth_error L k = Some (W, B) -> (0 < cols W)%nat.
Proof.
  revert n_in L k. induction sizes as [| s sizes IH]; intros n_in [| [W0 B0] L] k;
    simpl; try tauto.
  - intros _ _ Hk. destruct k; discriminate.
  - intros (Hs & HrW & HcW & HrB & HcB & Hrest) Hin Hk.
    destruct k as [| k]; simpl in *.
    + injection Hk as <- <-. lia.
    + exact (IH s L k Hrest Hs Hk).
Qed.

Lemma z_at_layer L x k W B :
  nth_error L k = Some (W, B) ->
  z_at L x k = pre_activation W B (activation_before L x k).
Proof. unfold z_at. intros ->. reflexivity. Qed.

Lemma cached_kept w w' L x zs acts k :
  dense_kept w w' -> cached w L x zs acts k -> cached w' L x zs acts k.
Proof.
  intros Hk Hc j Hj. destruct (Hc j Hj) as (zp & ap & Hz & Hzv & Ha & Hav).
  exists zp, ap. repeat split; auto.
  - eapply denote_kept; eassumption.
  - eapply dense_kept_nth; eassumption.
Qed.

Lemma allocated_dense_kept w w' : allocated w w' -> dense_kept w w'.
Proof. intros H; exact (proj1 H). Qed.

(** The first loop of [backpropagate]: the forward pass, caching every
    pre-activation and activation. *)
Lemma forward_cache_returns w n L x input :
  network_values w n = Some L ->
  0 < i n -> shaped (i n) (hidden n ++ [o n]) L ->
  Z.of_nat (rows x) = i n -> cols x = 1%nat ->
  nth_error (denses w) input = Some x ->
  returns
    (for_up (length L) 0
      (fun idx '(zs, activations) =>
         if idx =? 0 then
           l <- layers_at (layers n) idx ;;
           d <- dot (weights l) (MDense input) ;;
           l' <- layers_at (layers n) idx ;;
           z <- add d (biases l') ;;
           zs <- set_index zs idx z ;;
           z <- index zs idx ;;
           a <- fun_ sigmoid z ;;
           activations <- set_index activations idx a ;;
           ret (zs, activations)
         else
           l <- layers_at (layers n) idx ;;
           prev <- index activations (idx - 1) ;;
           d <- dot (weights l) prev ;;
           l' <- layers_at (layers n) idx ;;
           z <- add d (biases l') ;;
           zs <- set_index zs idx z ;;
           z <- index zs idx ;;
           a <- fun_ sigmoid z ;;
           activations <- set_index activations idx a ;;
           ret (zs, activations))
      (repeat MNil (length L), repeat MNil (length L))) w
    (fun '(zs, acts) w' =>
       allocated w w' /\ length zs = length L /\ length acts = length L /\
       cached w' L x zs acts (length L)).
Proof.
  intros HL Hi Hshape Hrx Hcx Hinput.
  eapply returns_mono.
  - apply (for_up_returns (fun k '(zs, acts) w' =>
      allocated w w' /\ length zs = length L /\ length acts = length L /\
      cached w' L x zs acts k)).
    + rewrite !repeat_length.
      split; [apply allocated_refl | split; [reflexivity | split; [reflexivity |]]].
      intros j Hj; lia.
    + intros k [zs acts] wk Hk (Halloc & Hlz & Hla & Hcache).
      destruct (nth_error L k) as [[W B] |] eqn:HLk;
        [| apply nth_error_None in HLk; lia].
      destruct (shaped_layer _ _ _ x _ _ _ Hshape Hrx Hcx HLk)
        as (Hra & Hca & HrW & HrB & HcB & _).
      assert (HLk' : network_values wk n = Some L)
        by (eapply network_values_allocated; eassumption).
      destruct (network_layer_at _ _ _ _ _ _ HLk' HLk) as (l & Hat & HlW & _).
      rewrite Z.add_0_l.
      (* what follows the pre-activation is the same in both branches *)
      assert (Htail : forall z w',
        allocated wk w' -> denote w' z = Some (pre_activation W B (activation_before L x k)) ->
        returns (zs <- set_index zs (Z.of_nat k) z ;;
                 z <- index zs (Z.of_nat k) ;;
                 a <- fun_ sigmoid z ;;
                 activations <- set_index acts (Z.of_nat k) a ;;
                 ret (zs, activations)) w'
          (fun '(zs, acts) w' =>
             allocated w w' /\ length zs = length L /\ length acts = length L /\
             cached w' L x zs acts (S k))).
      { intros z w' Hw' Hz.
        apply returns_bind. eapply returns_eq; [apply set_index_Ok; lia |].
        apply returns_bind. eapply returns_eq.
        { apply index_Ok. apply nth_error_update_same. lia. }
        apply returns_bind. eapply returns_eq.
        { apply (fun_fresh w' sigmoid z _ Hz); simpl; lia. }
        apply returns_bind. eapply returns_eq; [apply set_index_Ok; lia |].
        apply returns_ret.
        rewrite !length_update.
        split; [| split; [exact Hlz | split; [exact Hla |]]].
        { eapply allocated_trans; [exact Halloc |].
          apply allocated_push_r; exact Hw'. }
        intros j Hj. destruct (Nat.eq_dec j k) as [-> | Hne].
        - exists z, (length (denses w')).
          rewrite !nth_error_update_same by lia.
          rewrite (z_at_layer _ _ _ _ _ HLk), (activation_before_step _ _ _ _ _ HLk).
          repeat split.
          + apply denote_push; exact Hz.
          + apply (denote_new w').
        - destruct (Hcache j ltac:(lia)) as (zp & ap & Hzp & Hzv & Hap & Hav).
          exists zp, ap. rewrite !nth_error_update_other by exact Hne.
          assert (Hkept : dense_kept wk (push w' (apply sigmoid (pre_activation W B (activation_before L x k))))).
          { apply allocated_dense_kept, allocated_push_r; exact Hw'. }
          repeat split; auto.
          + eapply denote_kept; eassumption.
          + eapply dense_kept_nth; eassumption. }
      destruct k as [| k].
      * simpl (Z.of_nat 0 =? 0). cbv iota.
        apply returns_bind. eapply returns_eq; [exact Hat |].
        apply (forward_round wk n L 0 W B l (MDense input) x HLk' HLk HlW); auto.
        simpl. eapply dense_kept_nth; [apply allocated_dense_kept; exact Halloc | exact Hinput].
      * replace (Z.of_nat (S k) =? 0) with false by (symmetry; apply Z.eqb_neq; lia).
        destruct (Hcache k ltac:(lia)) as (zp & ap & _ & _ & Hap & Hav).
        apply returns_bind. eapply returns_eq; [exact Hat |].
        apply returns_bind. eapply returns_eq.
        { replace (Z.of_nat (S k) - 1) with (Z.of_nat k) by lia.
          apply index_Ok; exact Hap. }
        apply (forward_round wk n L (S k) W B l (MDense ap)
                 (activation_before L x (S k)) HLk' HLk HlW); auto.
  - intros [zs acts] w' H; exact H.
Qed.

Lemma wrote_only_refl a w : wrote_only a w w.
Proof. split; [apply only_array_refl | auto]. Qed.

Lemma wrote_only_trans a w1 w2 w3 :
  wrote_only a w1 w2 -> wrote_only a w2 w3 -> wrote_only a w1 w3.
Proof.
  intros (Ho1 & Hr1 & Hf1 & Hs1) (Ho2 & Hr2 & Hf2 & Hs2).
  split; [eapply only_array_trans; eassumption | repeat split; congruence].
Qed.

Lemma wrote_only_allocated a w w' : allocated w w' -> wrote_only a w w'.
Proof.
  intros Halloc. split; [apply only_array_allocated; exact Halloc |].
  destruct Halloc as (_ & _ & Hr & Hf & Hs). auto.
Qed.

Lemma wrote_only_dense_kept a w w' : wrote_only a w w' -> dense_kept w w'.
Proof. intros H; exact (proj1 (proj1 H)). Qed.

Lemma last_nth_error {A} (l : list A) k v d :
  nth_error l k = Some v -> length l = S k -> last l d = v.
Proof.
  revert k. induction l as [| y l IH]; intros k Hk Hlen; [discriminate |].
  destruct k as [| k]; simpl in *.
  - destruct l; [congruence | discriminate].
  - destruct l as [| y' l]; [destruct k; discriminate |].
    apply (IH k Hk). simpl in *; lia.
Qed.

Lemma skipn_head_nth_error {A} (l : list A) k y rest :
  skipn k l = y :: rest -> nth_error l k = Some y.
Proof.
  revert l. induction k as [| k IH]; intros [| z l]; simpl; try discriminate.
  - intros [= -> _]. reflexivity.
  - apply IH.
Qed.

Lemma backward_cons lr e a W B rest deltas rest' :
  backward lr e (apply sigmoid (pre_activation W B a)) rest = (deltas, rest') ->
  backward lr e a ((W, B) :: rest)
  = (let delta := match deltas, rest' with
                  | d :: _, (W', _) :: _ => matmul (transpose W') d
                  | _, _ => msub e (apply sigmoid (pre_activation W B a))
                  end in
     let g := hadamard delta (apply dSigmoid (pre_activation W B a)) in
     (delta :: deltas,
      (madd W (scale lr (matmul g (transpose a))), madd B (scale (2 * lr) g)) :: rest')).
Proof. intros H. simpl. rewrite H. reflexivity. Qed.

(** What the backward pass yields for the suffix of the network that starts
    at layer [k]: an error term and updated matrices of the shapes of that
    layer. *)
Lemma suffix_head lr e x n_in sizes L k W B :
  shaped n_in sizes L -> Z.of_nat (rows x) = n_in -> cols x = 1%nat ->
  nth_error L k = Some (W, B) ->
  Z.of_nat (rows e) = last sizes 0 -> cols e = 1%nat ->
  exists d ds W' B' rest',
    backward lr e (activation_before L x k) (skipn k L) = (d :: ds, (W', B') :: rest') /\
    rows W' = rows W /\ cols W' = cols W /\ rows B' = rows B /\ cols B' = cols B /\
    rows d = rows W /\ cols d = 1%nat.
Proof.
  intros Hshape Hrx Hcx HLk Hre Hce.
  rewrite (skipn_nth_error _ _ _ HLk).
  destruct (backward_head lr e (activation_before L x k) W B (skipn (S k) L))
    as (d & ds & W' & B' & rest' & Hb & HrW' & HcW' & HrB' & HcB' & Hrd & Hcd).
  exists d, ds, W', B', rest'. repeat split; auto; [| congruence].
  rewrite Hrd.
  destruct (shaped_layer _ _ _ x _ _ _ Hshape Hrx Hcx HLk) as (_ & _ & _ & _ & _ & Hsz).
  destruct (skipn (S k) L) as [| [W1 B1] rest] eqn:Hskip.
  - assert (Hlen : length sizes = S k).
    { rewrite <- (shaped_length _ _ _ Hshape).
      assert (length (skipn (S k) L) = O) by (rewrite Hskip; reflexivity).
      rewrite length_skipn in H.
      assert (k < length L)%nat by (apply nth_error_Some; congruence). lia. }
    rewrite (last_nth_error _ _ _ 0 Hsz Hlen) in Hre. lia.
  - apply skipn_head_nth_error in Hskip.
    destruct (shaped_layer _ _ _ x _ _ _ Hshape Hrx Hcx Hskip) as (Hra1 & _).
    rewrite (activation_before_step _ _ _ _ _ HLk) in Hra1. simpl in Hra1. lia.
Qed.

Lemma network_layer_ptrs w n V k W B :
  network_values w n = Some V -> nth_error V k = Some (W, B) ->
  exists p q,
    layers_at (layers n) (Z.of_nat k) w = (Ok (mkLayer (MDense p) (MDense q)), w) /\
    nth_error (denses w) p = Some W /\ nth_error (denses w) q = Some B.
Proof.
  unfold network_values. destruct (network_layers w n) as [ls |] eqn:Hls; [| discriminate].
  intros HV Hk.
  destruct (layer_values_nth _ _ _ _ _ HV Hk) as (l & Hl & Hv).
  destruct (layer_value_pointers _ _ _ _ Hv) as (HW & HB & p & q & ->).
  exists p, q. split; [| split; assumption].
  eapply layers_at_Ok; [apply backing_network; exact Hls | exact Hl].
Qed.

Lemma update_update {A} (l : list A) k u v : update (update l k u) k v = update l k v.
Proof.
  revert k. induction l as [| y l IH]; intros [| k]; simpl; auto.
  f_equal. apply IH.
Qed.

Lemma nth_error_update_layers {A} (l : list A) k v :
  (k < length l)%nat -> nth_error (update l k v) k = Some v.
Proof. apply nth_error_update_same. Qed.

Ltac bind_eq E := apply returns_bind; eapply returns_eq; [ E | ].

(** Moving what is known about matrix objects to a later world. *)
Ltac carry Hk :=
  match type of Hk with
  | dense_kept ?w1 ?w2 =>
      repeat match goal with
        | X : denote w1 ?m = Some ?v |- _ => apply (denote_kept w1 w2 m v Hk) in X
        | X : nth_error (denses w1) ?p = Some ?v |- _ =>
            apply (dense_kept_nth w1 w2 p v Hk) in X
        | X : cached w1 _ _ _ _ _ |- _ => apply (cached_kept w1 w2 _ _ _ _ _ Hk) in X
        end
  end.

(** The error term of layer [j]: back-projected through the weights of
    layer [j+1] as they are now, unless [j] is the last layer. *)
Lemma propagated_error w n L x e j W B deltas rest' le :
  h n = len L ->
  0 < i n -> shaped (i n) (hidden n ++ [o n]) L ->
  Z.of_nat (rows x) = i n -> cols x = 1%nat ->
  Z.of_nat (rows e) = o n -> cols e = 1%nat ->
  nth_error L j = Some (W, B) ->
  backward (learnRate n) e (activation_before L x (S j)) (skipn (S j) L) = (deltas, rest') ->
  network_values w n = Some (firstn (S j) L ++ rest') ->
  denote w le = Some (match deltas with
                      | d :: _ => d
                      | [] => msub e (activation_before L x (length L))
                      end) ->
  returns (if negb (Z.of_nat j =? h n - 1) then
             l <- layers_at (layers n) (Z.of_nat j + 1) ;;
             wT <- T (weights l) ;;
             dot wT le
           else ret le) w
    (fun le' w' =>
       allocated w w' /\
       denote w' le' =
         Some (match deltas, rest' with
               | d :: _, (W', _) :: _ => matmul (transpose W') d
               | _, _ => msub e (activation_before L x (S j))
               end)).
Proof.
  intros Hh Hi Hshape Hrx Hcx Hre Hce HLj Hsuffix HV Hle.
  assert (Hj : (j < length L)%nat) by (apply nth_error_Some; congruence).
  assert (Hlast : Z.of_nat (rows e) = last (hidden n ++ [o n]) 0)
    by (rewrite last_last; exact Hre).
  destruct (Nat.eq_dec (S j) (length L)) as [Hend | Hmid].
  - (* the last layer *)
    replace (Z.of_nat j =? h n - 1) with true
      by (symmetry; apply Z.eqb_eq; rewrite Hh; unfold len; lia).
    simpl. apply returns_ret. split; [apply allocated_refl |].
    rewrite skipn_all2 in Hsuffix by lia. simpl in Hsuffix.
    injection Hsuffix as <- <-. rewrite <- Hend in Hle. exact Hle.
  - replace (Z.of_nat j =? h n - 1) with false
      by (symmetry; apply Z.eqb_neq; rewrite Hh; unfold len; lia).
    simpl.
    destruct (nth_error L (S j)) as [[W1 B1] |] eqn:HL1;
      [| apply nth_error_None in HL1; lia].
    destruct (suffix_head (learnRate n) e x _ _ _ _ _ _ Hshape Hrx Hcx HL1 Hlast Hce)
      as (d1 & ds & W1' & B1' & rest'' & Hb & HrW1 & HcW1 & _ & _ & Hrd1 & Hcd1).
    rewrite Hsuffix in Hb. injection Hb as -> ->.
    assert (HV1 : nth_error (firstn (S j) L ++ (W1', B1') :: rest'') (S j)
                  = Some (W1', B1')).
    { rewrite nth_error_firstn_rest by lia. reflexivity. }
    destruct (network_layer_ptrs _ _ _ _ _ _ HV HV1) as (p & q & Hat & Hp & _).
    replace (Z.of_nat j + 1) with (Z.of_nat (S j)) by lia.
    bind_eq ltac:(exact Hat). simpl.
    bind_eq ltac:(reflexivity).
    pose proof (shaped_cols_pos _ _ _ _ _ _ Hshape Hi HL1) as HcW1pos.
    eapply returns_mono.
    + apply (dot_returns w (MTranspose p) le (transpose W1') d1).
      * simpl. rewrite Hp. reflexivity.
      * exact Hle.
      * simpl. lia.
      * simpl. lia.
      * lia.
    + intros le' w' (Halloc & p' & -> & Hp'). split; [exact Halloc | exact Hp'].
Qed.

(** [mul(layerErrors, fun(dSigmoid, zs[k]))] *)
Lemma gradient_term w zs k zp z le delta :
  nth_error zs k = Some zp -> denote w zp = Some z -> denote w le = Some delta ->
  rows delta = rows z -> cols delta = cols z -> (0 < rows z)%nat -> (0 < cols z)%nat ->
  forall A (rest : Matrix -> M A) (Q : A -> world -> Prop),
    (forall g w',
        allocated w w' ->
        denote w' g = Some (hadamard delta (apply dSigmoid z)) ->
        returns (rest g) w' Q) ->
    returns (z <- index zs (Z.of_nat k) ;;
             ds <- fun_ dSigmoid z ;;
             g <- mul le ds ;;
             rest g) w Q.
Proof.
  intros Hzp Hz Hle Hr Hc Hr0 Hc0 A rest Q Hrest.
  bind_eq ltac:(apply index_Ok; exact Hzp).
  bind_eq ltac:(apply (fun_fresh w dSigmoid zp z Hz Hr0 Hc0)).
  bind_eq ltac:(apply (mul_fresh _ le _ delta (apply dSigmoid z));
                [apply denote_push; exact Hle | apply denote_new | | | |];
                simpl; lia).
  apply Hrest.
  - apply allocated_push_r, allocated_push.
  - apply denote_new.
Qed.

(** One round of the second loop of [backpropagate]: layer [j] is updated
    from the error term the rounds before it left. *)
Lemma backward_round w n a L x e zs acts input j W B deltas rest' le :
  layers n = SliceOf a -> h n = len L ->
  0 < i n -> shaped (i n) (hidden n ++ [o n]) L ->
  Z.of_nat (rows x) = i n -> cols x = 1%nat ->
  Z.of_nat (rows e) = o n -> cols e = 1%nat ->
  nth_error L j = Some (W, B) ->
  backward (learnRate n) e (activation_before L x (S j)) (skipn (S j) L) = (deltas, rest') ->
  network_values w n = Some (firstn (S j) L ++ rest') ->
  denote w le = Some (match deltas with
                      | d :: _ => d
                      | [] => msub e (activation_before L x (length L))
                      end) ->
  length zs = length L -> length acts = length L ->
  cached w L x zs acts (length L) ->
  nth_error (denses w) input = Some x ->
  returns
    ((fun idx layerErrors =>
         layerErrors <-
           (if negb (idx =? h n - 1) then
              l <- layers_at (layers n) (idx + 1) ;;
              wT <- T (weights l) ;;
              dot wT layerErrors
            else ret layerErrors) ;;
         l <- layers_at (layers n) idx ;;
         z <- index zs idx ;;
         ds <- fun_ dSigmoid z ;;
         g <- mul layerErrors ds ;;
         sg <- scl (2 * learnRate n) g ;;
         b <- add (biases l) sg ;;
         set_biases (layers n) idx b ;;;
         if idx =? 0 then
           l <- layers_at (layers n) idx ;;
           z <- index zs idx ;;
           ds <- fun_ dSigmoid z ;;
           g <- mul layerErrors ds ;;
           inT <- T (MDense input) ;;
           gw <- dot g inT ;;
           sg <- scl (learnRate n) gw ;;
           wt <- add (weights l) sg ;;
           set_weights (layers n) idx wt ;;;
           ret layerErrors
         else
           l <- layers_at (layers n) idx ;;
           z <- index zs idx ;;
           ds <- fun_ dSigmoid z ;;
           g <- mul layerErrors ds ;;
           prev <- index acts (idx - 1) ;;
           aT <- T prev ;;
           gw <- dot g aT ;;
           sg <- scl (learnRate n) gw ;;
           wt <- add (weights l) sg ;;
           set_weights (layers n) idx wt ;;;
           ret layerErrors) (Z.of_nat j) le) w
    (fun le' w' =>
       wrote_only a w w' /\
       network_values w' n
       = Some (firstn j L
               ++ snd (backward (learnRate n) e (activation_before L x j) (skipn j L))) /\
       denote w' le'
       = Some (match fst (backward (learnRate n) e (activation_before L x j) (skipn j L)) with
               | d :: _ => d
               | [] => msub e (activation_before L x (length L))
               end)).
Proof.
  intros Hn Hh Hi Hshape Hrx Hcx Hre Hce HLj Hsuffix HV Hle Hlz Hla Hcache Hinput.
  assert (Hj : (j < length L)%nat) by (apply nth_error_Some; congruence).
  assert (Hlast : Z.of_nat (rows e) = last (hidden n ++ [o n]) 0)
    by (rewrite last_last; exact Hre).
  destruct (shaped_layer _ _ _ x _ _ _ Hshape Hrx Hcx HLj)
    as (Hra & Hca & HrW & HrB & HcB & _).
  pose proof (shaped_cols_pos _ _ _ _ _ _ Hshape Hi HLj) as HcW.
  set (a_j := activation_before L x j) in *.
  set (z := pre_activation W B a_j).
  set (delta := match deltas, rest' with
                | d :: _, (W', _) :: _ => matmul (transpose W') d
                | _, _ => msub e (activation_before L x (S j))
                end).
  set (g := hadamard delta (apply dSigmoid z)).
  (* the suffix from [j], and the shape of its error term *)
  assert (Hstep : activation_before L x (S j) = apply sigmoid z)
    by (apply (activation_before_step _ _ _ _ _ HLj)).
  assert (Hsuffix_j :
    backward (learnRate n) e a_j (skipn j L)
    = (delta :: deltas,
       (madd W (scale (learnRate n) (matmul g (transpose a_j))),
        madd B (scale (2 * learnRate n) g)) :: rest')).
  { rewrite (skipn_nth_error _ _ _ HLj). rewrite Hstep in Hsuffix.
    rewrite (backward_cons _ _ _ _ _ _ _ _ Hsuffix).
    unfold g, delta. rewrite Hstep. reflexivity. }
  assert (Hdelta : rows delta = rows W /\ cols delta = 1%nat).
  { destruct (suffix_head (learnRate n) e x _ _ _ _ _ _ Hshape Hrx Hcx HLj Hlast Hce)
      as (d & ds & W' & B' & r' & Hb & _ & _ & _ & _ & Hrd & Hcd).
    fold a_j in Hb. rewrite Hsuffix_j in Hb. injection Hb as <- _ _ _ _. auto. }
  destruct Hdelta as (Hrd & Hcd).
  destruct (Hcache j Hj) as (zp & ap & Hzp & Hzv & _).
  rewrite (z_at_layer _ _ _ _ _ HLj) in Hzv. fold a_j z in Hzv.
  assert (HVj : forall rest0 v, nth_error (update (firstn (S j) L ++ rest0) j v) j = Some v).
  { intros rest0 v. apply nth_error_update_same.
    rewrite length_app, length_firstn. lia. }
  cbv beta.
  (* the error term *)
  apply returns_bind.
  eapply returns_mono;
    [apply (propagated_error w n L x e j W B deltas rest' le); assumption |].
  intros le' w1 (Halloc1 & Hle').
  fold delta in Hle'.
  assert (Hrun1 : wrote_only a w w1) by (apply wrote_only_allocated; exact Halloc1).
  apply (network_values_allocated _ _ _ _ Halloc1) in HV.
  carry (allocated_dense_kept _ _ Halloc1). clear Hle Halloc1.
  (* the biases *)
  assert (HVnth : nth_error (firstn (S j) L ++ rest') j = Some (W, B)).
  { rewrite nth_error_firstn_app by lia. exact HLj. }
  destruct (network_layer_ptrs _ _ _ _ _ _ HV HVnth) as (pW & pB & Hat & HpW & HpB).
  bind_eq ltac:(exact Hat).
  apply (gradient_term w1 zs j zp z le' delta Hzp Hzv Hle');
    [simpl; lia | simpl; lia | simpl; lia | simpl; lia |].
  intros gp w2 Halloc2 Hgp. fold g in Hgp.
  apply (network_values_allocated _ _ _ _ Halloc2) in HV.
  assert (Hrun2 : wrote_only a w w2)
    by (eapply wrote_only_trans; [exact Hrun1 | apply wrote_only_allocated; exact Halloc2]).
  carry (allocated_dense_kept _ _ Halloc2). clear Halloc2 Hrun1 Hat.
  apply returns_bind.
  eapply returns_mono;
    [apply (scl_returns w2 (2 * learnRate n) gp g Hgp); simpl; lia |].
  intros sg w3 (Halloc3 & psg & -> & Hpsg).
  apply (network_values_allocated _ _ _ _ Halloc3) in HV.
  assert (Hrun3 : wrote_only a w w3)
    by (eapply wrote_only_trans; [exact Hrun2 | apply wrote_only_allocated; exact Halloc3]).
  carry (allocated_dense_kept _ _ Halloc3). clear Halloc3 Hrun2.
  apply returns_bind.
  eapply returns_mono.
  { apply (add_returns w3 (MDense pB) (MDense psg) B (scale (2 * learnRate n) g));
      [exact HpB | exact Hpsg | | | |]; simpl; lia. }
  intros b w4 (Halloc4 & pb & -> & Hpb).
  apply (network_values_allocated _ _ _ _ Halloc4) in HV.
  assert (Hrun4 : wrote_only a w w4)
    by (eapply wrote_only_trans; [exact Hrun3 | apply wrote_only_allocated; exact Halloc4]).
  carry (allocated_dense_kept _ _ Halloc4). clear Halloc4 Hrun3.
  destruct (set_biases_Ok w4 n a _ j W B pb _ Hn HV HVnth Hpb)
    as (w5 & Hset & HV5 & Hd5 & Ho5 & Hr5 & Hf5 & Hs5).
  bind_eq ltac:(exact Hset).
  assert (Hrun5 : wrote_only a w w5)
    by (eapply wrote_only_trans; [exact Hrun4 | split; auto]).
  carry (proj1 Ho5). clear Hrun4 Hset HV.
  (* the weights *)
  set (B' := madd B (scale (2 * learnRate n) g)) in *.
  set (V5 := update (firstn (S j) L ++ rest') j (W, B')) in *.
  assert (Hweights : forall w6 pW' gp' aT,
    wrote_only a w w6 -> network_values w6 n = Some V5 ->
    nth_error (denses w6) pW' = Some W -> denote w6 gp' = Some g ->
    denote w6 aT = Some (transpose a_j) -> denote w6 le' = Some delta ->
    returns (gw <- dot gp' aT ;;
             sg <- scl (learnRate n) gw ;;
             wt <- add (MDense pW') sg ;;
             set_weights (layers n) (Z.of_nat j) wt ;;;
             ret le') w6
      (fun le'' w' =>
         wrote_only a w w' /\
         network_values w' n
         = Some (firstn j L ++ snd (backward (learnRate n) e a_j (skipn j L))) /\
         denote w' le''
         = Some (match fst (backward (learnRate n) e a_j (skipn j L)) with
                 | d :: _ => d
                 | [] => msub e (activation_before L x (length L))
                 end))).
  { clear - Hsuffix_j Hn HVj Hj Hrd Hcd Hra Hca HrW HcW.
    intros w6 pW' gp' aT Hrun6 HV6 HpW' Hgp' HaT Hle6.
    rewrite Hsuffix_j. simpl fst. simpl snd.
    apply returns_bind.
    eapply returns_mono.
    { apply (dot_returns w6 gp' aT g (transpose a_j) Hgp' HaT); simpl; lia. }
    intros gw w7 (Halloc7 & pgw & -> & Hpgw).
    apply (network_values_allocated _ _ _ _ Halloc7) in HV6.
    assert (Hrun7 : wrote_only a w w7)
      by (eapply wrote_only_trans; [exact Hrun6 | apply wrote_only_allocated; exact Halloc7]).
    carry (allocated_dense_kept _ _ Halloc7). clear Halloc7.
    apply returns_bind.
    eapply returns_mono;
      [apply (scl_returns w7 (learnRate n) (MDense pgw) _ Hpgw); simpl; lia |].
    intros sg w8 (Halloc8 & psg' & -> & Hpsg').
    apply (network_values_allocated _ _ _ _ Halloc8) in HV6.
    assert (Hrun8 : wrote_only a w w8)
      by (eapply wrote_only_trans; [exact Hrun7 | apply wrote_only_allocated; exact Halloc8]).
    carry (allocated_dense_kept _ _ Halloc8). clear Halloc8.
    apply returns_bind.
    eapply returns_mono.
    { apply (add_returns w8 (MDense pW') (MDense psg') W
               (scale (learnRate n) (matmul g (transpose a_j))));
        [exact HpW' | exact Hpsg' | | | |]; simpl; lia. }
    intros wt w9 (Halloc9 & pwt & -> & Hpwt).
    apply (network_values_allocated _ _ _ _ Halloc9) in HV6.
    assert (Hrun9 : wrote_only a w w9)
      by (eapply wrote_only_trans; [exact Hrun8 | apply wrote_only_allocated; exact Halloc9]).
    carry (allocated_dense_kept _ _ Halloc9). clear Halloc9.
    destruct (set_weights_Ok w9 n a V5 j W B' pwt _ Hn HV6 (HVj _ _) Hpwt)
      as (w10 & Hset & HV10 & Hd10 & Ho10 & Hr10 & Hf10 & Hs10).
    bind_eq ltac:(exact Hset).
    apply returns_ret.
    split; [| split].
    - eapply wrote_only_trans; [exact Hrun9 | split; auto].
    - rewrite HV10. unfold V5. rewrite update_update.
      rewrite update_firstn_skipn by lia. reflexivity.
    - eapply denote_kept; [exact (proj1 Ho10) | exact Hle6]. }
  (* both branches read the layer and form the gradient term again *)
  assert (Hagain : forall A (rest : Matrix -> Matrix -> M A) Q,
    (forall w6 pW' gp',
        wrote_only a w w6 -> network_values w6 n = Some V5 ->
        nth_error (denses w6) pW' = Some W -> denote w6 gp' = Some g ->
        denote w6 le' = Some delta -> cached w6 L x zs acts (length L) ->
        nth_error (denses w6) input = Some x ->
        returns (rest (MDense pW') gp') w6 Q) ->
    returns (l <- layers_at (layers n) (Z.of_nat j) ;;
             z <- index zs (Z.of_nat j) ;;
             ds <- fun_ dSigmoid z ;;
             g <- mul le' ds ;;
             rest (weights l) g) w5 Q).
  { intros A rest Q Hrest.
    destruct (network_layer_ptrs _ _ _ _ _ _ HV5 (HVj _ _)) as (pW5 & pB5 & Hat5 & HpW5 & _).
    bind_eq ltac:(exact Hat5).
    apply (gradient_term w5 zs j zp z le' delta Hzp Hzv Hle');
      [simpl; lia | simpl; lia | simpl; lia | simpl; lia |].
    intros gp' w6 Halloc6 Hgp'. fold g in Hgp'.
    apply (network_values_allocated _ _ _ _ Halloc6) in HV5.
    assert (Hrun6 : wrote_only a w w6)
      by (eapply wrote_only_trans; [exact Hrun5 | apply wrote_only_allocated; exact Halloc6]).
    carry (allocated_dense_kept _ _ Halloc6).
    apply Hrest; assumption. }
  destruct j as [| j'].
  - simpl (Z.of_nat 0 =? 0). cbv iota.
    apply (Hagain _ (fun wl g0 =>
             inT <- T (MDense input) ;;
             gw <- dot g0 inT ;;
             sg <- scl (learnRate n) gw ;;
             wt <- add wl sg ;;
             set_weights (layers n) (Z.of_nat 0) wt ;;;
             ret le')).
    intros w6 pW' gp' Hrun6 HV6 HpW' Hgp' Hle6 _ Hinput6.
    bind_eq ltac:(reflexivity).
    apply (Hweights w6 pW' gp' (MTranspose input)); auto.
    simpl. rewrite Hinput6. reflexivity.
  - replace (Z.of_nat (S j') =? 0) with false by (symmetry; apply Z.eqb_neq; lia).
    apply (Hagain _ (fun wl g0 =>
             prev <- index acts (Z.of_nat (S j') - 1) ;;
             aT <- T prev ;;
             gw <- dot g0 aT ;;
             sg <- scl (learnRate n) gw ;;
             wt <- add wl sg ;;
             set_weights (layers n) (Z.of_nat (S j')) wt ;;;
             ret le')).
    intros w6 pW' gp' Hrun6 HV6 HpW' Hgp' Hle6 Hcache6 _.
    destruct (Hcache6 j' ltac:(lia)) as (_ & ap' & _ & _ & Hap' & Hav').
    bind_eq ltac:(replace (Z.of_nat (S j') - 1) with (Z.of_nat j') by lia;
                  apply index_Ok; exact Hap').
    bind_eq ltac:(reflexivity).
    apply (Hweights w6 pW' gp' (MTranspose ap')); auto.
    simpl. rewrite Hav'. reflexivity.
Qed.

Lemma backward_shaped lr e n_in sizes L a :
  shaped n_in sizes L -> shaped n_in sizes (snd (backward lr e a L)).
Proof.
  revert n_in L a. induction sizes as [| s sizes IH]; intros n_in [| [W B] L] a;
    simpl; try tauto.
  intros (Hs & HrW & HcW & HrB & HcB & Hrest).
  specialize (IH s L (apply sigmoid (pre_activation W B a)) Hrest).
  destruct (backward lr e (apply sigmoid (pre_activation W B a)) L) as [deltas rest'].
  simpl in *. repeat split; auto.
Qed.

Lemma backward_length lr e L a :
  length (snd (backward lr e a L)) = length L /\
  length (fst (backward lr e a L)) = length L.
Proof.
  revert a. induction L as [| [W B] L IH]; intros a; simpl; [auto |].
  specialize (IH (apply sigmoid (pre_activation W B a))).
  destruct (backward lr e (apply sigmoid (pre_activation W B a)) L) as [deltas rest'].
  simpl in *. lia.
Qed.

Lemma network_values_slice w n L :
  network_values w n = Some L -> exists a, layers n = SliceOf a.
Proof.
  unfold network_values, network_layers. destruct (layers n); [discriminate | eauto].
Qed.

(** [backpropagate] on a well-formed network returns, having replaced the
    matrices of the network by those of the backward pass and written
    nothing else. *)
Lemma backpropagate_returns w n L inputData expectedData :
  network_in w n L -> len inputData = i n -> len expectedData = o n ->
  exists a, layers n = SliceOf a /\
    returns (backpropagate n inputData expectedData) w (fun _ w' =>
      wrote_only a w w' /\
      network_in w' n (updated (learnRate n) L inputData expectedData)).
Proof.
  intros (HL & Hi & Hh & Hshape) Hin Hex.
  destruct (network_values_slice _ _ _ HL) as [a Hn]. exists a. split; [exact Hn |].
  assert (Hne : (0 < length L)%nat).
  { rewrite (shaped_length _ _ _ Hshape), length_app. simpl. lia. }
  assert (Ho : 0 < o n).
  { destruct (nth_error L (length L - 1)) as [[W B] |] eqn:HLk;
      [| apply nth_error_None in HLk; lia].
    destruct (shaped_layer _ _ _ (column inputData) _ _ _ Hshape Hin eq_refl HLk)
      as (_ & _ & HrW & _ & _ & Hsz).
    assert (Hlast : last (hidden n ++ [o n]) 0 = Z.of_nat (rows W)).
    { apply (last_nth_error _ _ _ 0 Hsz).
      rewrite <- (shaped_length _ _ _ Hshape). lia. }
    rewrite last_last in Hlast. lia. }
  unfold backpropagate.
  rewrite (proj2 (Z.eqb_eq _ _) Hin), (proj2 (Z.eqb_eq _ _) Hex). simpl.
  bind_eq ltac:(apply NewDense_data; [exact Hi | lia | rewrite Hin; lia]).
  rewrite (column_of_data _ _ Hin).
  set (x := column inputData). set (input := length (denses w)).
  bind_eq ltac:(apply NewDense_data; [exact Ho | lia | rewrite Hex; lia]).
  rewrite (column_of_data _ _ Hex).
  set (e := column expectedData). set (w2 := push (push w x) e).
  set (expected := length (denses (push w x))).
  assert (Halloc2 : allocated w w2) by (apply allocated_push_r, allocated_push).
  assert (Hx2 : nth_error (denses w2) input = Some x).
  { apply (dense_kept_nth (push w x)); [exists [e]; reflexivity | apply (denote_new w x)]. }
  assert (He2 : nth_error (denses w2) expected = Some e) by apply (denote_new (push w x) e).
  assert (HL2 : network_values w2 n = Some L)
    by (eapply network_values_allocated; eassumption).
  assert (Hlen : Z.to_nat (h n) = length L) by (rewrite Hh; unfold len; apply Nat2Z.id).
  bind_eq ltac:(apply make_Ok; rewrite Hh; unfold len; lia).
  bind_eq ltac:(apply make_Ok; rewrite Hh; unfold len; lia).
  rewrite Hlen.
  apply returns_bind.
  eapply returns_mono;
    [apply (forward_cache_returns w2 n L x input HL2 Hi Hshape Hin eq_refl Hx2) |].
  intros [zs acts] w3 (Halloc3 & Hlz & Hla & Hcache).
  carry (allocated_dense_kept _ _ Halloc3).
  apply (network_values_allocated _ _ _ _ Halloc3) in HL2.
  (* the output error *)
  destruct (Hcache (length L - 1)%nat ltac:(lia)) as (_ & ap & _ & _ & Hap & Hav).
  replace (S (length L - 1)) with (length L) in Hav by lia.
  bind_eq ltac:(replace (h n - 1) with (Z.of_nat (length L - 1))
                  by (rewrite Hh; unfold len; lia);
                apply index_Ok; exact Hap).
  set (A := activation_before L x (length L)) in *.
  assert (HA : Z.of_nat (rows A) = o n /\ cols A = 1%nat).
  { unfold A. split.
    - rewrite <- forward_activation_before.
      rewrite (shaped_output _ _ _ x Hshape) by (destruct L; [simpl in Hne; lia | discriminate]).
      apply last_last.
    - destruct (nth_error L (length L - 1)) as [[W B] |] eqn:HLk;
        [| apply nth_error_None in HLk; lia].
      destruct (shaped_layer _ _ _ x _ _ _ Hshape Hin eq_refl HLk) as (_ & Hca & _).
      replace (activation_before L x (length L))
        with (activation_before L x (S (length L - 1))) by (f_equal; lia).
      rewrite (activation_before_step _ _ _ _ _ HLk). simpl. exact Hca. }
  destruct HA as (HrA & HcA).
  assert (Hre : Z.of_nat (rows e) = o n) by (unfold e; simpl; exact Hex).
  assert (Hce : cols e = 1%nat) by reflexivity.
  apply returns_bind.
  eapply returns_mono.
  { apply (sub_returns w3 (MDense expected) (MDense ap) e A He2 Hav); lia. }
  intros le w4 (Halloc4 & ple & -> & Hple).
  carry (allocated_dense_kept _ _ Halloc4).
  apply (network_values_allocated _ _ _ _ Halloc4) in HL2.
  assert (Hrun4 : wrote_only a w w4).
  { apply wrote_only_allocated.
    eapply allocated_trans; [exact Halloc2 |].
    eapply allocated_trans; eassumption. }
  (* the backward pass *)
  apply returns_bind.
  eapply returns_mono.
  - apply (for_down_returns (fun j le w' =>
      wrote_only a w w' /\
      network_values w' n
      = Some (firstn j L
              ++ snd (backward (learnRate n) e (activation_before L x j) (skipn j L))) /\
      denote w' le
      = Some (match fst (backward (learnRate n) e (activation_before L x j) (skipn j L)) with
              | d :: _ => d
              | [] => msub e A
              end) /\
      cached w' L x zs acts (length L) /\
      nth_error (denses w') input = Some x)).
    + rewrite firstn_all, skipn_all. simpl. rewrite app_nil_r.
      repeat split; auto; apply Hrun4.
    + intros j le' wj Hj (Hrun & HV & Hle & Hc & Hxj).
      destruct (nth_error L j) as [[W B] |] eqn:HLj;
        [| apply nth_error_None in HLj; lia].
      destruct (backward (learnRate n) e (activation_before L x (S j)) (skipn (S j) L))
        as [deltas rest'] eqn:Hsuffix.
      simpl fst in Hle. simpl snd in HV.
      eapply returns_mono.
      * apply (backward_round wj n a L x e zs acts input j W B deltas rest' le');
          try assumption; reflexivity.
      * intros le'' w' (Hrun' & HV' & Hle'').
        pose proof (wrote_only_dense_kept _ _ _ Hrun') as Hk.
        carry Hk.
        split; [eapply wrote_only_trans; eassumption |].
        repeat split; assumption.
  - intros le' w' (Hrun & HV & _).
    apply returns_ret. split; [exact Hrun |].
    simpl in HV. split; [exact HV |].
    unfold updated. fold x e.
    split; [exact Hi | split].
    + rewrite Hh. unfold len. f_equal.
      symmetry. apply (proj1 (backward_length _ _ _ _)).
    + apply backward_shaped; exact Hshape.
Qed.

(** ** The update rule, layer by layer *)

Lemma backward_nth lr e L :
  forall x k W B,
    nth_error L k = Some (W, B) ->
    exists delta,
      let g := hadamard delta (apply dSigmoid (pre_activation W B (activation_before L x k))) in
      nth_error (fst (backward lr e x L)) k = Some delta /\
      nth_error (snd (backward lr e x L)) k
      = Some (madd W (scale lr (matmul g (transpose (activation_before L x k)))),
              madd B (scale (2 * lr) g)) /\
      (S k = length L -> delta = msub e (forward L x)) /\
      (S k < length L ->
       exists W1' B1' d1,
         nth_error (snd (backward lr e x L)) (S k) = Some (W1', B1') /\
         nth_error (fst (backward lr e x L)) (S k) = Some d1 /\
         delta = matmul (transpose W1') d1)%nat.
Proof.
  induction L as [| [W0 B0] rest IH]; intros x k W B Hk.
  - destruct k; discriminate.
  - destruct k as [| k].
    + injection Hk as <- <-.
      destruct rest as [| [W1 B1] rest2].
      * simpl. eexists. repeat split; try reflexivity. intros; simpl in *; lia.
      * destruct (backward_head lr e (apply sigmoid (pre_activation W0 B0 x)) W1 B1 rest2)
          as (d1 & ds & W1' & B1' & rest' & Hb & _).
        rewrite (backward_cons _ _ _ _ _ _ _ _ Hb). cbv zeta.
        eexists. repeat split; try reflexivity.
        -- simpl. intros; lia.
        -- intros _. exists W1', B1', d1. repeat split; reflexivity.
    + simpl in Hk.
      destruct (IH (activation W0 B0 x) k W B Hk) as (delta & Hd & Hv & Hlast & Hmid).
      exists delta.
      unfold activation in *.
      destruct (backward lr e (apply sigmoid (pre_activation W0 B0 x)) rest)
        as [deltas rest'] eqn:Hb.
      rewrite (backward_cons _ _ _ _ _ _ _ _ Hb). cbv zeta.
      simpl in *. split; [exact Hd | split; [exact Hv | split]].
      * intros Hlen. apply Hlast. lia.
      * intros Hlen. apply Hmid. lia.
Qed.

(** C1. On a well-formed network and vectors of the input and output sizes,
    [backpropagate] returns.  The error term of the last layer is
    [expected - a_last]; and every layer [k] ends with its biases incremented
    by [learnRate * 2 * gradTerm] and its weights by
    [learnRate * matmul(gradTerm, transpose(a_(k-1)))], where [gradTerm] is
    [hadamard(delta_k, dSigmoid(z_k))], [z_k] and [a_(k-1)] are those of the
    forward pass on the matrices at entry, and [a_(-1)] is the input. *)
Theorem backpropagate_update_rule (w : world) (n : Network) (L : list (Dense * Dense))
  (inputData expectedData : list R) :
  network_in w n L -> len inputData = i n -> len expectedData = o n ->
  returns (backpropagate n inputData expectedData) w (fun _ w' =>
    let input := column inputData in
    let expected := column expectedData in
    let deltas := layer_errors (learnRate n) L inputData expectedData in
    exists L',
      network_values w' n = Some L' /\
      length L' = length L /\ length deltas = length L /\
      last deltas zero_matrix = msub expected (forward L input) /\
      activation_before L input 0 = input /\
      forall k W B,
        nth_error L k = Some (W, B) ->
        exists W' B' delta,
          nth_error L' k = Some (W', B') /\ nth_error deltas k = Some delta /\
          let gradTerm := hadamard delta (apply dSigmoid (z_at L input k)) in
          B' = madd B (scale (learnRate n * 2) gradTerm) /\
          W' = madd W (scale (learnRate n)
                         (matmul gradTerm (transpose (activation_before L input k))))).
Proof.
  intros Hnet Hin Hex.
  destruct (backpropagate_returns w n L inputData expectedData Hnet Hin Hex)
    as (a & _ & Hrun).
  eapply returns_mono; [exact Hrun |].
  intros [] w' (_ & HL' & _). cbv zeta.
  exists (updated (learnRate n) L inputData expectedData).
  unfold updated, layer_errors.
  set (x := column inputData). set (e := column expectedData).
  destruct (backward_length (learnRate n) e L x) as (HlenL' & Hlend).
  split; [exact HL' | split; [exact HlenL' | split; [exact Hlend | split; [| split]]]].
  - destruct Hnet as (_ & _ & _ & Hshape).
    assert (Hne : (0 < length L)%nat).
    { rewrite (shaped_length _ _ _ Hshape), length_app. simpl. lia. }
    destruct (nth_error L (length L - 1)) as [[W B] |] eqn:HLk;
      [| apply nth_error_None in HLk; lia].
    destruct (backward_nth (learnRate n) e L x _ _ _ HLk) as (delta & Hd & _ & Hlast & _).
    rewrite <- Hlast by lia.
    apply (last_nth_error _ _ _ _ Hd). lia.
  - reflexivity.
  - intros k W B HLk.
    destruct (backward_nth (learnRate n) e L x _ _ _ HLk) as (delta & Hd & Hv & _).
    eexists _, _, delta. split; [exact Hv | split; [exact Hd |]].
    cbv zeta. rewrite (z_at_layer _ _ _ _ _ HLk).
    split; [| reflexivity].
    rewrite (Rmult_comm (learnRate n) 2). reflexivity.
Qed.

Lemma backpropagate_update_rule_witness :
  returns (backpropagate xor_net [1%R; 0%R] [1%R]) xor_world (fun _ w' =>
    let input := column [1%R; 0%R] in
    let expected := column [1%R] in
    let deltas := layer_errors (learnRate xor_net) xor_values [1%R; 0%R] [1%R] in
    exists L',
      network_values w' xor_net = Some L' /\
      length L' = length xor_values /\ length deltas = length xor_values /\
      last deltas zero_matrix = msub expected (forward xor_values input) /\
      activation_before xor_values input 0 = input /\
      forall k W B,
        nth_error xor_values k = Some (W, B) ->
        exists W' B' delta,
          nth_error L' k = Some (W', B') /\ nth_error deltas k = Some delta /\
          let gradTerm := hadamard delta (apply dSigmoid (z_at xor_values input k)) in
          B' = madd B (scale (learnRate xor_net * 2) gradTerm) /\
          W' = madd W (scale (learnRate xor_net)
                         (matmul gradTerm
                            (transpose (activation_before xor_values input k))))).
Proof.
  apply (backpropagate_update_rule xor_world xor_net xor_values [1%R; 0%R] [1%R]).
  - split; [reflexivity |].
    unfold topology; simpl. repeat split; reflexivity || lia.
  - reflexivity.
  - reflexivity.
Defined.

(** ** C3: one epoch on the zero network *)

Lemma sigmoid_zero a b v : v = 0%R -> sigmoid a b v = (1 / 2)%R.
Proof. intros ->. unfold sigmoid. rewrite Ropp_0, exp_0. lra. Qed.

Lemma dSigmoid_zero a b v : v = 0%R -> dSigmoid a b v = (1 / 4)%R.
Proof. intros Hv. unfold dSigmoid. rewrite !(sigmoid_zero 0 0 v Hv). lra. Qed.

Lemma sigmoid_above_half a b v : (0 < v)%R -> (1 / 2 < sigmoid a b v)%R.
Proof.
  intros Hv. unfold sigmoid.
  assert (He : (exp (- v) < 1)%R).
  { rewrite <- exp_0. apply exp_increasing. lra. }
  pose proof (exp_pos (- v)) as Hp.
  apply (Rmult_lt_reg_r (1 + exp (- v))); [lra |].
  unfold Rdiv at 2. rewrite Rmult_assoc, Rinv_l by lra. lra.
Qed.

Ltac reals_kept :=
  cbv -[Rplus Rmult Rminus Rdiv Ropp Rinv exp IZR sigmoid dSigmoid].

Lemma xor_updated : updated (1 / 10) xor_values [1%R; 0%R] [1%R] = xor_trained.
Proof.
  reals_kept.
  rewrite !sigmoid_zero by lra. rewrite !dSigmoid_zero by lra.
  repeat (f_equal; try lra).
Qed.

Lemma xor_forward_before :
  entries (activation_before xor_values (column [1%R; 0%R]) 1) = [(1 / 2)%R; (1 / 2)%R] /\
  entries (forward xor_values (column [1%R; 0%R])) = [(1 / 2)%R].
Proof.
  split; reals_kept; rewrite !sigmoid_zero by lra; reflexivity.
Qed.

Lemma xor_forward_after :
  exists y, entries (forward xor_trained (column [1%R; 0%R])) = [y] /\ (1 / 2 < y < 1)%R.
Proof.
  eexists. split.
  - reals_kept. reflexivity.
  - split; [| apply sigmoid_range].
    apply sigmoid_above_half.
    pose proof (sigmoid_range 0 0 (0 + 1 / 12800 * 1 + 0 * 0 + 1 / 6400)).
    pose proof (sigmoid_range 1 0 (0 + 1 / 12800 * 1 + 0 * 0 + 1 / 6400)).
    lra.
Qed.

Lemma network_in_same_heap w w' n L :
  denses w' = denses w -> arrays w' = arrays w ->
  network_in w n L -> network_in w' n L.
Proof.
  intros Hd Ha (HL & Htop). split; [| exact Htop].
  unfold network_values, network_layers in *. rewrite Ha.
  destruct (layers n); [discriminate |].
  destruct (nth_error (arrays w) a); [| discriminate].
  rewrite (layer_values_same_denses w w' _ Hd). exact HL.
Qed.

(** C3. The network [NewNetwork(2, 1, {2}, 0.1, false)] builds is all zero;
    on the input [1, 0] every neuron outputs [sigmoid(0) = 0.5], so the
    squared error against [1] is 0.25.  One epoch of [Train] on that single
    example returns, leaves the weight and the bias matrix of both layers
    different from zero, reports a cost below 0.25, and that cost is the
    squared error of the trained network on the example. *)
Theorem zero_network_one_epoch :
  NewNetwork 2 1 [2] (1 / 10) false empty_world = (Ok xor_net, xor_world) /\
  network_values xor_world xor_net = Some xor_values /\
  zero_layers xor_values /\
  entries (activation_before xor_values (column [1%R; 0%R]) 1) = [(1 / 2)%R; (1 / 2)%R] /\
  returns (Calc xor_net [1%R; 0%R]) xor_world (fun out _ =>
    out = [(1 / 2)%R] /\ squared_error [1%R] out = (1 / 4)%R) /\
  returns (Train xor_net [[1%R; 0%R]] [[1%R]] 1) xor_world (fun _ w' =>
    exists W0 B0 W1 B1 cost,
      network_values w' xor_net = Some [(W0, B0); (W1, B1)] /\
      ~ all_zero W0 /\ ~ all_zero B0 /\ ~ all_zero W1 /\ ~ all_zero B1 /\
      stdout w' = [BeganTraining 1; CompletedEpoch 1 1 cost; Trained 1] /\
      (cost < 1 / 4)%R /\
      returns (Calc xor_net [1%R; 0%R]) w' (fun out _ =>
        squared_error [1%R] out = cost)).
Proof.
  split; [reflexivity | split; [reflexivity | split; [| split; [| split]]]].
  - unfold zero_layers, xor_values, all_zero, zeros. simpl. repeat constructor.
  - exact (proj1 xor_forward_before).
  - eapply returns_mono;
      [apply (Calc_returns _ _ _ [1%R; 0%R] xor_network_in); reflexivity |].
    intros out w' (-> & _). rewrite (proj2 xor_forward_before).
    split; [reflexivity |]. unfold squared_error; simpl. lra.
  - destruct xor_forward_after as (y & Hy & Hrange).
    assert (Hcost : ((0 + (0 + (1 - y) ^ 2)) / IZR (len [[1%R; 0%R]]) < 1 / 4)%R).
    { unfold len; simpl. nra. }
    unfold Train.
    change (negb (len [[1%R; 0%R]] =? len [[1%R]])) with false. cbv iota.
    bind_eq ltac:(reflexivity).
    set (w0 := mkWorld (denses xor_world) (arrays xor_world) (rand_source xor_world)
                       (files xor_world) (stdout xor_world ++ [BeganTraining 1])).
    assert (Hnet0 : network_in w0 xor_net xor_values)
      by (apply (network_in_same_heap xor_world); [reflexivity | reflexivity | exact xor_network_in]).
    apply returns_bind.
    change (Z.to_nat 1) with 1%nat. cbn [for_up].
    apply returns_bind. apply returns_bind. cbn [length for_up].
    apply returns_bind.
    bind_eq ltac:(reflexivity). bind_eq ltac:(reflexivity).
    destruct (backpropagate_returns w0 xor_net xor_values [1%R; 0%R] [1%R] Hnet0
                eq_refl eq_refl) as (a & Ha & Hrun).
    injection Ha as <-.
    apply returns_bind. eapply returns_mono; [exact Hrun |].
    intros [] w1 (Hwrote & Hnet1).
    change (learnRate xor_net) with (1 / 10)%R in Hnet1. rewrite xor_updated in Hnet1.
    bind_eq ltac:(reflexivity). bind_eq ltac:(reflexivity).
    apply returns_bind.
    eapply returns_mono; [apply (Calc_returns w1 xor_net xor_trained [1%R; 0%R] Hnet1); reflexivity |].
    intros out w2 (-> & Halloc). rewrite Hy.
    bind_eq ltac:(reflexivity).
    apply returns_ret. apply returns_ret.
    eapply returns_eq; [reflexivity |].
    apply returns_ret.
    change (1 =? 0) with false. cbv iota.
    eapply returns_eq; [reflexivity |].
    assert (Hvals : network_values w2 xor_net = Some xor_trained)
      by (eapply network_values_allocated; [exact Halloc | exact (proj1 Hnet1)]).
    match goal with
    | |- exists W0 B0 W1 B1 cost, network_values ?wf _ = _ /\ _ =>
        assert (Hnetf : network_in wf xor_net xor_trained)
          by (apply (network_in_same_heap w2);
              [reflexivity | reflexivity | split; [exact Hvals | exact (proj2 Hnet1)]])
    end.
    eexists _, _, _, _, _.
    split; [exact (proj1 Hnetf) |].
    split; [| split; [| split; [| split; [| split; [| split]]]]].
    + intros Hz. inversion Hz as [| v l Hv _]; subst. lra.
    + intros Hz. inversion Hz as [| v l Hv _]; subst. lra.
    + intros Hz. inversion Hz as [| v l Hv _]; subst. lra.
    + intros Hz. inversion Hz as [| v l Hv _]; subst. lra.
    + simpl.
      destruct Halloc as (_ & _ & _ & _ & ->).
      destruct Hwrote as (_ & _ & _ & ->). reflexivity.
    + exact Hcost.
    + eapply returns_mono.
      * apply (Calc_returns _ xor_net xor_trained [1%R; 0%R] Hnetf). reflexivity.
      * intros out w' (-> & _). rewrite Hy.
        unfold squared_error, len; simpl. lra.
Qed.

(** ** Entries of matrix values *)

Lemma at_madd a b r c :
  (r < rows a)%nat -> (c < cols a)%nat -> at_ (madd a b) r c = (at_ a r c + at_ b r c)%R.
Proof. intros; unfold madd; apply at_tabulate; assumption. Qed.

Lemma at_msub a b r c :
  (r < rows a)%nat -> (c < cols a)%nat -> at_ (msub a b) r c = (at_ a r c - at_ b r c)%R.
Proof. intros; unfold msub; apply at_tabulate; assumption. Qed.

Lemma at_hadamard a b r c :
  (r < rows a)%nat -> (c < cols a)%nat ->
  at_ (hadamard a b) r c = (at_ a r c * at_ b r c)%R.
Proof. intros; unfold hadamard; apply at_tabulate; assumption. Qed.



Lemma at_matmul a b r c :
  (r < rows a)%nat -> (c < cols b)%nat ->
  at_ (matmul a b) r c = sum_upto (cols a) (fun k => at_ a r k * at_ b k c)%R.
Proof. intros; unfold matmul; apply at_tabulate; assumption. Qed.

Lemma all_zero_at d r c : all_zero d -> at_ d r c = 0%R.
Proof.
  unfold all_zero, at_. intros Hz.
  destruct (nth_in_or_default (r * cols d + c) (data d) 0%R) as [Hin | ->]; [| reflexivity].
  exact (proj1 (Forall_forall _ _) Hz _ Hin).
Qed.

Lemma sum_upto_ext n f g :
  (forall k, (k < n)%nat -> f k = g k) -> sum_upto n f = sum_upto n g.
Proof.
  induction n as [| n IH]; intros Hfg; simpl; [reflexivity |].
  rewrite IH by (intros; apply Hfg; lia). rewrite Hfg by lia. reflexivity.
Qed.

Lemma sum_upto_zero n : sum_upto n (fun _ => 0%R) = 0%R.
Proof. induction n as [| n IH]; simpl; [reflexivity | rewrite IH; lra]. Qed.




(** ** The backward pass on a zero network *)

(** With zero weights and biases the pre-activation is zero whatever the
    input, so every activation is one half. *)
Lemma zero_pre_activation W B a r :
  all_zero W -> all_zero B -> (r < rows W)%nat -> (0 < cols a)%nat ->
  at_ (pre_activation W B a) r 0 = 0%R.
Proof.
  intros HW HB Hr Hc. unfold pre_activation.
  rewrite at_madd by (simpl; lia).
  rewrite at_matmul by (simpl; lia).
  rewrite (sum_upto_ext _ _ (fun _ => 0%R)), sum_upto_zero.
  - rewrite (all_zero_at B _ _ HB). lra.
  - intros k _. rewrite (all_zero_at W _ _ HW). lra.
Qed.

Lemma zero_activation W B a r :
  all_zero W -> all_zero B -> (r < rows W)%nat -> (0 < cols a)%nat ->
  at_ (apply sigmoid (pre_activation W B a)) r 0 = (1 / 2)%R.
Proof.
  intros HW HB Hr Hc. rewrite at_apply by (simpl; lia).
  apply sigmoid_zero, zero_pre_activation; assumption.
Qed.










(** ** What a call can write, whatever its outcome *)

Lemma keeps_ret {A} a (x : A) : keeps (only_array a) (ret x).
Proof. intros w. apply only_array_refl. Qed.

Lemma keeps_throw {A} a e : keeps (only_array a) (@throw A e).
Proof. intros w. apply only_array_refl. Qed.

Lemma keeps_bind {A B} a (c : M A) (k : A -> M B) :
  keeps (only_array a) c -> (forall x, keeps (only_array a) (k x)) ->
  keeps (only_array a) (bind c k).
Proof.
  intros Hc Hk w. unfold bind. specialize (Hc w).
  destruct (c w) as [[x | e] w1]; simpl in *; [| exact Hc].
  eapply only_array_trans; [exact Hc | apply Hk].
Qed.

Lemma keeps_for_up {St} a (body : Z -> St -> M St) :
  (forall idx s, keeps (only_array a) (body idx s)) ->
  forall count idx s, keeps (only_array a) (for_up count idx body s).
Proof.
  intros Hbody count. induction count as [| count IH]; intros idx s; simpl.
  - apply keeps_ret.
  - apply keeps_bind; [apply Hbody | intros s'; apply IH].
Qed.

Lemma keeps_for_down {St} a (body : Z -> St -> M St) :
  (forall idx s, keeps (only_array a) (body idx s)) ->
  forall k s, keeps (only_array a) (for_down k body s).
Proof.
  intros Hbody k. induction k as [| k IH]; intros s; simpl.
  - apply keeps_ret.
  - apply keeps_bind; [apply Hbody | intros s'; apply IH].
Qed.

(** A computation that leaves the world as it is. *)
Lemma keeps_reader {A} a (c : M A) :
  (forall w, snd (c w) = w) -> keeps (only_array a) c.
Proof. intros Hc w. rewrite Hc. apply only_array_refl. Qed.

Lemma index_reads {A} (l : list A) k w : snd (index l k w) = w.
Proof.
  unfold index. destruct ((k <? 0) || (len l <=? k)); [reflexivity |].
  destruct (nth_error l (Z.to_nat k)); reflexivity.
Qed.

Lemma set_index_reads {A} (l : list A) k x w : snd (set_index l k x w) = w.
Proof. unfold set_index. destruct ((k <? 0) || (len l <=? k)); reflexivity. Qed.

Lemma make_reads {A} (z : A) n w : snd (make z n w) = w.
Proof. unfold make. destruct (n <? 0); reflexivity. Qed.

Lemma load_dense_reads p w : snd (load_dense p w) = w.
Proof. unfold load_dense. destruct (nth_error (denses w) p); reflexivity. Qed.

Lemma value_reads m w : snd (value m w) = w.
Proof.
  destruct m as [| p | p]; simpl; [reflexivity | apply load_dense_reads |].
  unfold bind, load_dense. destruct (nth_error (denses w) p); reflexivity.
Qed.

Lemma Dims_reads m w : snd (Dims m w) = w.
Proof.
  unfold Dims, bind. pose proof (value_reads m w) as Hv.
  destruct (value m w) as [[d | e] w1]; simpl in *; exact Hv.
Qed.

Lemma T_reads m w : snd (T m w) = w.
Proof. destruct m; reflexivity. Qed.

Lemma At_reads m r c w : snd (At m r c w) = w.
Proof.
  unfold At, bind. pose proof (value_reads m w) as Hv.
  destruct (value m w) as [[d | e] w1]; simpl in *; [| exact Hv].
  destruct ((r <? 0) || (Z.of_nat (rows d) <=? r)); [exact Hv |].
  destruct ((c <? 0) || (Z.of_nat (cols d) <=? c)); exact Hv.
Qed.

Lemma backing_reads s w : snd (backing s w) = w.
Proof.
  unfold backing. destruct s; [reflexivity |].
  destruct (nth_error (arrays w) a); reflexivity.
Qed.

Lemma layers_at_reads s k w : snd (layers_at s k w) = w.
Proof.
  unfold layers_at, bind. pose proof (backing_reads s w) as Hb.
  destruct (backing s w) as [[ls | e] w1]; simpl in *; [| exact Hb].
  rewrite index_reads. exact Hb.
Qed.

Lemma only_array_same_arrays a w w' :
  dense_kept w w' -> arrays w' = arrays w -> only_array a w w'.
Proof. intros Hd Ha. split; [exact Hd | rewrite Ha; split; auto]. Qed.

Lemma keeps_NewDense a r c content : keeps (only_array a) (NewDense r c content).
Proof.
  intros w. unfold NewDense.
  destruct ((r <=? 0) || (c <=? 0)).
  - destruct ((r =? 0) || (c =? 0)); apply only_array_refl.
  - destruct content as [l |].
    + destruct (r * c =? len l); [| apply only_array_refl].
      apply only_array_same_arrays; [eexists; reflexivity | reflexivity].
    + apply only_array_same_arrays; [eexists; reflexivity | reflexivity].
Qed.

Lemma keeps_rand_Float64 a : keeps (only_array a) rand_Float64.
Proof.
  intros w. apply only_array_same_arrays; [| reflexivity].
  exists []. simpl. symmetry; apply app_nil_r.
Qed.

Lemma keeps_Printf a e : keeps (only_array a) (Printf e).
Proof.
  intros w. apply only_array_same_arrays; [| reflexivity].
  exists []. simpl. symmetry; apply app_nil_r.
Qed.

(** A receiver allocated by the wrapper itself: whatever is stored into it,
    the matrix objects that existed before the wrapper are as they were. *)
Lemma fresh_receiver a r c (fill : nat -> M unit) :
  (forall w z, exists v,
      snd (fill (length (denses w)) (push w z)) = push w v) ->
  keeps (only_array a)
        (res <- NewDense r c None ;; fill res ;;; ret (MDense res)).
Proof.
  intros Hfill w. unfold bind at 1, NewDense.
  destruct ((r <=? 0) || (c <=? 0)).
  - destruct ((r =? 0) || (c =? 0)); apply only_array_refl.
  - unfold alloc_dense.
    change (mkWorld (denses w ++ [zeros (Z.to_nat r) (Z.to_nat c)]) (arrays w)
              (rand_source w) (files w) (stdout w))
      with (push w (zeros (Z.to_nat r) (Z.to_nat c))).
    destruct (Hfill w (zeros (Z.to_nat r) (Z.to_nat c))) as [v Hv].
    unfold bind.
    destruct (fill (length (denses w)) (push w (zeros (Z.to_nat r) (Z.to_nat c))))
      as [[[] | e] w1]; simpl in *; subst w1;
      (apply only_array_same_arrays; [eexists; reflexivity | reflexivity]).
Qed.

Lemma store_after_push w z p v :
  p = length (denses w) -> snd (store_dense p v (push w z)) = push w v.
Proof. intros ->. rewrite store_fresh. reflexivity. Qed.

Lemma reuseAs_reads p r c w : snd (reuseAs p r c w) = w.
Proof.
  unfold reuseAs, bind, load_dense.
  destruct (nth_error (denses w) p) as [d |]; [| reflexivity].
  destruct (IsEmpty d); [reflexivity |].
  destruct ((rows d =? r)%nat && (cols d =? c)%nat); reflexivity.
Qed.

Lemma receive_keeps_push w z r c v :
  exists v', snd ((reuseAs (length (denses w)) r c ;;;
                   store_dense (length (denses w)) v) (push w z)) = push w v'.
Proof.
  unfold bind. pose proof (reuseAs_reads (length (denses w)) r c (push w z)) as Hr.
  destruct (reuseAs (length (denses w)) r c (push w z)) as [[[] | e] w1];
    simpl in Hr; subst w1.
  - exists v. rewrite store_fresh. reflexivity.
  - exists z. reflexivity.
Qed.

Lemma elementwise_fill op m n w z :
  exists v, snd (elementwise op (length (denses w)) m n (push w z)) = push w v.
Proof.
  unfold elementwise, bind at 1.
  pose proof (value_reads m (push w z)) as Hm.
  destruct (value m (push w z)) as [[x | e] w1]; simpl in Hm; subst w1; [| exists z; reflexivity].
  unfold bind at 1.
  pose proof (value_reads n (push w z)) as Hn.
  destruct (value n (push w z)) as [[y | e] w1]; simpl in Hn; subst w1; [| exists z; reflexivity].
  destruct (negb ((rows x =? rows y)%nat && (cols x =? cols y)%nat)); [exists z; reflexivity |].
  apply receive_keeps_push.
Qed.

Lemma Product_fill m n w z :
  exists v, snd (Product (length (denses w)) m n (push w z)) = push w v.
Proof.
  unfold Product, bind at 1.
  pose proof (value_reads m (push w z)) as Hm.
  destruct (value m (push w z)) as [[x | e] w1]; simpl in Hm; subst w1; [| exists z; reflexivity].
  unfold bind at 1.
  pose proof (value_reads n (push w z)) as Hn.
  destruct (value n (push w z)) as [[y | e] w1]; simpl in Hn; subst w1; [| exists z; reflexivity].
  destruct (negb (cols x =? rows y)%nat); [exists z; reflexivity |].
  apply receive_keeps_push.
Qed.

Lemma Apply_fill fn m w z :
  exists v, snd (Apply (length (denses w)) fn m (push w z)) = push w v.
Proof.
  unfold Apply, bind at 1.
  pose proof (value_reads m (push w z)) as Hm.
  destruct (value m (push w z)) as [[x | e] w1]; simpl in Hm; subst w1; [| exists z; reflexivity].
  apply receive_keeps_push.
Qed.

Lemma Scale_fill f m w z :
  exists v, snd (Scale (length (denses w)) f m (push w z)) = push w v.
Proof.
  unfold Scale, bind at 1.
  pose proof (value_reads m (push w z)) as Hm.
  destruct (value m (push w z)) as [[x | e] w1]; simpl in Hm; subst w1; [| exists z; reflexivity].
  apply receive_keeps_push.
Qed.

Lemma keeps_Dims a m : keeps (only_array a) (Dims m).
Proof. apply keeps_reader, Dims_reads. Qed.

Lemma keeps_add a m n : keeps (only_array a) (add m n).
Proof.
  unfold add. apply keeps_bind; [apply keeps_Dims | intros [r c]].
  apply (fresh_receiver a r c (fun res => Add res m n)).
  intros w z. apply elementwise_fill.
Qed.

Lemma keeps_sub a m n : keeps (only_array a) (sub m n).
Proof.
  unfold sub. apply keeps_bind; [apply keeps_Dims | intros [r c]].
  apply (fresh_receiver a r c (fun res => Sub res m n)).
  intros w z. apply elementwise_fill.
Qed.

Lemma keeps_mul a m n : keeps (only_array a) (mul m n).
Proof.
  unfold mul. apply keeps_bind; [apply keeps_Dims | intros [r c0]].
  apply keeps_bind; [apply keeps_Dims | intros [r0 c]].
  apply (fresh_receiver a r c (fun res => MulElem res m n)).
  intros w z. apply elementwise_fill.
Qed.

Lemma keeps_dot a m n : keeps (only_array a) (dot m n).
Proof.
  unfold dot. apply keeps_bind; [apply keeps_Dims | intros [r c0]].
  apply keeps_bind; [apply keeps_Dims | intros [r0 c]].
  apply (fresh_receiver a r c (fun res => Product res m n)).
  intros w z. apply Product_fill.
Qed.

Lemma keeps_fun a fn m : keeps (only_array a) (fun_ fn m).
Proof.
  unfold fun_. apply keeps_bind; [apply keeps_Dims | intros [r c]].
  apply (fresh_receiver a r c (fun res => Apply res fn m)).
  intros w z. apply Apply_fill.
Qed.

Lemma keeps_scl a f m : keeps (only_array a) (scl f m).
Proof.
  unfold scl. apply keeps_bind; [apply keeps_Dims | intros [r c]].
  apply (fresh_receiver a r c (fun res => Scale res f m)).
  intros w z. apply Scale_fill.
Qed.

Lemma keeps_set_layer a k f : keeps (only_array a) (set_layer (SliceOf a) k f).
Proof.
  intros w. unfold set_layer, bind.
  pose proof (backing_reads (SliceOf a) w) as Hb.
  destruct (backing (SliceOf a) w) as [[ls | e] w1]; simpl in Hb; subst w1;
    [| apply only_array_refl].
  pose proof (index_reads ls k w) as Hi.
  destruct (index ls k w) as [[l | e] w1]; simpl in Hi; subst w1;
    [| apply only_array_refl].
  apply only_array_with_array.
Qed.

Ltac frame_step :=
  first
    [ apply keeps_ret | apply keeps_throw
    | apply keeps_add | apply keeps_sub | apply keeps_mul | apply keeps_dot
    | apply keeps_fun | apply keeps_scl | apply keeps_NewDense | apply keeps_Dims
    | apply keeps_rand_Float64 | apply keeps_Printf
    | apply keeps_set_layer
    | apply keeps_reader; intros ?;
      first [ apply index_reads | apply set_index_reads | apply make_reads
            | apply T_reads | apply At_reads | apply layers_at_reads ]
    | apply keeps_for_up; intros ? ?
    | apply keeps_for_down; intros ? ?
    | match goal with
      | |- keeps _ (if ?b then _ else _) => destruct b
      | |- keeps _ (match ?x with (_, _) => _ end) => destruct x
      end
    | apply keeps_bind; [| intros ?] ].

Lemma keeps_randomArray a size u l : keeps (only_array a) (randomArray size u l).
Proof. unfold randomArray. repeat frame_step. Qed.

Lemma keeps_Calc a n data : keeps (only_array a) (Calc n data).
Proof. unfold Calc. repeat frame_step. Qed.

Lemma keeps_backpropagate a n inputData expectedData :
  layers n = SliceOf a -> keeps (only_array a) (backpropagate n inputData expectedData).
Proof.
  intros Hn. unfold backpropagate, set_biases, set_weights. rewrite Hn.
  repeat frame_step.
Qed.

Lemma keeps_Perturb a n strength :
  layers n = SliceOf a -> keeps (only_array a) (Perturb n strength).
Proof.
  intros Hn. unfold Perturb, set_biases, set_weights. rewrite Hn.
  repeat first [apply keeps_randomArray | frame_step].
Qed.

(** ** C7: [Copy] *)

Lemma copy_slice_same_length {A} (dst src : list A) :
  length dst = length src -> copy_slice dst src = src.
Proof.
  intros Hlen. unfold copy_slice.
  rewrite Hlen, firstn_all, <- Hlen, skipn_all. apply app_nil_r.
Qed.

Lemma network_values_only_array w w' n a a' L :
  only_array a w w' -> layers n = SliceOf a' -> a' <> a ->
  network_values w n = Some L -> network_values w' n = Some L.
Proof.
  intros (Hd & Hlen & Hother) Hn Hne. unfold network_values, network_layers.
  rewrite Hn.
  destruct (nth_error (arrays w) a') as [ls |] eqn:Ha; [| discriminate].
  rewrite Hother by (auto; apply nth_error_Some; congruence).
  rewrite Ha. apply layer_values_kept; exact Hd.
Qed.

(** [Copy] allocates one layer array and copies the layers, that is the
    pointers to the matrices, into it. *)
Lemma Copy_returns w n L :
  network_in w n L ->
  returns (Copy n) w (fun m w' =>
    exists an,
      layers n = SliceOf an /\ (an < length (arrays w))%nat /\
      layers m = SliceOf (length (arrays w)) /\
      length (arrays w') = S (length (arrays w)) /\
      i m = i n /\ o m = o n /\ h m = h n /\ hidden m = hidden n /\
      learnRate m = learnRate n /\
      network_layers w' m = network_layers w' n /\
      network_in w' n L /\ network_in w' m L).
Proof.
  intros (HL & Htop).
  pose proof HL as HL0.
  unfold network_values, network_layers in HL.
  destruct (layers n) as [| an] eqn:Hn; [discriminate |].
  destruct (nth_error (arrays w) an) as [ls |] eqn:Han; [| discriminate].
  assert (Hlt : (an < length (arrays w))%nat) by (apply nth_error_Some; congruence).
  unfold Copy. rewrite Hn.
  bind_eq ltac:(apply make_Ok; unfold len; lia).
  bind_eq ltac:(simpl; rewrite Han; reflexivity).
  bind_eq ltac:(unfold make_layers; rewrite (bind_Ok _ _ _ _ _ (make_Ok _ (len ls) w ltac:(unfold len; lia))); reflexivity).
  set (blank := repeat (mkLayer MNil MNil) (Z.to_nat (len ls))).
  set (w1 := mkWorld (denses w) (arrays w ++ [blank]) (rand_source w) (files w) (stdout w)).
  assert (Hcopy : copy_layers (SliceOf (length (arrays w))) (SliceOf an) w1
                  = (Ok tt, with_array w1 (length (arrays w)) ls)).
  { unfold copy_layers, bind, backing. simpl.
    rewrite nth_error_app2 by lia. rewrite Nat.sub_diag. simpl.
    rewrite nth_error_app1 by exact Hlt. rewrite Han.
    rewrite copy_slice_same_length
      by (unfold blank, len; rewrite repeat_length, Nat2Z.id; reflexivity).
    reflexivity. }
  bind_eq ltac:(exact Hcopy).
  apply returns_ret.
  set (w2 := with_array w1 (length (arrays w)) ls).
  assert (Harr : arrays w2 = arrays w ++ [ls])
    by (unfold w2, w1, with_array; simpl; apply update_last).
  exists an. fold w2.
  split; [reflexivity | split; [exact Hlt | split; [reflexivity |]]].
  split; [rewrite Harr, length_app; simpl; lia |].
  split; [reflexivity | split; [reflexivity | split; [reflexivity |]]].
  assert (Hhid : copy_slice (repeat 0 (Z.to_nat (len (hidden n)))) (hidden n) = hidden n)
    by (apply copy_slice_same_length; unfold len; rewrite repeat_length, Nat2Z.id; reflexivity).
  split; [exact Hhid | split; [reflexivity |]].
  split.
  { unfold network_layers. rewrite Hn. simpl layers. rewrite Harr.
    rewrite nth_error_app2 by lia. rewrite Nat.sub_diag.
    rewrite nth_error_app1 by exact Hlt. rewrite Han. reflexivity. }
  split.
  - split; [| exact Htop].
    unfold network_values, network_layers. rewrite Hn, Harr.
    rewrite nth_error_app1 by exact Hlt. rewrite Han.
    rewrite (layer_values_same_denses w w2) by reflexivity. exact HL.
  - split.
    + unfold network_values, network_layers. simpl layers. rewrite Harr.
      rewrite nth_error_app2 by lia. rewrite Nat.sub_diag. simpl.
      rewrite (layer_values_same_denses w w2) by reflexivity. exact HL.
    + destruct Htop as (Hi & Hh & Hshape). unfold topology; simpl.
      rewrite Hhid. auto.
Qed.

(** C7. [Copy] returns a network with the fields and the matrices of its
    source, so [Calc] returns the same output from both on every input of the
    input size.  The layers of the copy hold the very pointers of the source
    (no matrix is duplicated), yet whatever [backpropagate] or [Perturb] then
    does on the copy, with any arguments and whether it returns or panics,
    the source holds the same matrices afterwards; and likewise for the copy
    when the source is the one updated. *)
Theorem Copy_is_independent (w : world) (n : Network) (L : list (Dense * Dense)) :
  network_in w n L ->
  returns (Copy n) w (fun m w' =>
    i m = i n /\ o m = o n /\ h m = h n /\ hidden m = hidden n /\
    learnRate m = learnRate n /\
    network_layers w' m = network_layers w' n /\
    network_values w' n = Some L /\ network_values w' m = Some L /\
    (forall data, len data = i n ->
       exists out, fst (Calc m data w') = Ok out /\ fst (Calc n data w') = Ok out) /\
    (forall inputData expectedData strength,
       network_values (snd (backpropagate m inputData expectedData w')) n = Some L /\
       network_values (snd (Perturb m strength w')) n = Some L /\
       network_values (snd (backpropagate n inputData expectedData w')) m = Some L /\
       network_values (snd (Perturb n strength w')) m = Some L)).
Proof.
  intros Hnet.
  eapply returns_mono; [apply (Copy_returns w n L Hnet) |].
  intros m w' (an & Hn & Hlt & Hm & Hlen & Hi & Ho & Hh & Hhid & Hlr & Hptr & Hnetn & Hnetm).
  repeat (split; [assumption |]).
  split; [exact (proj1 Hnetn) | split; [exact (proj1 Hnetm) | split]].
  - intros data Hdata.
    destruct (Calc_returns w' n L data Hnetn Hdata) as (out & w1 & Hc & -> & _).
    destruct (Calc_returns w' m L data Hnetm ltac:(congruence)) as (out' & w2 & Hc' & -> & _).
    eexists. rewrite Hc, Hc'. split; reflexivity.
  - intros inputData expectedData strength.
    assert (Hne : an <> length (arrays w)) by lia.
    repeat split.
    + apply (network_values_only_array w' _ n (length (arrays w)) an L
               (keeps_backpropagate _ m inputData expectedData Hm w') Hn Hne (proj1 Hnetn)).
    + apply (network_values_only_array w' _ n (length (arrays w)) an L
               (keeps_Perturb _ m strength Hm w') Hn Hne (proj1 Hnetn)).
    + apply (network_values_only_array w' _ m an (length (arrays w)) L
               (keeps_backpropagate _ n inputData expectedData Hn w') Hm
               ltac:(lia) (proj1 Hnetm)).
    + apply (network_values_only_array w' _ m an (length (arrays w)) L
               (keeps_Perturb _ n strength Hn w') Hm ltac:(lia) (proj1 Hnetm)).
Qed.

Lemma Copy_is_independent_witness :
  returns (Copy xor_net) xor_world (fun m w' =>
    i m = i xor_net /\ o m = o xor_net /\ h m = h xor_net /\
    hidden m = hidden xor_net /\ learnRate m = learnRate xor_net /\
    network_layers w' m = network_layers w' xor_net /\
    network_values w' xor_net = Some xor_values /\
    network_values w' m = Some xor_values /\
    (forall data, len data = i xor_net ->
       exists out, fst (Calc m data w') = Ok out /\ fst (Calc xor_net data w') = Ok out) /\
    (forall inputData expectedData strength,
       network_values (snd (backpropagate m inputData expectedData w')) xor_net
       = Some xor_values /\
       network_values (snd (Perturb m strength w')) xor_net = Some xor_values /\
       network_values (snd (backpropagate xor_net inputData expectedData w')) m
       = Some xor_values /\
       network_values (snd (Perturb xor_net strength w')) m = Some xor_values)).
Proof.
  apply (Copy_is_independent xor_world xor_net xor_values).
  split; [reflexivity |].
  unfold topology; simpl. repeat split; reflexivity || lia.
Defined.

(** ** [NewNetwork] with at least one hidden layer *)

Lemma newLayer_zero r c w :
  0 < r -> 0 < c ->
  newLayer r c false w
  = (Ok (mkLayer (MDense (length (denses w))) (MDense (S (length (denses w))))),
     push (push w (zeros (Z.to_nat r) (Z.to_nat c))) (zeros (Z.to_nat r) 1)).
Proof.
  intros Hr Hc. unfold newLayer.
  step_with (NewDense_zero r c w Hr Hc).
  step_with (NewDense_zero r 1 (push w (zeros (Z.to_nat r) (Z.to_nat c))) Hr ltac:(lia)).
  unfold ret. simpl. rewrite length_app. simpl.
  replace (length (denses w) + 1)%nat with (S (length (denses w))) by lia.
  reflexivity.
Qed.

Lemma layer_values_pointwise w ls V :
  length ls = length V ->
  (forall j l v, nth_error ls j = Some l -> nth_error V j = Some v ->
                 layer_value w l = Some v) ->
  layer_values w ls = Some V.
Proof.
  revert V. induction ls as [| l ls IH]; intros [| v V] Hlen Hall; simpl in *;
    try discriminate; [reflexivity |].
  rewrite (Hall O l v eq_refl eq_refl).
  rewrite (IH V); [reflexivity | lia |].
  intros j l' v' Hl Hv. exact (Hall (S j) l' v' Hl Hv).
Qed.

Lemma zero_values_nth n_in sizes j :
  (j < length sizes)%nat ->
  nth_error (zero_values n_in sizes) j
  = Some (zeros (Z.to_nat (nth j sizes 0)) (Z.to_nat (nth j (n_in :: sizes) 0)),
          zeros (Z.to_nat (nth j sizes 0)) 1).
Proof.
  revert n_in j. induction sizes as [| s sizes IH]; intros n_in j Hj; simpl in Hj; [lia |].
  destruct j as [| j]; [reflexivity |].
  simpl zero_values. simpl nth_error. rewrite IH by lia. reflexivity.
Qed.

Lemma zero_values_shaped n_in sizes :
  0 < n_in -> Forall (fun s => 0 < s) sizes -> shaped n_in sizes (zero_values n_in sizes).
Proof.
  revert n_in. induction sizes as [| s sizes IH]; intros n_in Hin Hpos; simpl;
    [exact Logic.I |].
  apply Forall_cons_iff in Hpos. destruct Hpos as (Hs & Hrest).
  repeat split; auto; rewrite Z2Nat.id; lia.
Qed.

Lemma construction_round w inputs outputs hid k wk r c :
  under_construction w inputs outputs hid k wk -> (k < S (length hid))%nat ->
  0 < r -> 0 < c ->
  r = nth k (hid ++ [outputs]) 0 -> c = nth k (inputs :: hid) 0 ->
  returns (l <- newLayer r c false ;;
           set_layer (SliceOf (length (arrays w))) (Z.of_nat k) (fun _ => l)) wk
          (fun _ w' => under_construction w inputs outputs hid (S k) w').
Proof.
  intros (Hkept & Hlen & Hcells & (ls & Harr & Hlsn & Hls) & Hr & Hf & Hs) Hk Hr0 Hc0 -> ->.
  set (base := length (denses w)) in *.
  bind_eq ltac:(apply newLayer_zero; assumption).
  set (z1 := zeros (Z.to_nat (nth k (hid ++ [outputs]) 0))
                   (Z.to_nat (nth k (inputs :: hid) 0))).
  set (z2 := zeros (Z.to_nat (nth k (hid ++ [outputs]) 0)) 1).
  set (w1 := push (push wk z1) z2).
  destruct (nth_error ls k) as [l0 |] eqn:Hl0; [| apply nth_error_None in Hl0; lia].
  assert (Ha1 : nth_error (arrays w1) (length (arrays w)) = Some ls).
  { unfold w1; simpl. rewrite Harr, nth_error_app2 by lia.
    rewrite Nat.sub_diag. reflexivity. }
  eapply returns_eq.
  { apply (set_layer_Ok w1 _ ls k l0 _ Ha1 Hl0). }
  set (l := mkLayer (MDense (length (denses wk))) (MDense (S (length (denses wk))))).
  set (w2 := with_array w1 (length (arrays w)) (update ls k l)).
  assert (Hd2 : denses w2 = denses wk ++ [z1; z2]).
  { unfold w2, w1; simpl. rewrite <- app_assoc. reflexivity. }
  assert (Ha2 : arrays w2 = arrays w ++ [update ls k l]).
  { unfold w2, w1; simpl. rewrite Harr. apply update_last. }
  unfold under_construction. fold base. rewrite Hd2, Ha2.
  split; [| split; [| split; [| split]]].
  - eapply dense_kept_trans; [exact Hkept |]. exists [z1; z2]. exact Hd2.
  - rewrite length_app. simpl. lia.
  - intros j Hj.
    destruct (Nat.eq_dec j k) as [-> | Hne].
    + rewrite !nth_error_app2 by lia. rewrite Hlen.
      replace (base + 2 * k - (base + 2 * k))%nat with O by lia.
      replace (base + 2 * k + 1 - (base + 2 * k))%nat with 1%nat by lia.
      split; reflexivity.
    + destruct (Hcells j ltac:(lia)) as (H1 & H2).
      rewrite !nth_error_app1 by lia. auto.
  - exists (update ls k l).
    split; [reflexivity | split].
    + rewrite length_update. exact Hlsn.
    + intros j Hj. destruct (Nat.eq_dec j k) as [-> | Hne].
      * rewrite nth_error_update_same by lia. unfold l, built_layer. rewrite Hlen.
        do 3 f_equal. lia.
      * rewrite nth_error_update_other by exact Hne. apply Hls. lia.
  - unfold w2, w1; simpl. auto.
Qed.

Lemma hidden_at {A} (l : list A) (d : A) k w :
  (k < length l)%nat -> index l (Z.of_nat k) w = (Ok (nth k l d), w).
Proof. intros Hk. apply index_Ok. apply nth_error_nth'. exact Hk. Qed.

Lemma Forall_nth_pos (l : list Z) k :
  Forall (fun s => 0 < s) l -> (k < length l)%nat -> 0 < nth k l 0.
Proof.
  intros Hall Hk. exact (proj1 (Forall_forall _ _) Hall _ (nth_In l 0 Hk)).
Qed.

(** With a non-empty list of positive hidden sizes and positive input and
    output sizes, [NewNetwork] returns the zero network of that topology,
    in freshly allocated matrices and a fresh layer array. *)
Lemma NewNetwork_returns w inputs outputs hid learn :
  hid <> [] -> 0 < inputs -> 0 < outputs -> Forall (fun s => 0 < s) hid ->
  returns (NewNetwork inputs outputs hid learn false) w (fun n w' =>
    n = mkNetwork inputs outputs (len hid + 1) hid (SliceOf (length (arrays w))) learn /\
    under_construction w inputs outputs hid (S (length hid)) w' /\
    network_in w' n (zero_values inputs (hid ++ [outputs]))).
Proof.
  intros Hne Hin Hout Hpos.
  assert (Hlen : (0 < length hid)%nat) by (destruct hid; [congruence | simpl; lia]).
  unfold NewNetwork.
  bind_eq ltac:(unfold make_layers;
                rewrite (bind_Ok _ _ _ _ _ (make_Ok _ (len hid + 1) w ltac:(unfold len; lia)));
                reflexivity).
  set (blank := repeat (mkLayer MNil MNil) (Z.to_nat (len hid + 1))).
  set (w0 := mkWorld (denses w) (arrays w ++ [blank]) (rand_source w) (files w) (stdout w)).
  assert (HN : Z.to_nat (len hid + 1) = S (length hid)) by (unfold len; lia).
  assert (H0 : under_construction w inputs outputs hid O w0).
  { unfold under_construction, w0; simpl.
    split; [exists []; simpl; symmetry; apply app_nil_r
           | split; [lia | split; [intros j Hj; lia | split]]].
    - exists blank. split; [reflexivity | split; [| intros j Hj; lia]].
      unfold blank. rewrite repeat_length. exact HN.
    - auto. }
  apply returns_bind. rewrite HN.
  eapply returns_mono.
  - apply (for_up_returns (fun k (_ : unit) wk => under_construction w inputs outputs hid k wk)).
    + exact H0.
    + intros k [] wk Hk Hinv. rewrite Z.add_0_l.
      destruct k as [| k].
      * simpl (Z.of_nat 0 =? 0). cbv iota.
        bind_eq ltac:(apply (hidden_at hid 0 0 wk Hlen)).
        apply (construction_round w inputs outputs hid 0 wk _ _ Hinv); auto.
        -- apply Forall_nth_pos; assumption.
        -- rewrite app_nth1 by exact Hlen. reflexivity.
      * replace (Z.of_nat (S k) =? 0) with false by (symmetry; apply Z.eqb_neq; lia).
        destruct (Nat.eq_dec (S k) (length hid)) as [Hend | Hmid].
        -- replace (Z.of_nat (S k) =? len hid) with true
             by (symmetry; apply Z.eqb_eq; unfold len; lia).
           bind_eq ltac:(replace (Z.of_nat (S k) - 1) with (Z.of_nat k) by lia;
                         apply (hidden_at hid 0 k wk); lia).
           apply (construction_round w inputs outputs hid (S k) wk _ _ Hinv); auto.
           ++ apply Forall_nth_pos; [assumption | lia].
           ++ rewrite app_nth2 by lia. rewrite Hend, Nat.sub_diag. reflexivity.
        -- replace (Z.of_nat (S k) =? len hid) with false
             by (symmetry; apply Z.eqb_neq; unfold len; lia).
           bind_eq ltac:(apply (hidden_at hid 0 (S k) wk); lia).
           bind_eq ltac:(replace (Z.of_nat (S k) - 1) with (Z.of_nat k) by lia;
                         apply (hidden_at hid 0 k wk); lia).
           apply (construction_round w inputs outputs hid (S k) wk _ _ Hinv); auto.
           ++ apply Forall_nth_pos; [assumption | lia].
           ++ apply Forall_nth_pos; [assumption | lia].
           ++ rewrite app_nth1 by lia. reflexivity.
  - intros [] w' Hinv.
    pose proof Hinv as (Hkept & Hlenw' & Hcells & (ls & Harr & Hlsn & Hls) & Hr & Hf & Hs).
    assert (Hback : backing (SliceOf (length (arrays w))) w' = (Ok ls, w')).
    { simpl. rewrite Harr, nth_error_app2 by lia. rewrite Nat.sub_diag. reflexivity. }
    bind_eq ltac:(exact Hback).
    apply returns_ret.
    assert (Hh : len ls = len hid + 1) by (unfold len; lia).
    rewrite Hh.
    split; [reflexivity | split; [exact Hinv |]].
    split.
    + unfold network_values, network_layers. simpl layers.
      rewrite Harr, nth_error_app2 by lia. rewrite Nat.sub_diag. simpl.
      assert (Hsz : length (hid ++ [outputs]) = S (length hid))
        by (rewrite length_app; simpl; lia).
      apply layer_values_pointwise.
      * rewrite Hlsn, <- Hsz. symmetry.
        apply (shaped_length inputs (hid ++ [outputs])).
        apply zero_values_shaped; [exact Hin |].
        apply Forall_app. split; [exact Hpos | repeat constructor; exact Hout].
      * intros j l v Hl Hv.
        assert (Hj : (j < S (length hid))%nat)
          by (rewrite <- Hlsn; apply nth_error_Some; congruence).
        rewrite (Hls j Hj) in Hl. injection Hl as <-.
        rewrite zero_values_nth in Hv by lia.
        change (inputs :: hid ++ [outputs]) with ((inputs :: hid) ++ [outputs]) in Hv.
        rewrite (app_nth1 (inputs :: hid)) in Hv by (simpl; lia).
        injection Hv as <-.
        destruct (Hcells j Hj) as (H1 & H2).
        unfold layer_value, built_layer. cbn [weights biases].
        rewrite H1, H2. reflexivity.
    + unfold topology; simpl.
      split; [exact Hin | split].
      * unfold len.
        rewrite (shaped_length inputs (hid ++ [outputs]) (zero_values inputs (hid ++ [outputs]))).
        -- rewrite length_app. simpl. lia.
        -- apply zero_values_shaped; [exact Hin |].
           apply Forall_app. split; [exact Hpos | repeat constructor; exact Hout].
      * apply zero_values_shaped; [exact Hin |].
        apply Forall_app. split; [exact Hpos | repeat constructor; exact Hout].
Qed.

(** ** Entry names *)

Lemma itoa_inj k j : itoa k = itoa j -> k = j.
Proof.
  unfold itoa. intros Heq.
  assert (Hnn : forall z, Z.to_int z <> Pos Nil /\ Z.to_int z <> Neg Nil).
  { intros [| p | p]; simpl; split; try discriminate;
      intros [= Hp]; exact (DecimalPos.Unsigned.to_uint_nonnil p Hp). }
  apply DecimalZ.to_int_inj.
  assert (Hk := NilZero.isi (Z.to_int k) (proj1 (Hnn k)) (proj2 (Hnn k))).
  assert (Hj := NilZero.isi (Z.to_int j) (proj1 (Hnn j)) (proj2 (Hnn j))).
  rewrite Heq in Hk. rewrite Hk in Hj. injection Hj as ->. reflexivity.
Qed.

Lemma string_length_append (s t : string) :
  String.length (s ++ t) = (String.length s + String.length t)%nat.
Proof. induction s as [| c s IH]; simpl; [reflexivity | rewrite IH; reflexivity]. Qed.

(** Two concatenations with suffixes of one length have the same parts. *)
Lemma append_same_suffix_length (s1 s2 t1 t2 : string) :
  (s1 ++ t1 = s2 ++ t2)%string -> String.length t1 = String.length t2 ->
  s1 = s2 /\ t1 = t2.
Proof.
  revert s2. induction s1 as [| c s1 IH]; intros [| c2 s2] Heq Hlen; simpl in Heq.
  - auto.
  - exfalso. apply (f_equal String.length) in Heq. simpl in Heq.
    rewrite string_length_append in Heq. lia.
  - exfalso. apply (f_equal String.length) in Heq. simpl in Heq.
    rewrite string_length_append in Heq. lia.
  - injection Heq as -> Heq. destruct (IH s2 Heq Hlen) as (-> & ->). auto.
Qed.

Lemma wname_inj k j : wname k = wname j -> k = j.
Proof.
  unfold wname. intros Heq.
  apply itoa_inj. exact (proj1 (append_same_suffix_length _ _ _ _ Heq eq_refl)).
Qed.

Lemma bname_inj k j : bname k = bname j -> k = j.
Proof.
  unfold bname. intros Heq.
  apply itoa_inj. exact (proj1 (append_same_suffix_length _ _ _ _ Heq eq_refl)).
Qed.

Lemma wname_bname k j : wname k <> bname j.
Proof.
  unfold wname, bname. intros Heq.
  pose proof (proj2 (append_same_suffix_length _ _ _ _ Heq eq_refl)). discriminate.
Qed.

Lemma meta_wname k : "meta.json"%string <> wname k.
Proof.
  unfold wname. intros Heq.
  change "meta.json"%string with ("meta" ++ ".json")%string in Heq.
  pose proof (proj2 (append_same_suffix_length _ _ _ _ Heq eq_refl)). discriminate.
Qed.

Lemma meta_bname k : "meta.json"%string <> bname k.
Proof.
  unfold bname. intros Heq.
  change "meta.json"%string with ("meta" ++ ".json")%string in Heq.
  pose proof (proj2 (append_same_suffix_length _ _ _ _ Heq eq_refl)). discriminate.
Qed.






(** ** [Save] *)

Lemma firstn_snoc {A} (l : list A) k x :
  nth_error l k = Some x -> firstn (S k) l = firstn k l ++ [x].
Proof.
  revert l. induction k as [| k IH]; intros [| y l] Hk; simpl in *; try discriminate.
  - injection Hk as ->. reflexivity.
  - f_equal. exact (IH l Hk).
Qed.






(** ** [Load] *)

Lemma Reset_Ok w p d :
  nth_error (denses w) p = Some d -> Reset p w = (Ok tt, set_cell w p zero_matrix).
Proof.
  intros Hp. unfold Reset, bind, load_dense. rewrite Hp. reflexivity.
Qed.

(** Decoding into a matrix that was just reset. *)
Lemma UnmarshalBinaryFrom_reset w p bytes :
  (p < length (denses w))%nat ->
  UnmarshalBinaryFrom p bytes (set_cell w p zero_matrix)
  = match bytes with
    | Blob d => if IsEmpty d then (Ok (Some ErrZeroSize), set_cell w p zero_matrix)
                else (Ok None, set_cell w p d)
    | _ => (Ok (Some ErrBadBlob), set_cell w p zero_matrix)
    end.
Proof.
  intros Hp. unfold UnmarshalBinaryFrom, bind, load_dense, set_cell. simpl denses.
  rewrite nth_error_update_same by exact Hp. simpl.
  destruct bytes as [opts | d |]; try reflexivity.
  destruct (IsEmpty d); [reflexivity |].
  unfold store_dense, ret. simpl. rewrite update_update. reflexivity.
Qed.

Lemma zip_Open_decode z name :
  match zip_Open z name with
  | inr e => decode z name = inr e
  | inl bytes =>
      lookup name z = Some bytes /\
      decode z name = match bytes with
                      | Blob d => if IsEmpty d then inr ErrZeroSize else inl d
                      | _ => inr ErrBadBlob
                      end
  end.
Proof.
  unfold zip_Open, decode. destruct (lookup name z) as [bytes |]; auto.
Qed.

(** Reading one matrix of layer [k]: the entry is opened, the matrix reset
    and the blob decoded into it. *)
Lemma load_matrix w n a ls k z name (field : layer -> Matrix) p :
  layers n = SliceOf a -> nth_error (arrays w) a = Some ls ->
  (exists l, nth_error ls k = Some l /\ field l = MDense p) ->
  (p < length (denses w))%nat ->
  forall (rest : M (option error)) (Q : option error -> world -> Prop),
    (lookup name z = None -> Q (Some ErrNotExist) w) ->
    (forall e, lookup name z <> None -> decode z name = inr e ->
               Q (Some e) (set_cell w p zero_matrix)) ->
    (forall d, decode z name = inl d -> returns rest (set_cell w p d) Q) ->
    returns
      (match zip_Open z name with
       | inr err => ret (Some err)
       | inl bytes =>
           l <- layers_at (layers n) (Z.of_nat k) ;;
           p <- as_Dense (field l) ;;
           Reset p ;;;
           l <- layers_at (layers n) (Z.of_nat k) ;;
           p <- as_Dense (field l) ;;
           err <- UnmarshalBinaryFrom p bytes ;;
           match err with
           | Some e => ret (Some e)
           | None => rest
           end
       end) w Q.
Proof.
  intros Hn Harr (l & Hl & Hfield) Hp rest Q Hmissing Hbad Hok.
  unfold zip_Open. unfold decode in Hbad, Hok.
  destruct (lookup name z) as [bytes |]; [| apply returns_ret; apply Hmissing; reflexivity].
  assert (Hat : forall w', arrays w' = arrays w ->
                           layers_at (layers n) (Z.of_nat k) w' = (Ok l, w')).
  { intros w' Ha. apply (layers_at_Ok w' _ ls); [| exact Hl].
    rewrite Hn. simpl. rewrite Ha, Harr. reflexivity. }
  destruct (nth_error (denses w) p) as [d0 |] eqn:Hd0;
    [| apply nth_error_None in Hd0; lia].
  bind_eq ltac:(apply Hat; reflexivity).
  rewrite Hfield. bind_eq ltac:(reflexivity).
  bind_eq ltac:(apply (Reset_Ok w p d0 Hd0)).
  bind_eq ltac:(apply Hat; reflexivity).
  rewrite Hfield. bind_eq ltac:(reflexivity).
  pose proof (UnmarshalBinaryFrom_reset w p bytes Hp) as Hun.
  destruct bytes as [opts | d |].
  - bind_eq ltac:(exact Hun). apply returns_ret. apply Hbad; [discriminate | reflexivity].
  - destruct (IsEmpty d).
    + bind_eq ltac:(exact Hun). apply returns_ret. apply Hbad; [discriminate | reflexivity].
    + bind_eq ltac:(exact Hun). apply Hok. reflexivity.
  - bind_eq ltac:(exact Hun). apply returns_ret. apply Hbad; [discriminate | reflexivity].
Qed.

Lemma set_cell_same w p d :
  (p < length (denses w))%nat -> nth_error (denses (set_cell w p d)) p = Some d.
Proof. intros Hp. simpl. apply nth_error_update_same; exact Hp. Qed.

Lemma set_cell_other w p d q :
  q <> p -> nth_error (denses (set_cell w p d)) q = nth_error (denses w) q.
Proof. intros Hq. simpl. apply nth_error_update_other; exact Hq. Qed.

Lemma set_cell_length w p d : length (denses (set_cell w p d)) = length (denses w).
Proof. simpl. apply length_update. Qed.

(** The loop of [Load] never panics on the network [NewNetwork] has just
    built: it either reports the first entry that is missing or cannot be
    decoded, or leaves every matrix of the layers it covers holding the
    matrix of its blob, whatever the dimensions of that matrix. *)
Lemma Load_layers_returns n a ls base z opts :
  layers n = SliceOf a ->
  forall count idx w,
    nth_error (arrays w) a = Some ls ->
    (forall j, (idx <= j < idx + count)%nat -> nth_error ls j = Some (built_layer base j)) ->
    (base + 2 * (idx + count) <= length (denses w))%nat ->
    (idx + count <= length (WPaths opts))%nat ->
    (idx + count <= length (BPaths opts))%nat ->
    returns (Load_layers count (Z.of_nat idx) n opts z) w (fun r w' =>
      arrays w' = arrays w /\ length (denses w') = length (denses w) /\
      rand_source w' = rand_source w /\ files w' = files w /\ stdout w' = stdout w /\
      (forall q, (q < base + 2 * idx \/ base + 2 * (idx + count) <= q)%nat ->
                 nth_error (denses w') q = nth_error (denses w) q) /\
      match r with
      | None =>
          forall j, (idx <= j < idx + count)%nat ->
            exists wp bp W B,
              nth_error (WPaths opts) j = Some wp /\ nth_error (BPaths opts) j = Some bp /\
              decode z wp = inl W /\ decode z bp = inl B /\
              nth_error (denses w') (base + 2 * j) = Some W /\
              nth_error (denses w') (base + 2 * j + 1) = Some B
      | Some e =>
          exists j wp bp,
            (idx <= j < idx + count)%nat /\
            nth_error (WPaths opts) j = Some wp /\ nth_error (BPaths opts) j = Some bp /\
            (decode z wp = inr e \/ decode z bp = inr e)
      end).
Proof.
  intros Hn count.
  induction count as [| count IH]; intros idx w Harr Hls Hlen HW HB.
  - simpl. apply returns_ret. repeat split; auto. intros j Hj; lia.
  - cbn [Load_layers].
    destruct (nth_error (WPaths opts) idx) as [wp |] eqn:Hwp;
      [| apply nth_error_None in Hwp; lia].
    destruct (nth_error (BPaths opts) idx) as [bp |] eqn:Hbp;
      [| apply nth_error_None in Hbp; lia].
    set (p := (base + 2 * idx)%nat). set (q := (base + 2 * idx + 1)%nat).
    assert (Hlayer : nth_error ls idx = Some (built_layer base idx)) by (apply Hls; lia).
    bind_eq ltac:(apply index_Ok; exact Hwp).
    apply (load_matrix w n a ls idx z wp weights p Hn Harr).
    { eexists; split; [exact Hlayer | reflexivity]. }
    { unfold p; lia. }
    + (* the weights entry is missing *)
      intros Hnone. repeat split; auto.
      exists idx, wp, bp. repeat split; auto; try lia.
      left. unfold decode. rewrite Hnone. reflexivity.
    + (* the weights entry does not decode *)
      intros e _ Hdec.
      split; [reflexivity | split; [apply set_cell_length | repeat split; auto]].
      * intros k Hk. apply set_cell_other. unfold p; lia.
      * exists idx, wp, bp. repeat split; auto; lia.
    + intros W HdecW.
      set (w1 := set_cell w p W).
      bind_eq ltac:(apply index_Ok; exact Hbp).
      apply (load_matrix w1 n a ls idx z bp biases q Hn Harr).
      { eexists; split; [exact Hlayer | reflexivity]. }
      { unfold w1. rewrite set_cell_length. unfold q; lia. }
      * intros Hnone.
        split; [reflexivity | split; [apply set_cell_length | repeat split; auto]].
        -- intros k Hk. apply set_cell_other. unfold p; lia.
        -- exists idx, wp, bp. repeat split; auto; try lia.
           right. unfold decode. rewrite Hnone. reflexivity.
      * intros e _ Hdec.
        split; [reflexivity | split; [unfold w1; rewrite !set_cell_length; reflexivity
                                     | repeat split; auto]].
        -- intros k Hk. unfold w1.
           rewrite !set_cell_other by (unfold p, q; lia). reflexivity.
        -- exists idx, wp, bp. repeat split; auto; lia.
      * intros B HdecB.
        set (w2 := set_cell w1 q B).
        replace (Z.of_nat idx + 1) with (Z.of_nat (S idx)) by lia.
        assert (Hlen2 : length (denses w2) = length (denses w))
          by (unfold w2, w1; rewrite !set_cell_length; reflexivity).
        eapply returns_mono.
        -- apply (IH (S idx) w2); auto.
           ++ intros j Hj. apply Hls. lia.
           ++ rewrite Hlen2. lia.
           ++ lia.
           ++ lia.
        -- intros r w' (Ha & Hl & Hr & Hf & Hs & Hframe & Hres).
           split; [exact Ha | split; [congruence | repeat split; auto]].
           ++ intros k Hk. rewrite Hframe by lia.
              unfold w2, w1. rewrite !set_cell_other by (unfold p, q; lia). reflexivity.
           ++ destruct r as [e |].
              ** destruct Hres as (j & wp' & bp' & Hj & H1 & H2 & H3).
                 exists j, wp', bp'. repeat split; auto; lia.
              ** intros j Hj. destruct (Nat.eq_dec j idx) as [-> | Hne].
                 --- exists wp, bp, W, B. repeat split; auto.
                     +++ rewrite Hframe by lia. unfold w2.
                         rewrite set_cell_other by (unfold q; lia).
                         apply set_cell_same. unfold p; lia.
                     +++ rewrite Hframe by lia.
                         apply set_cell_same. unfold w1. rewrite set_cell_length.
                         unfold q; lia.
                 --- apply Hres. lia.
Qed.

Lemma prefix_pointwise {A} (l l' : list A) :
  (length l <= length l')%nat ->
  (forall q, (q < length l)%nat -> nth_error l' q = nth_error l q) ->
  exists more, l' = l ++ more.
Proof.
  intros Hlen Hsame. exists (skipn (length l) l').
  rewrite <- (firstn_skipn (length l) l') at 1. f_equal.
  apply nth_error_ext. intros q.
  destruct (Nat.lt_ge_cases q (length l)) as [Hq | Hq].
  - rewrite nth_error_firstn. destruct (Nat.ltb_spec q (length l)); [| lia].
    apply Hsame; exact Hq.
  - rewrite (proj2 (nth_error_None l q)) by exact Hq.
    apply nth_error_None. rewrite length_firstn. lia.
Qed.

(** [Load] on an archive whose metadata [NewNetwork] accepts: either the
    first blob that is missing or does not decode is reported and the zero
    [Network] returned, or the network of the metadata is returned with
    every matrix replaced by the one its blob decodes to. *)
Lemma Load_returns w filename z opts :
  lookup filename (files w) = Some (ZipFile z) ->
  lookup "meta.json"%string z = Some (Json opts) ->
  usable_options opts ->
  returns (Load filename) w (fun r w' =>
    dense_kept w w' /\
    (exists ls, arrays w' = arrays w ++ [ls]) /\
    match snd r with
    | Some e =>
        fst r = zero_Network /\
        exists j wp bp,
          (j <= length (optH opts))%nat /\
          nth_error (WPaths opts) j = Some wp /\ nth_error (BPaths opts) j = Some bp /\
          (decode z wp = inr e \/ decode z bp = inr e)
    | None =>
        fst r = mkNetwork (optI opts) (optO opts) (len (optH opts) + 1) (optH opts)
                          (SliceOf (length (arrays w))) (Learn opts) /\
        exists V,
          network_values w' (fst r) = Some V /\ length V = S (length (optH opts)) /\
          forall j, (j <= length (optH opts))%nat ->
            exists wp bp W B,
              nth_error (WPaths opts) j = Some wp /\ nth_error (BPaths opts) j = Some bp /\
              decode z wp = inl W /\ decode z bp = inl B /\
              nth_error V j = Some (W, B)
    end).
Proof.
  intros Hfile Hmeta (Hne & Hi & Ho & Hpos & HWl & HBl).
  unfold Load.
  bind_eq ltac:(unfold zip_OpenReader; rewrite Hfile; reflexivity).
  unfold zip_Open. rewrite Hmeta. cbn [json_Unmarshal].
  apply returns_bind.
  eapply returns_mono;
    [apply (NewNetwork_returns w _ _ _ (Learn opts) Hne Hi Ho Hpos) |].
  intros n w1 (-> & Hbuilt & Hnet1).
  destruct Hbuilt as (Hkept & Hlen1 & Hcells & (ls & Harr & Hlsn & Hls) & Hr & Hf & Hs).
  cbn [h]. replace (Z.to_nat (len (optH opts) + 1)) with (S (length (optH opts)))
    by (unfold len; lia).
  set (n := mkNetwork (optI opts) (optO opts) (len (optH opts) + 1) (optH opts)
                      (SliceOf (length (arrays w))) (Learn opts)).
  set (base := length (denses w)) in *.
  assert (Harr1 : nth_error (arrays w1) (length (arrays w)) = Some ls).
  { rewrite Harr, nth_error_app2 by lia. rewrite Nat.sub_diag. reflexivity. }
  apply returns_bind.
  eapply returns_mono.
  { apply (Load_layers_returns n (length (arrays w)) ls base z opts eq_refl
             (S (length (optH opts))) O w1 Harr1).
    - intros j Hj. apply Hls. lia.
    - lia.
    - lia.
    - lia. }
  intros r w2 (Ha2 & Hl2 & Hr2 & Hf2 & Hs2 & Hframe & Hres).
  assert (Hkept2 : dense_kept w w2).
  { destruct Hkept as [more1 Hmore1].
    apply prefix_pointwise.
    - rewrite Hl2, Hmore1, length_app. lia.
    - intros q Hq. rewrite Hframe by (fold base in Hq; lia).
      rewrite Hmore1. apply nth_error_app1. exact Hq. }
  destruct r as [e |]; apply returns_ret; cbn [fst snd].
  - split; [exact Hkept2 | split; [exists ls; congruence |]].
    split; [reflexivity |].
    destruct Hres as (j & wp & bp & Hj & H1 & H2 & H3).
    exists j, wp, bp. repeat split; auto; lia.
  - split; [exact Hkept2 | split; [exists ls; congruence |]].
    split; [reflexivity |].
    assert (Hvals : forall j, (j < S (length (optH opts)))%nat ->
      exists wp bp W B,
        nth_error (WPaths opts) j = Some wp /\ nth_error (BPaths opts) j = Some bp /\
        decode z wp = inl W /\ decode z bp = inl B /\
        layer_value w2 (built_layer base j) = Some (W, B)).
    { intros j Hj. destruct (Hres j ltac:(lia)) as (wp & bp & W & B & H1 & H2 & H3 & H4 & H5 & H6).
      exists wp, bp, W, B. repeat split; auto.
      unfold layer_value, built_layer. cbn [weights biases]. rewrite H5, H6. reflexivity. }
    (* the values, layer by layer *)
    assert (HV : exists V, layer_values w2 ls = Some V /\ length V = length ls /\
                 forall j l, nth_error ls j = Some l ->
                             exists v, nth_error V j = Some v /\ layer_value w2 l = Some v).
    { assert (Hall : forall l, In l ls -> exists v, layer_value w2 l = Some v).
      { intros l Hin. destruct (In_nth_error _ _ Hin) as [j Hj].
        assert (Hjl : (j < S (length (optH opts)))%nat)
          by (rewrite <- Hlsn; apply nth_error_Some; congruence).
        rewrite (Hls j Hjl) in Hj. injection Hj as <-.
        destruct (Hvals j Hjl) as (_ & _ & W & B & _ & _ & _ & _ & Hv). eauto. }
      clear - Hall. induction ls as [| l ls IHls].
      - exists []. repeat split; auto. intros j l Hj. destruct j; discriminate.
      - destruct (Hall l (or_introl eq_refl)) as [v Hv].
        destruct IHls as (V & HV & HlenV & HnthV); [intros l' Hl'; apply Hall; right; exact Hl' |].
        exists (v :: V). simpl. rewrite Hv, HV.
        split; [reflexivity | split; [lia |]].
        intros j l' Hj. destruct j as [| j]; simpl in *.
        + injection Hj as <-. eauto.
        + apply HnthV. exact Hj. }
    destruct HV as (V & HV & HlenV & HnthV).
    exists V. split; [| split; [lia |]].
    + unfold network_values, network_layers. cbn [layers n]. rewrite Ha2, Harr1. exact HV.
    + intros j Hj.
      destruct (Hvals j ltac:(lia)) as (wp & bp & W & B & H1 & H2 & H3 & H4 & Hv).
      exists wp, bp, W, B. repeat split; auto.
      destruct (HnthV j _ (Hls j ltac:(lia))) as (v & Hnv & Hlv).
      rewrite Hv in Hlv. congruence.
Qed.

(** ** C5: saving then loading *)





(** C5. The round trip breaks on a network without hidden layer, which the
    invariant allows: [Save] writes the single-layer network of the worked
    example and returns no error, and [Load] of the file it wrote panics
    with an index out of range, in [NewNetwork] on the empty hidden-size
    list it read back.  The zero value of [Network] behaves the same. *)
Theorem Save_then_Load_without_hidden_layers_panics :
  network_in single_world single_net single_values /\
  (exists w1, Save single_net "net.zip" single_world = (Ok None, w1) /\
              fst (Load "net.zip" w1) = Panic IndexOutOfRange) /\
  (exists w1, Save zero_Network "net.zip" empty_world = (Ok None, w1) /\
              fst (Load "net.zip" w1) = Panic IndexOutOfRange) /\
  ~ round_trips single_world single_net single_values "net.zip".
Proof.
  assert (Hsaved : exists w1, Save single_net "net.zip" single_world = (Ok None, w1) /\
                              fst (Load "net.zip" w1) = Panic IndexOutOfRange).
  { eexists. split; reals_kept; reflexivity. }
  split; [| split; [exact Hsaved | split]].
  - split; [reflexivity |].
    unfold topology; simpl. repeat split; reflexivity || lia.
  - eexists. split; reals_kept; reflexivity.
  - intros (err & w1 & Hsave & _ & (r & w2 & Hload & _)).
    destruct Hsaved as (w1' & Hsave' & Hpanic).
    rewrite Hsave in Hsave'. injection Hsave' as _ <-.
    rewrite Hload in Hpanic. discriminate.
Qed.

(** ** C6: what [Load] rejects *)




(* ================================================================= *)
(** ** Further properties of the helpers *)





(** X3. [dSigmoid] is the derivative of [sigmoid], as its comment says: at
    every point the difference quotient of [sigmoid] tends to [dSigmoid]. *)
Theorem dSigmoid_is_the_derivative (a b c d : Z) (v : R) :
  derivable_pt_lim (sigmoid a b) v (dSigmoid c d v).
Proof.
  pose proof (exp_pos (- v)) as He.
  assert (Hinner : derivable_pt_lim (fct_cte 1 + comp exp (- id))%F v
                     (0 + exp (- v) * - 1)%R).
  { apply derivable_pt_lim_plus; [apply derivable_pt_lim_const |].
    apply derivable_pt_lim_comp.
    - apply derivable_pt_lim_opp. apply derivable_pt_lim_id.
    - apply derivable_pt_lim_exp. }
  pose proof (derivable_pt_lim_div (fct_cte 1) (fct_cte 1 + comp exp (- id))%F v
                0 (0 + exp (- v) * - 1)
                (derivable_pt_lim_const 1 v) Hinner) as Hdiv.
  assert (Hnz : (fct_cte 1 + comp exp (- id))%F v <> 0%R).
  { unfold plus_fct, fct_cte, comp, opp_fct, id. lra. }
  specialize (Hdiv Hnz).
  unfold plus_fct, fct_cte, comp, opp_fct, id, div_fct in Hdiv.
  replace (dSigmoid c d v)
    with ((0 * (1 + exp (- v)) - (0 + exp (- v) * - 1) * 1) / Rsqr (1 + exp (- v)))%R.
  - exact Hdiv.
  - unfold dSigmoid, sigmoid, Rsqr. field. lra.
Qed.




(** The loop of [totalCost], from any index on. *)
Lemma totalCost_loop g : forall e pg pe acc w,
  length pg = length pe -> length g = length e ->
  for_up (length g) (Z.of_nat (length pg))
    (fun idx total =>
       x <- index (pg ++ g) idx ;; y <- index (pe ++ e) idx ;;
       ret (total + (x - y) ^ 2)%R) acc w
  = (Ok (fold_left (fun acc c => (acc + c)%R)
           (map (fun p => ((fst p - snd p) ^ 2)%R) (combine g e)) acc), w).
Proof.
  induction g as [| x g IH]; intros [| y e] pg pe acc w Hp Hlen;
    simpl in Hlen; try discriminate; [reflexivity |].
  cbn [length for_up combine map fold_left fst snd].
  assert (Hx : nth_error (pg ++ x :: g) (length pg) = Some x).
  { rewrite nth_error_app2 by lia. rewrite Nat.sub_diag. reflexivity. }
  assert (Hy : nth_error (pe ++ y :: e) (length pg) = Some y).
  { rewrite Hp, nth_error_app2 by lia. rewrite Nat.sub_diag. reflexivity. }
  rewrite (bind_Ok _ _ _ (acc + (x - y) ^ 2)%R w).
  - replace (Z.of_nat (length pg) + 1) with (Z.of_nat (length (pg ++ [x])))
      by (rewrite length_app; simpl; lia).
    replace (pg ++ x :: g) with ((pg ++ [x]) ++ g) by (rewrite <- app_assoc; reflexivity).
    replace (pe ++ y :: e) with ((pe ++ [y]) ++ e) by (rewrite <- app_assoc; reflexivity).
    apply IH; [rewrite !length_app; simpl; lia | lia].
  - rewrite (bind_Ok _ _ _ _ _ (index_Ok _ _ _ w Hx)).
    rewrite (bind_Ok _ _ _ _ _ (index_Ok _ _ _ w Hy)).
    reflexivity.
Qed.


(** X6. [totalCost] panics with [errInvalidDataSize] when the two vectors
    differ in length, and otherwise returns the sum, in index order from 0,
    of the squared differences of their entries; in both cases it leaves the
    world as it is. *)
Theorem totalCost_is_the_squared_distance (got expected : list R) (w : world) :
  totalCost got expected w
  = ((if (length got =? length expected)%nat
      then Ok (squared_error got expected)
      else Panic errInvalidDataSize), w).
Proof.
  unfold totalCost, len.
  destruct (Nat.eqb_spec (length got) (length expected)) as [Hlen | Hlen].
  - replace (Z.of_nat (length got) =? Z.of_nat (length expected)) with true
      by (symmetry; apply Z.eqb_eq; lia).
    cbn [negb]. exact (totalCost_loop got expected [] [] 0%R w eq_refl Hlen).
  - replace (Z.of_nat (length got) =? Z.of_nat (length expected)) with false
      by (symmetry; apply Z.eqb_neq; lia).
    reflexivity.
Qed.



(** What the three element-wise wrappers do on operands of different
    shapes: the receiver is allocated, then [gonum] panics. *)
Lemma elementwise_mismatch op w m n x y res z :
  denote w m = Some x -> denote w n = Some y ->
  rows x <> rows y \/ cols x <> cols y ->
  elementwise op res m n (push w z) = (Panic ErrShape, push w z).
Proof.
  intros Hm Hn Hne. unfold elementwise.
  step_with (value_denote _ _ _ (denote_push _ z _ _ Hm)).
  step_with (value_denote _ _ _ (denote_push _ z _ _ Hn)).
  replace ((rows x =? rows y)%nat && (cols x =? cols y)%nat) with false; [reflexivity |].
  symmetry. apply andb_false_iff.
  destruct Hne as [Hne | Hne]; [left | right]; apply Nat.eqb_neq; exact Hne.
Qed.

(** X8. On operands of different shapes [add], [sub] and [mul] panic with
    [gonum]'s shape error, and [dot] does when the first operand has not as
    many columns as the second has rows; no matrix that existed is changed
    by the failed call. *)
Theorem wrappers_reject_mismatched_shapes (w : world) (m n : Matrix) (x y : Dense) :
  denote w m = Some x -> denote w n = Some y ->
  (0 < rows x)%nat -> (0 < cols x)%nat -> (0 < cols y)%nat ->
  (rows x <> rows y \/ cols x <> cols y ->
   (fst (add m n w) = Panic ErrShape /\ dense_kept w (snd (add m n w))) /\
   (fst (sub m n w) = Panic ErrShape /\ dense_kept w (snd (sub m n w))) /\
   (fst (mul m n w) = Panic ErrShape /\ dense_kept w (snd (mul m n w)))) /\
  (cols x <> rows y ->
   fst (dot m n w) = Panic ErrShape /\ dense_kept w (snd (dot m n w))).
Proof.
  intros Hm Hn Hr Hc Hcy. split.
  - intros Hne. split; [| split].
    + unfold add. step_with (Dims_denote _ _ _ Hm).
      step_with (NewDense_zero (Z.of_nat (rows x)) (Z.of_nat (cols x)) w
                   ltac:(lia) ltac:(lia)).
      unfold Add.
      rewrite (bind_Panic _ _ _ _ _ (elementwise_mismatch madd w m n x y _ _ Hm Hn Hne)).
      split; [reflexivity | eexists; reflexivity].
    + unfold sub. step_with (Dims_denote _ _ _ Hm).
      step_with (NewDense_zero (Z.of_nat (rows x)) (Z.of_nat (cols x)) w
                   ltac:(lia) ltac:(lia)).
      unfold Sub.
      rewrite (bind_Panic _ _ _ _ _ (elementwise_mismatch msub w m n x y _ _ Hm Hn Hne)).
      split; [reflexivity | eexists; reflexivity].
    + unfold mul. step_with (Dims_denote _ _ _ Hm). step_with (Dims_denote _ _ _ Hn).
      step_with (NewDense_zero (Z.of_nat (rows x)) (Z.of_nat (cols y)) w
                   ltac:(lia) ltac:(lia)).
      unfold MulElem.
      rewrite (bind_Panic _ _ _ _ _
                 (elementwise_mismatch hadamard w m n x y _ _ Hm Hn Hne)).
      split; [reflexivity | eexists; reflexivity].
  - intros Hne. unfold dot.
    step_with (Dims_denote _ _ _ Hm). step_with (Dims_denote _ _ _ Hn).
    step_with (NewDense_zero (Z.of_nat (rows x)) (Z.of_nat (cols y)) w
                 ltac:(lia) ltac:(lia)).
    set (z := zeros (Z.to_nat (Z.of_nat (rows x))) (Z.to_nat (Z.of_nat (cols y)))).
    assert (Hp : Product (length (denses w)) m n (push w z) = (Panic ErrShape, push w z)).
    { unfold Product.
      step_with (value_denote _ _ _ (denote_push _ z _ _ Hm)).
      step_with (value_denote _ _ _ (denote_push _ z _ _ Hn)).
      replace (cols x =? rows y)%nat with false
        by (symmetry; apply Nat.eqb_neq; exact Hne).
      reflexivity. }
    rewrite (bind_Panic _ _ _ _ _ Hp).
    split; [reflexivity | eexists; reflexivity].
Qed.

Lemma wrappers_reject_mismatched_shapes_witness :
  (rows (zeros 1 2) <> rows (zeros 1 1) \/ cols (zeros 1 2) <> cols (zeros 1 1) ->
   (fst (add (MDense 0) (MDense 1) single_world) = Panic ErrShape /\
    dense_kept single_world (snd (add (MDense 0) (MDense 1) single_world))) /\
   (fst (sub (MDense 0) (MDense 1) single_world) = Panic ErrShape /\
    dense_kept single_world (snd (sub (MDense 0) (MDense 1) single_world))) /\
   (fst (mul (MDense 0) (MDense 1) single_world) = Panic ErrShape /\
    dense_kept single_world (snd (mul (MDense 0) (MDense 1) single_world)))) /\
  (cols (zeros 1 2) <> rows (zeros 1 1) ->
   fst (dot (MDense 0) (MDense 1) single_world) = Panic ErrShape /\
   dense_kept single_world (snd (dot (MDense 0) (MDense 1) single_world))).
Proof.
  apply (wrappers_reject_mismatched_shapes single_world (MDense 0) (MDense 1)
           (zeros 1 2) (zeros 1 1)); simpl; try reflexivity; lia.
Defined.

(** X9. On operands that fit, each wrapper returns a newly allocated matrix
    and changes nothing else: [dot] the matrix product, of as many rows as
    the first operand and as many columns as the second, and [add], [sub]
    and [mul] the entry by entry sum, difference and product. *)
Theorem wrappers_return_fresh_results (w : world) (m n : Matrix) (x y : Dense) :
  denote w m = Some x -> denote w n = Some y ->
  (0 < rows x)%nat -> (0 < cols x)%nat -> (0 < cols y)%nat ->
  (cols x = rows y ->
   returns (dot m n) w (fun r w' =>
     exists v, fresh_matrix w v r w' /\ rows v = rows x /\ cols v = cols y /\
       forall j k, (j < rows x)%nat -> (k < cols y)%nat ->
         at_ v j k = sum_upto (cols x) (fun t => at_ x j t * at_ y t k)%R)) /\
  (rows x = rows y -> cols x = cols y ->
   returns (add m n) w (fun r w' =>
     exists v, fresh_matrix w v r w' /\ rows v = rows x /\ cols v = cols x /\
       forall j k, (j < rows x)%nat -> (k < cols x)%nat ->
         at_ v j k = (at_ x j k + at_ y j k)%R) /\
   returns (sub m n) w (fun r w' =>
     exists v, fresh_matrix w v r w' /\ rows v = rows x /\ cols v = cols x /\
       forall j k, (j < rows x)%nat -> (k < cols x)%nat ->
         at_ v j k = (at_ x j k - at_ y j k)%R) /\
   returns (mul m n) w (fun r w' =>
     exists v, fresh_matrix w v r w' /\ rows v = rows x /\ cols v = cols x /\
       forall j k, (j < rows x)%nat -> (k < cols x)%nat ->
         at_ v j k = (at_ x j k * at_ y j k)%R)).
Proof.
  intros Hm Hn Hr Hc Hcy. split.
  - intros Hxy.
    eapply returns_mono; [exact (dot_returns w m n x y Hm Hn Hxy Hr Hcy) |].
    intros r w' Hfresh. exists (matmul x y).
    split; [exact Hfresh |]. split; [reflexivity |]. split; [reflexivity |].
    intros j k Hj Hk. apply at_matmul; assumption.
  - intros Hrows Hcols. split; [| split].
    + eapply returns_mono; [exact (add_returns w m n x y Hm Hn Hrows Hcols Hr Hc) |].
      intros r w' Hfresh. exists (madd x y).
      split; [exact Hfresh |]. split; [reflexivity |]. split; [reflexivity |].
      intros j k Hj Hk. apply at_madd; assumption.
    + eapply returns_mono; [exact (sub_returns w m n x y Hm Hn Hrows Hcols Hr Hc) |].
      intros r w' Hfresh. exists (msub x y).
      split; [exact Hfresh |]. split; [reflexivity |]. split; [reflexivity |].
      intros j k Hj Hk. apply at_msub; assumption.
    + eapply returns_mono; [exact (mul_returns w m n x y Hm Hn Hrows Hcols Hr Hc) |].
      intros r w' Hfresh. exists (hadamard x y).
      split; [exact Hfresh |]. split; [reflexivity |]. split; [reflexivity |].
      intros j k Hj Hk. apply at_hadamard; assumption.
Qed.

Lemma wrappers_return_fresh_results_witness :
  returns (dot (MDense 0) (MDense 1)) xor_world (fun r w' =>
    exists v, fresh_matrix xor_world v r w' /\ rows v = 2%nat /\ cols v = 1%nat /\
      forall j k, (j < 2)%nat -> (k < 1)%nat ->
        at_ v j k = sum_upto 2 (fun t => at_ (zeros 2 2) j t * at_ (zeros 2 1) t k)%R).
Proof.
  apply (proj1 (wrappers_return_fresh_results xor_world (MDense 0) (MDense 1)
                  (zeros 2 2) (zeros 2 1) eq_refl eq_refl
                  ltac:(simpl; lia) ltac:(simpl; lia) ltac:(simpl; lia))).
  reflexivity.
Defined.

(* ================================================================= *)
(** ** Further properties of construction *)




Lemma bind_panics {A B} (c : M A) (k : A -> M B) w :
  (exists e, fst (c w) = Panic e) -> exists e, fst (bind c k w) = Panic e.
Proof.
  intros (e & He). exists e. unfold bind.
  destruct (c w) as [[a | e'] w']; simpl in *; [discriminate |].
  injection He as ->. reflexivity.
Qed.

Lemma bind_panics_after {A B} (c : M A) (k : A -> M B) w :
  (forall a w', exists e, fst (k a w') = Panic e) -> exists e, fst (bind c k w) = Panic e.
Proof.
  intros Hk. unfold bind.
  destruct (c w) as [[a | e'] w']; [apply Hk | eexists; reflexivity].
Qed.

(** A non-positive size makes [newLayer] panic, in [make] or in
    [mat.NewDense]. *)
Lemma newLayer_panics r c random w :
  r <= 0 \/ c <= 0 -> exists e, fst (newLayer r c random w) = Panic e.
Proof.
  intros Hbad. unfold newLayer.
  assert (HN : forall content w1, exists e, fst (NewDense r c content w1) = Panic e).
  { intros content w1. unfold NewDense.
    replace ((r <=? 0) || (c <=? 0)) with true
      by (symmetry; apply orb_true_iff;
          destruct Hbad; [left | right]; apply Z.leb_le; assumption).
    destruct ((r =? 0) || (c =? 0)); eexists; reflexivity. }
  destruct random.
  - destruct (Z_lt_le_dec (r * c) 0) as [Hneg | Hpos].
    + exists MakeSliceLen. unfold randomArray, bind, make.
      replace (r * c <? 0) with true by (symmetry; apply Z.ltb_lt; exact Hneg).
      reflexivity.
    + destruct (randomArray_returns (r * c) (-1) 1 w Hpos) as (wd & w1 & Hrun & _).
      rewrite (bind_Ok _ _ _ _ _ Hrun).
      apply bind_panics, HN.
  - apply bind_panics, HN.
Qed.

(** A loop whose round [j] panics from every state panics. *)
Lemma for_up_panics {St} (body : Z -> St -> M St) j :
  forall count start s w,
    (j < count)%nat ->
    (forall s w, exists e, fst (body (start + Z.of_nat j) s w) = Panic e) ->
    exists e, fst (for_up count start body s w) = Panic e.
Proof.
  induction j as [| j IH]; intros [| count] start s w Hj Hbody; try lia.
  - cbn [for_up]. apply bind_panics.
    specialize (Hbody s w). simpl in Hbody. rewrite Z.add_0_r in Hbody. exact Hbody.
  - cbn [for_up]. unfold bind at 1.
    destruct (body start s w) as [[s' | e'] w']; [| eexists; reflexivity].
    apply IH; [lia |].
    intros s0 w0. replace (start + 1 + Z.of_nat j) with (start + Z.of_nat (S j)) by lia.
    apply Hbody.
Qed.

(** X11. [NewNetwork] never returns when the input size, the output size or
    one of the (one or more) hidden sizes is zero or negative: it panics
    while building the first layer that has that size for its rows or its
    columns, if not before. *)
Theorem NewNetwork_rejects_nonpositive_sizes
  (inputs outputs : Z) (hid : list Z) (learn : R) (random : bool) (w : world) :
  hid <> [] ->
  inputs <= 0 \/ outputs <= 0 \/ Exists (fun s => s <= 0) hid ->
  exists e, fst (NewNetwork inputs outputs hid learn random w) = Panic e.
Proof.
  intros Hne Hbad.
  assert (Hlen : (0 < length hid)%nat) by (destruct hid; [congruence | simpl; lia]).
  assert (Hround : exists j, (j < S (length hid))%nat /\
            (nth j (hid ++ [outputs]) 0 <= 0 \/ nth j (inputs :: hid) 0 <= 0)).
  { destruct Hbad as [Hi | [Ho | Hh]].
    - exists O. split; [lia | right; exact Hi].
    - exists (length hid). split; [lia | left].
      rewrite app_nth2 by lia. rewrite Nat.sub_diag. exact Ho.
    - apply Exists_exists in Hh. destruct Hh as (s & Hin & Hs).
      destruct (In_nth hid s 0 Hin) as (j & Hj & Hnth).
      exists j. split; [lia | left]. rewrite app_nth1 by exact Hj. rewrite Hnth. exact Hs. }
  destruct Hround as (j & Hj & Hsizes).
  unfold NewNetwork. apply bind_panics_after. intros layers w0.
  apply bind_panics.
  replace (Z.to_nat (len hid + 1)) with (S (length hid)) by (unfold len; lia).
  apply (for_up_panics _ j); [exact Hj |].
  intros [] w1. rewrite Z.add_0_l.
  destruct j as [| j].
  - simpl (Z.of_nat 0 =? 0). cbv iota.
    rewrite (bind_Ok _ _ _ _ _ (hidden_at hid 0 0 w1 Hlen)).
    apply bind_panics, newLayer_panics.
    rewrite app_nth1 in Hsizes by exact Hlen. exact Hsizes.
  - replace (Z.of_nat (S j) =? 0) with false by (symmetry; apply Z.eqb_neq; lia).
    destruct (Nat.eq_dec (S j) (length hid)) as [Hend | Hmid].
    + replace (Z.of_nat (S j) =? len hid) with true
        by (symmetry; apply Z.eqb_eq; unfold len; lia).
      replace (Z.of_nat (S j) - 1) with (Z.of_nat j) by lia.
      rewrite (bind_Ok _ _ _ _ _ (hidden_at hid 0 j w1 ltac:(lia))).
      apply bind_panics, newLayer_panics.
      change (nth (S j) (inputs :: hid) 0) with (nth j hid 0) in Hsizes.
      rewrite app_nth2 in Hsizes by lia.
      replace (S j - length hid)%nat with O in Hsizes by lia. exact Hsizes.
    + replace (Z.of_nat (S j) =? len hid) with false
        by (symmetry; apply Z.eqb_neq; unfold len; lia).
      rewrite (bind_Ok _ _ _ _ _ (hidden_at hid 0 (S j) w1 ltac:(lia))).
      replace (Z.of_nat (S j) - 1) with (Z.of_nat j) by lia.
      rewrite (bind_Ok _ _ _ _ _ (hidden_at hid 0 j w1 ltac:(lia))).
      apply bind_panics, newLayer_panics.
      rewrite app_nth1 in Hsizes by lia. exact Hsizes.
Qed.

Lemma NewNetwork_rejects_nonpositive_sizes_witness :
  exists e, fst (NewNetwork 2 1 [3; 0] (1 / 10) true empty_world) = Panic e.
Proof.
  apply (NewNetwork_rejects_nonpositive_sizes 2 1 [3; 0] (1 / 10) true empty_world).
  - discriminate.
  - right. right. apply Exists_cons_tl. apply Exists_cons_hd. lia.
Defined.








(* ================================================================= *)
(** ** Further properties of [Calc] and [backpropagate] *)

Lemma map_seq_const {A} (f : nat -> A) (v : A) n :
  (forall k, (k < n)%nat -> f k = v) -> map f (seq 0 n) = repeat v n.
Proof.
  induction n as [| n IH]; intros Hf; [reflexivity |].
  rewrite seq_S, map_app, IH by (intros; apply Hf; lia).
  simpl. rewrite (Hf n) by lia. symmetry. apply repeat_cons.
Qed.

Lemma zero_values_zero n_in sizes : zero_layers (zero_values n_in sizes).
Proof.
  revert n_in. induction sizes as [| s sizes IH]; intros n_in; simpl; constructor.
  - split; apply Forall_forall; intros x Hx; apply repeat_spec in Hx; exact Hx.
  - apply IH.
Qed.

(** Whatever comes in, a network whose matrices are all zero puts out one
    half at every output. *)
Lemma zero_forward L : forall n_in sizes x,
  shaped n_in sizes L -> zero_layers L -> L <> [] -> cols x = 1%nat ->
  entries (forward L x) = repeat (1 / 2)%R (Z.to_nat (last sizes 0)).
Proof.
  induction L as [| [W B] L IH]; intros n_in sizes x Hshape Hzero Hne Hx; [congruence |].
  destruct sizes as [| s sizes]; [simpl in Hshape; tauto |].
  destruct Hshape as (Hs & HrW & HcW & HrB & HcB & Hrest).
  apply Forall_cons_iff in Hzero. destruct Hzero as ((HW & HB) & Hzero).
  simpl in HW, HB.
  destruct L as [| WB1 L].
  - destruct sizes; [| simpl in Hrest; tauto].
    cbn [forward last]. unfold entries.
    change (rows (activation W B x)) with (rows W).
    replace (Z.to_nat s) with (rows W) by lia.
    apply map_seq_const. intros k Hk.
    apply zero_activation; try assumption. lia.
  - destruct sizes as [| s1 sizes]; [destruct WB1; simpl in Hrest; tauto |].
    change (last (s :: s1 :: sizes) 0) with (last (s1 :: sizes) 0).
    change (forward ((W, B) :: WB1 :: L) x) with (forward (WB1 :: L) (activation W B x)).
    apply (IH s (s1 :: sizes)); [exact Hrest | exact Hzero | discriminate | exact Hx].
Qed.

(** X13. A network just built without the random flag answers one half at
    every output, whatever the input: [NewNetwork] followed by [Calc] on a
    vector of the input size returns [outputs] copies of 0.5. *)
Theorem fresh_network_outputs_one_half
  (w : world) (inputs outputs : Z) (hid : list Z) (learn : R) (data : list R) :
  hid <> [] -> 0 < inputs -> 0 < outputs -> Forall (fun s => 0 < s) hid ->
  len data = inputs ->
  returns (n <- NewNetwork inputs outputs hid learn false ;; Calc n data) w
          (fun out _ => out = repeat (1 / 2)%R (Z.to_nat outputs)).
Proof.
  intros Hne Hin Hout Hpos Hdata.
  apply returns_bind.
  eapply returns_mono; [exact (NewNetwork_returns w inputs outputs hid learn Hne Hin Hout Hpos) |].
  intros n w1 (Hn & _ & Hnet).
  assert (Hlen : len data = i n) by (rewrite Hn; exact Hdata).
  eapply returns_mono; [exact (Calc_returns w1 n _ data Hnet Hlen) |].
  intros out w2 (-> & _).
  destruct Hnet as (_ & _ & _ & Hshape). rewrite Hn in Hshape. simpl in Hshape.
  rewrite (zero_forward _ inputs (hid ++ [outputs]) (column data) Hshape).
  - rewrite last_last. reflexivity.
  - apply zero_values_zero.
  - intros Hnil. apply (f_equal (@length _)) in Hnil.
    rewrite (shaped_length _ _ _ Hshape), length_app in Hnil. simpl in Hnil. lia.
  - reflexivity.
Qed.

Lemma fresh_network_outputs_one_half_witness :
  returns (n <- NewNetwork 2 1 [2] (1 / 10) false ;; Calc n [1%R; 0%R]) empty_world
          (fun out _ => out = repeat (1 / 2)%R (Z.to_nat 1)).
Proof.
  apply (fresh_network_outputs_one_half empty_world 2 1 [2] (1 / 10) [1%R; 0%R]).
  - discriminate.
  - lia.
  - lia.
  - repeat constructor.
  - reflexivity.
Defined.

(** X14. [backpropagate] checks both lengths before anything else: when the
    input has not the input size or the expected output has not the output
    size it panics with [errInvalidDataSize], having allocated and written
    nothing. *)
Theorem backpropagate_rejects_wrong_sizes
  (n : Network) (inputData expectedData : list R) (w : world) :
  len inputData <> i n \/ len expectedData <> o n ->
  backpropagate n inputData expectedData w = (Panic errInvalidDataSize, w).
Proof.
  intros Hbad. unfold backpropagate.
  replace (negb (len inputData =? i n) || negb (len expectedData =? o n)) with true;
    [reflexivity |].
  symmetry. apply orb_true_iff.
  destruct Hbad as [Hi | Ho]; [left | right];
    apply negb_true_iff, Z.eqb_neq; assumption.
Qed.

Lemma backpropagate_rejects_wrong_sizes_witness :
  backpropagate xor_net [1%R; 0%R] [1%R; 1%R] xor_world
  = (Panic errInvalidDataSize, xor_world).
Proof.
  apply (backpropagate_rejects_wrong_sizes xor_net [1%R; 0%R] [1%R; 1%R] xor_world).
  right. simpl. discriminate.
Defined.

(** X15. [backpropagate] keeps the topology invariant: afterwards the
    network has as many layers, every matrix has the shape it had, no
    matrix object that existed has been written (the layers point at new
    ones), no layer array of another network has been written, and the
    random source, the files and the standard output are untouched. *)
Theorem backpropagate_keeps_the_invariant
  (w : world) (n : Network) (L : list (Dense * Dense)) (inputData expectedData : list R) :
  network_in w n L -> len inputData = i n -> len expectedData = o n ->
  returns (backpropagate n inputData expectedData) w (fun _ w' =>
    exists L',
      network_in w' n L' /\ length L' = length L /\
      (forall k W B, nth_error L k = Some (W, B) ->
         exists W' B', nth_error L' k = Some (W', B') /\
           rows W' = rows W /\ cols W' = cols W /\
           rows B' = rows B /\ cols B' = cols B) /\
      dense_kept w w' /\
      (forall a', layers n <> SliceOf a' -> (a' < length (arrays w))%nat ->
                  nth_error (arrays w') a' = nth_error (arrays w) a') /\
      rand_source w' = rand_source w /\ files w' = files w /\ stdout w' = stdout w).
Proof.
  intros Hnet Hin Hex.
  destruct (backpropagate_returns w n L inputData expectedData Hnet Hin Hex)
    as (a & Ha & Hrun).
  eapply returns_mono; [exact Hrun |].
  intros [] w' (((Hkept & Hlen & Hother) & Hr & Hf & Hs) & Hnet').
  exists (updated (learnRate n) L inputData expectedData).
  split; [exact Hnet' |].
  split; [apply backward_length |].
  split.
  - intros k W B Hk.
    destruct (backward_nth (learnRate n) (column expectedData) L (column inputData) k W B Hk)
      as (delta & _ & Hv & _).
    cbv zeta in Hv. do 2 eexists. split; [exact Hv |]. repeat split.
  - split; [exact Hkept |]. split; [| auto].
    intros a' Ha' Hlt. apply Hother; [| exact Hlt]. congruence.
Qed.

Lemma backpropagate_keeps_the_invariant_witness :
  returns (backpropagate xor_net [1%R; 0%R] [1%R]) xor_world (fun _ w' =>
    exists L', network_in w' xor_net L' /\ length L' = 2%nat).
Proof.
  eapply returns_mono.
  - apply (backpropagate_keeps_the_invariant xor_world xor_net xor_values [1%R; 0%R] [1%R]).
    + exact xor_network_in.
    + reflexivity.
    + reflexivity.
  - intros [] w' (L' & Hnet & Hlen & _). exists L'. split; assumption.
Defined.













(* ================================================================= *)
(** ** Further properties of [Train] *)

(** X18. Without an epoch to run [Train] never touches the network.  With
    [epochs = 0] it prints its first line and then panics with an integer
    division by zero, in the average it computes for its last line; with a
    negative [epochs] it prints its first and last lines and returns. *)
Theorem Train_without_epochs
  (n : Network) (inputs expected : list (list R)) (epochs : Z) (w : world) :
  len inputs = len expected -> epochs <= 0 ->
  Train n inputs expected epochs w
  = (if epochs =? 0 then Panic IntegerDivideByZero else Ok tt,
     mkWorld (denses w) (arrays w) (rand_source w) (files w)
             (stdout w ++ BeganTraining epochs
                          :: (if epochs =? 0 then [] else [Trained epochs]))).
Proof.
  intros Hlen Hep. unfold Train.
  replace (len inputs =? len expected) with true by (symmetry; apply Z.eqb_eq; exact Hlen).
  cbn [negb].
  replace (Z.to_nat epochs) with O by lia.
  unfold bind, Printf, for_up, ret, throw. cbn [denses arrays rand_source files stdout].
  destruct (epochs =? 0).
  - reflexivity.
  - cbn [denses arrays rand_source files stdout].
    rewrite <- app_assoc. reflexivity.
Qed.

Lemma Train_without_epochs_witness :
  Train xor_net [[1%R; 0%R]] [[1%R]] 0 xor_world
  = (Panic IntegerDivideByZero,
     mkWorld (denses xor_world) (arrays xor_world) (rand_source xor_world)
             (files xor_world) [BeganTraining 0]).
Proof.
  apply (Train_without_epochs xor_net [[1%R; 0%R]] [[1%R]] 0 xor_world).
  - reflexivity.
  - lia.
Defined.

Lemma epoch_run_snoc lr samples : forall L acc x e,
  epoch_run lr L (samples ++ [(x, e)]) acc
  = (updated lr (fst (epoch_run lr L samples acc)) x e,
     (snd (epoch_run lr L samples acc)
      + squared_error e
          (entries (forward (updated lr (fst (epoch_run lr L samples acc)) x e)
                            (column x))))%R).
Proof.
  induction samples as [| [x0 e0] samples IH]; intros L acc x e; [reflexivity |].
  simpl. apply IH.
Qed.

Lemma combine_nth_error {A B} (l : list A) (l' : list B) k x y :
  nth_error l k = Some x -> nth_error l' k = Some y ->
  nth_error (combine l l') k = Some (x, y).
Proof.
  revert l l'. induction k as [| k IH]; intros [| a l] [| b l'] Hx Hy;
    simpl in *; try discriminate.
  - injection Hx as ->. injection Hy as ->. reflexivity.
  - exact (IH l l' Hx Hy).
Qed.

(** One epoch: the inner loop of [Train]. *)
Lemma Train_epoch w n L inputs expected :
  network_in w n L -> length inputs = length expected ->
  Forall (fun x => len x = i n) inputs -> Forall (fun e => len e = o n) expected ->
  returns (for_up (length inputs) 0
             (fun idx avgCost =>
                x <- index inputs idx ;;
                e <- index expected idx ;;
                backpropagate n x e ;;;
                e <- index expected idx ;;
                x <- index inputs idx ;;
                got <- Calc n x ;;
                c <- totalCost e got ;;
                ret (avgCost + c)%R) 0%R) w
    (fun avgCost w' =>
       let r := epoch_run (learnRate n) L (combine inputs expected) 0%R in
       network_in w' n (fst r) /\ avgCost = snd r /\
       dense_kept w w' /\ rand_source w' = rand_source w /\
       files w' = files w /\ stdout w' = stdout w).
Proof.
  intros Hnet Hlen Hin Hex.
  set (samples := combine inputs expected).
  eapply returns_mono.
  - apply (for_up_returns (fun j acc wj =>
      let r := epoch_run (learnRate n) L (firstn j samples) 0%R in
      network_in wj n (fst r) /\ acc = snd r /\
      dense_kept w wj /\ rand_source wj = rand_source w /\
      files wj = files w /\ stdout wj = stdout w)).
    + simpl. repeat split; try reflexivity; try apply Hnet. apply dense_kept_refl.
    + intros j acc wj Hj (Hnetj & Hacc & Hkj & Hrj & Hfj & Hsj). rewrite Z.add_0_l.
      destruct (nth_error inputs j) as [x |] eqn:Hx; [| apply nth_error_None in Hx; lia].
      destruct (nth_error expected j) as [e |] eqn:He; [| apply nth_error_None in He; lia].
      assert (Hxl : len x = i n)
        by exact (proj1 (Forall_forall _ _) Hin _ (nth_error_In _ _ Hx)).
      assert (Hel : len e = o n)
        by exact (proj1 (Forall_forall _ _) Hex _ (nth_error_In _ _ He)).
      bind_eq ltac:(apply index_Ok; exact Hx).
      bind_eq ltac:(apply index_Ok; exact He).
      apply returns_bind.
      destruct (backpropagate_returns wj n _ x e Hnetj Hxl Hel) as (a & _ & Hrun).
      eapply returns_mono; [exact Hrun |].
      intros [] w1 (((Hk1 & _) & Hr1 & Hf1 & Hs1) & Hnet1).
      bind_eq ltac:(apply index_Ok; exact He).
      bind_eq ltac:(apply index_Ok; exact Hx).
      apply returns_bind.
      eapply returns_mono; [exact (Calc_returns w1 n _ x Hnet1 Hxl) |].
      intros got w2 (-> & (Hk2 & Ha2 & Hr2 & Hf2 & Hs2)).
      set (Lj := fst (epoch_run (learnRate n) L (firstn j samples) 0%R)) in *.
      set (L' := updated (learnRate n) Lj x e) in *.
      assert (Hnet2 : network_in w2 n L').
      { destruct Hnet1 as (HL1 & Htop). split; [| exact Htop].
        apply (network_values_allocated w1 w2); [| exact HL1].
        repeat split; assumption. }
      assert (Hlene : length e = length (entries (forward L' (column x)))).
      { rewrite length_entries.
        destruct Hnet1 as (_ & _ & _ & Hshape).
        assert (Hne : L' <> []).
        { intros Hnil. apply (f_equal (@length _)) in Hnil.
          rewrite (shaped_length _ _ _ Hshape), length_app in Hnil. simpl in Hnil. lia. }
        pose proof (shaped_output _ _ _ (column x) Hshape Hne) as Hout.
        rewrite last_last in Hout. unfold len in Hel. lia. }
      apply returns_bind. eapply returns_eq.
      { unfold totalCost, len.
        replace (Z.of_nat (length e) =? Z.of_nat (length (entries (forward L' (column x)))))
          with true by (symmetry; apply Z.eqb_eq; lia).
        cbn [negb]. exact (totalCost_loop e _ [] [] 0%R w2 eq_refl Hlene). }
      apply returns_ret. cbv zeta.
      rewrite (firstn_snoc samples j (x, e)) by (apply combine_nth_error; assumption).
      rewrite epoch_run_snoc. cbn [fst snd]. fold Lj. fold L'.
      split; [exact Hnet2 |]. split; [rewrite Hacc; reflexivity |].
      split; [exact (dense_kept_trans _ _ _ Hkj (dense_kept_trans _ _ _ Hk1 Hk2)) |].
      split; [congruence |]. split; congruence.
  - intros avgCost w' Hinv. cbv zeta in Hinv.
    rewrite firstn_all2 in Hinv
      by (unfold samples; rewrite length_combine; lia).
    exact Hinv.
Qed.

(** X19. On a well-formed network, example lists of one length whose
    vectors have the input and the output size, and a positive number of
    epochs, [Train] returns.  The network then holds the matrices obtained
    by updating on every example in order, epoch after epoch; the standard
    output has gained the first line, one line per epoch with the average
    over the examples of the squared error measured right after each
    update, and the last line; nothing else has changed. *)
Theorem Train_is_repeated_backpropagation
  (w : world) (n : Network) (L : list (Dense * Dense))
  (inputs expected : list (list R)) (epochs : Z) :
  network_in w n L -> length inputs = length expected ->
  Forall (fun x => len x = i n) inputs -> Forall (fun e => len e = o n) expected ->
  0 < epochs ->
  returns (Train n inputs expected epochs) w (fun _ w' =>
    let samples := combine inputs expected in
    network_in w' n (train_state (learnRate n) L samples (Z.to_nat epochs)) /\
    stdout w' = stdout w ++ training_log (learnRate n) L samples epochs /\
    dense_kept w w' /\ rand_source w' = rand_source w /\ files w' = files w).
Proof.
  intros Hnet Hlen Hin Hex Hep. unfold Train.
  replace (len inputs =? len expected) with true
    by (symmetry; apply Z.eqb_eq; unfold len; lia).
  cbn [negb].
  bind_eq ltac:(reflexivity).
  set (samples := combine inputs expected).
  set (lr := learnRate n).
  set (w0 := mkWorld (denses w) (arrays w) (rand_source w) (files w)
                     (stdout w ++ [BeganTraining epochs])).
  assert (Hnet0 : network_in w0 n L)
    by (apply (network_in_same_heap w w0); [reflexivity | reflexivity | exact Hnet]).
  assert (Hsamples : len inputs = len samples).
  { unfold len, samples. rewrite length_combine. lia. }
  apply returns_bind.
  eapply returns_mono.
  - apply (for_up_returns (fun k (_ : unit) wk =>
      network_in wk n (train_state lr L samples k) /\
      stdout wk = stdout w ++ BeganTraining epochs
                           :: map (epoch_line lr L samples epochs) (seq 0 k) /\
      dense_kept w wk /\ rand_source wk = rand_source w /\ files wk = files w)).
    + split; [exact Hnet0 |]. split; [reflexivity |].
      split; [exists []; simpl; symmetry; apply app_nil_r |]. split; reflexivity.
    + intros k [] wk Hk (Hnetk & Hsk & Hkk & Hrk & Hfk). rewrite Z.add_0_l.
      apply returns_bind.
      eapply returns_mono;
        [exact (Train_epoch wk n _ inputs expected Hnetk Hlen Hin Hex) |].
      intros avgCost w1 (Hnet1 & Hcost & Hk1 & Hr1 & Hf1 & Hs1).
      eapply returns_eq; [reflexivity |].
      cbn [denses arrays rand_source files stdout].
      split; [| split; [| split; [| split]]].
      * apply (network_in_same_heap w1); [reflexivity | reflexivity |]. exact Hnet1.
      * rewrite Hs1, Hsk, seq_S, map_app. cbn [map Nat.add].
        rewrite <- app_assoc. cbn [app]. unfold epoch_line at 2.
        rewrite Hcost, Hsamples. fold samples. fold lr. reflexivity.
      * destruct (dense_kept_trans _ _ _ Hkk Hk1) as [more Hmore].
        exists more. exact Hmore.
      * congruence.
      * congruence.
  - intros [] w1 (Hnet1 & Hs1 & Hk1 & Hr1 & Hf1).
    replace (epochs =? 0) with false by (symmetry; apply Z.eqb_neq; lia).
    eapply returns_eq; [reflexivity |].
    cbn [denses arrays rand_source files stdout]. cbv zeta. fold samples. fold lr.
    split; [| split; [| split; [| split]]].
    + apply (network_in_same_heap w1); [reflexivity | reflexivity |]. exact Hnet1.
    + rewrite Hs1. unfold training_log. rewrite <- app_assoc. reflexivity.
    + destruct Hk1 as [more Hmore]. exists more. exact Hmore.
    + exact Hr1.
    + exact Hf1.
Qed.

Lemma Train_is_repeated_backpropagation_witness :
  returns (Train xor_net [[1%R; 0%R]] [[1%R]] 1) xor_world (fun _ w' =>
    network_in w' xor_net
      (train_state (1 / 10) xor_values (combine [[1%R; 0%R]] [[1%R]]) (Z.to_nat 1)) /\
    stdout w' = training_log (1 / 10) xor_values (combine [[1%R; 0%R]] [[1%R]]) 1).
Proof.
  eapply returns_mono.
  - apply (Train_is_repeated_backpropagation xor_world xor_net xor_values
             [[1%R; 0%R]] [[1%R]] 1).
    + exact xor_network_in.
    + reflexivity.
    + repeat constructor.
    + repeat constructor.
    + lia.
  - intros [] w' (Hnet & Hout & _). split; [exact Hnet | exact Hout].
Defined.

Lemma keeps_totalCost a got expected : keeps (only_array a) (totalCost got expected).
Proof. unfold totalCost. repeat frame_step. Qed.

Lemma keeps_Train a n inputs expected epochs :
  layers n = SliceOf a -> keeps (only_array a) (Train n inputs expected epochs).
Proof.
  intros Hn. unfold Train.
  repeat first [ apply (keeps_backpropagate a n _ _ Hn) | apply keeps_Calc
               | apply keeps_totalCost | frame_step ].
Qed.

(** X20. Training a copy never changes the source, and training the source
    never changes the copy: after [Copy], whatever [Train] is called with
    on one of the two networks, and whether it returns or panics, the other
    holds the matrices it held. *)
Theorem Train_on_a_copy_leaves_the_source
  (w : world) (n : Network) (L : list (Dense * Dense)) :
  network_in w n L ->
  returns (Copy n) w (fun m w' =>
    forall inputs expected epochs,
      network_values (snd (Train m inputs expected epochs w')) n = Some L /\
      network_values (snd (Train n inputs expected epochs w')) m = Some L).
Proof.
  intros Hnet.
  eapply returns_mono; [exact (Copy_returns w n L Hnet) |].
  intros m w' (an & Hn & Hlt & Hm & Hlen & _ & _ & _ & _ & _ & _ & Hnetn & Hnetm).
  intros inputs expected epochs. split.
  - apply (network_values_only_array w' _ n (length (arrays w)) an L
             (keeps_Train _ m inputs expected epochs Hm w') Hn ltac:(lia) (proj1 Hnetn)).
  - apply (network_values_only_array w' _ m an (length (arrays w)) L
             (keeps_Train _ n inputs expected epochs Hn w') Hm ltac:(lia) (proj1 Hnetm)).
Qed.

Lemma Train_on_a_copy_leaves_the_source_witness :
  returns (Copy xor_net) xor_world (fun m w' =>
    forall inputs expected epochs,
      network_values (snd (Train m inputs expected epochs w')) xor_net = Some xor_values /\
      network_values (snd (Train xor_net inputs expected epochs w')) m = Some xor_values).
Proof.
  apply (Train_on_a_copy_leaves_the_source xor_world xor_net xor_values).
  exact xor_network_in.
Defined.

(* ================================================================= *)
(** ** Further properties of [Perturb] *)




Lemma within_refl s A : (0 <= s)%R -> within s A A.
Proof.
  intros Hs. split; [reflexivity | split; [reflexivity |]].
  intros r c _ _. replace (at_ A r c - at_ A r c)%R with 0%R by ring. lra.
Qed.




(* ================================================================= *)
(** ** Further properties of [Save] and [Load] *)

(** X22. When the file cannot be created [Save] returns the error of
    [os.Create] and has done nothing: no file, no matrix and no layer is
    changed. *)
Theorem Save_reports_creation_failure (n : Network) (filename : string) (w : world) :
  lookup filename (files w) = Some Unwritable ->
  Save n filename w = (Ok (Some ErrCreate), w).
Proof.
  intros Hfile. unfold Save, bind, os_Create. rewrite Hfile. reflexivity.
Qed.

Lemma Save_reports_creation_failure_witness :
  Save xor_net "net.zip"
       (mkWorld [] [] (fun _ => 0%R) [("net.zip"%string, Unwritable)] [])
  = (Ok (Some ErrCreate),
     mkWorld [] [] (fun _ => 0%R) [("net.zip"%string, Unwritable)] []).
Proof.
  apply (Save_reports_creation_failure xor_net "net.zip"
           (mkWorld [] [] (fun _ => 0%R) [("net.zip"%string, Unwritable)] [])).
  reflexivity.
Defined.





(** X25. [Load] returns the zero network and an error, and changes nothing,
    when there is no archive under the file name (no file, a file that is
    not an archive, one not yet closed), and when the metadata entry of the
    archive is not a JSON document. *)
Theorem Load_reports_unreadable_archive (w : world) (filename : string) :
  ((forall z, lookup filename (files w) <> Some (ZipFile z)) ->
   Load filename w = (Ok (zero_Network, Some ErrOpenArchive), w)) /\
  (forall z, lookup filename (files w) = Some (ZipFile z) ->
     (forall opts, lookup "meta.json"%string z <> Some (Json opts)) ->
     lookup "meta.json"%string z <> None ->
     Load filename w = (Ok (zero_Network, Some ErrSyntax), w)).
Proof.
  split.
  - intros Hnone. unfold Load, bind, zip_OpenReader.
    destruct (lookup filename (files w)) as [[z | |] |]; try reflexivity.
    exfalso. exact (Hnone z eq_refl).
  - intros z Hfile Hmeta Hsome. unfold Load, bind, zip_OpenReader. rewrite Hfile.
    unfold zip_Open.
    destruct (lookup "meta.json"%string z) as [[opts | d |] |]; try reflexivity.
    + exfalso. exact (Hmeta opts eq_refl).
    + congruence.
Qed.

(** A computation that cannot end without an error. *)
Lemma bind_never_loads {A} (c : M A) (k : A -> M (option error)) w :
  (forall a w', fst (k a w') <> Ok None) -> fst (bind c k w) <> Ok None.
Proof.
  intros Hk. unfold bind. destruct (c w) as [[a | e] w']; [apply Hk | discriminate].
Qed.

Lemma index_in_range {A} (l : list A) k (w : world) a w' :
  index l k w = (Ok a, w') -> 0 <= k < len l.
Proof.
  unfold index. destruct ((k <? 0) || (len l <=? k)) eqn:E; [discriminate |].
  intros _. apply orb_false_iff in E. destruct E as (E1 & E2).
  apply Z.ltb_ge in E1. apply Z.leb_gt in E2. lia.
Qed.

(** The loop of [Load] on a path list that ends before the layers do. *)
Lemma Load_layers_short count : forall j n opts z w,
  (j <= length (WPaths opts) < j + count)%nat \/
  (j <= length (BPaths opts) < j + count)%nat ->
  fst (Load_layers count (Z.of_nat j) n opts z w) <> Ok None.
Proof.
  induction count as [| count IH]; intros j n opts z w Hshort; [lia |].
  cbn [Load_layers]. unfold bind at 1.
  destruct (index (WPaths opts) (Z.of_nat j) w) as [[wpath | e] w1] eqn:Hw;
    [| discriminate].
  apply index_in_range in Hw. unfold len in Hw.
  destruct (zip_Open z wpath) as [bytes | e]; [| discriminate].
  do 5 (apply bind_never_loads; intros ? ?).
  apply bind_never_loads. intros [e |] w2; [discriminate |].
  unfold bind at 1.
  destruct (index (BPaths opts) (Z.of_nat j) w2) as [[bpath | e] w3] eqn:Hb;
    [| discriminate].
  apply index_in_range in Hb. unfold len in Hb.
  destruct (zip_Open z bpath) as [bytes' | e]; [| discriminate].
  do 5 (apply bind_never_loads; intros ? ?).
  apply bind_never_loads. intros [e |] w4; [discriminate |].
  replace (Z.of_nat j + 1) with (Z.of_nat (S j)) by lia.
  apply IH. lia.
Qed.

(** X26. Metadata that names fewer weight paths, or fewer bias paths, than
    the network has layers never loads: [Load] returns an error for an
    earlier entry or panics with an index out of range on the path list,
    and so never returns a network without an error. *)
Theorem Load_needs_a_path_for_every_layer
  (w : world) (filename : string) (z : archive) (opts : NetworkOptions) (n : Network) :
  lookup filename (files w) = Some (ZipFile z) ->
  lookup "meta.json"%string z = Some (Json opts) ->
  optH opts <> [] -> 0 < optI opts -> 0 < optO opts ->
  Forall (fun s => 0 < s) (optH opts) ->
  (length (WPaths opts) <= length (optH opts))%nat \/
  (length (BPaths opts) <= length (optH opts))%nat ->
  fst (Load filename w) <> Ok (n, None).
Proof.
  intros Hfile Hmeta Hne Hin Hout Hpos Hshort.
  unfold Load, bind at 1, zip_OpenReader. rewrite Hfile.
  unfold zip_Open. rewrite Hmeta. cbn [json_Unmarshal].
  destruct (NewNetwork_returns w (optI opts) (optO opts) (optH opts) (Learn opts)
              Hne Hin Hout Hpos) as (m & w1 & Hnew & Hm & _).
  rewrite (bind_Ok _ _ _ _ _ Hnew).
  pose proof (Load_layers_short (Z.to_nat (h m)) O m opts z w1) as Hloop.
  rewrite Hm in Hloop. cbn [h] in Hloop.
  replace (Z.to_nat (len (optH opts) + 1)) with (S (length (optH opts))) in Hloop
    by (unfold len; lia).
  specialize (Hloop ltac:(lia)).
  rewrite Hm. cbn [h].
  replace (Z.to_nat (len (optH opts) + 1)) with (S (length (optH opts)))
    by (unfold len; lia).
  change (Z.of_nat 0) with 0 in Hloop.
  unfold bind.
  destruct (Load_layers (S (length (optH opts))) 0 _ opts z w1) as [[[e |] | e] w2];
    simpl in *; congruence.
Qed.

Lemma Load_needs_a_path_for_every_layer_witness :
  fst (Load "net.zip"
         (mkWorld [] [] (fun _ => 0%R)
            [("net.zip"%string,
              ZipFile [("meta.json"%string, Json (mkOptions 2 1 [2] (1 / 10) [] []))])] []))
  <> Ok (xor_net, None).
Proof.
  apply (Load_needs_a_path_for_every_layer _ "net.zip"
           [("meta.json"%string, Json (mkOptions 2 1 [2] (1 / 10) [] []))]
           (mkOptions 2 1 [2] (1 / 10) [] []) xor_net).
  - reflexivity.
  - reflexivity.
  - discriminate.
  - simpl. lia.
  - simpl. lia.
  - repeat constructor.
  - left. simpl. lia.
Defined.

(** X27. The entries of an archive never collide: the names
    [Sprintf("%dw.bin", k)] and [Sprintf("%db.bin", k)] differ from one
    layer to another, a weight name is never a bias name, and neither is
    ever ["meta.json"]. *)
Theorem archive_entry_names_never_collide (j k : Z) :
  (wname j = wname k -> j = k) /\ (bname j = bname k -> j = k) /\
  wname j <> bname k /\
  wname j <> "meta.json"%string /\ bname j <> "meta.json"%string.
Proof.
  split; [apply wname_inj |]. split; [apply bname_inj |].
  split; [apply wname_bname |].
  split; intros Heq; symmetry in Heq;
    [exact (meta_wname j Heq) | exact (meta_bname j Heq)].
Qed.

(** X28. [Load] writes into matrices in place ([Reset], then
    [UnmarshalBinaryFrom]), but only into those of the network it has just
    built: a network that existed before the call holds the same matrices
    after it, whether [Load] returns the loaded network or an error. *)
Theorem Load_leaves_existing_networks_alone
  (w : world) (filename : string) (z : archive) (opts : NetworkOptions)
  (n0 : Network) (L0 : list (Dense * Dense)) :
  lookup filename (files w) = Some (ZipFile z) ->
  lookup "meta.json"%string z = Some (Json opts) ->
  usable_options opts ->
  network_values w n0 = Some L0 ->
  returns (Load filename) w (fun _ w' => network_values w' n0 = Some L0).
Proof.
  intros Hfile Hmeta Husable HL0.
  eapply returns_mono; [exact (Load_returns w filename z opts Hfile Hmeta Husable) |].
  intros r w' (Hkept & (ls & Harr) & _).
  unfold network_values, network_layers in *. rewrite Harr.
  destruct (layers n0) as [| a]; [discriminate |].
  destruct (nth_error (arrays w) a) as [ls0 |] eqn:Ha; [| discriminate].
  rewrite nth_error_app1 by (apply nth_error_Some; congruence).
  rewrite Ha. apply (layer_values_kept w w'); assumption.
Qed.

Lemma Load_leaves_existing_networks_alone_witness :
  returns (Load "net.zip")
    (mkWorld (denses xor_world) (arrays xor_world) (fun _ => 0%R)
             [("net.zip"%string, ZipFile odd_archive)] [])
    (fun _ w' => network_values w' xor_net = Some xor_values).
Proof.
  apply (Load_leaves_existing_networks_alone _ "net.zip" odd_archive
           (mkOptions 2 1 [2] (1 / 10)%R
              ["0w.bin"; "1w.bin"]%string ["0b.bin"; "1b.bin"]%string)
           xor_net xor_values).
  - reflexivity.
  - reflexivity.
  - unfold usable_options; simpl.
    repeat split; try lia; try discriminate. repeat constructor.
  - reflexivity.
Defined.
